(** * Course service: schedule codec, permission gate and bulk import

    A shallow embedding of [course.service.ts] (functions [createCourse],
    [mapCourseFromDB] and [bulkImportCourses]) together with the
    properties of its schedule codec and of its bulk-import pipeline.

    Conventions of the embedding.
    - A JavaScript value of type [string | undefined] is an [option string];
      a template literal renders [undefined] as the text "undefined".
    - Every [await] on the backend client is a call that either returns a
      value or rejects with an error; the backend itself is a parameter.
    - [console.log] and [console.error] are not part of the model. *)

From Stdlib Require Import String Ascii List Bool Arith Lia.
From Stdlib Require Import DecimalString.
Import ListNotations.

Local Open Scope list_scope.
Local Open Scope string_scope.

(** ** JavaScript string primitives used by the service *)

Module JsString.

(** [String.prototype.startsWith]: [p] is a prefix of [s]. *)
Fixpoint startsWith (p s : string) : bool :=
  match p, s with
  | EmptyString, _ => true
  | String _ _, EmptyString => false
  | String a p', String b s' => Ascii.eqb a b && startsWith p' s'
  end.

(** [String.prototype.includes]: [sub] occurs somewhere in [s]. *)
Fixpoint includes (sub s : string) : bool :=
  startsWith sub s ||
  match s with
  | EmptyString => false
  | String _ s' => includes sub s'
  end.

(** The scan of [String.prototype.split] for a non-empty separator:
    the text is read left to right; at a position where the separator
    matches, the current piece is closed and the separator is skipped
    ([skip] counts the characters of it still to be passed over);
    otherwise the character joins the current piece.  The result always
    ends with the piece that was open at the end of the text. *)
Fixpoint split_scan (sep : string) (skip : nat) (s : string) : list string :=
  match s with
  | EmptyString => [""]
  | String c s' =>
      match skip with
      | S k => split_scan sep k s'
      | O =>
          if startsWith sep s
          then "" :: split_scan sep (String.length sep - 1) s'
          else match split_scan sep 0 s' with
               | p :: ps => String c p :: ps
               | [] => [String c ""]
               end
      end
  end.

(** [s.split(sep)].  With the empty separator JavaScript returns the
    characters of [s]. *)
Definition split (sep s : string) : list string :=
  match sep with
  | EmptyString => map (fun c => String c "") (list_ascii_of_string s)
  | String _ _ => split_scan sep 0 s
  end.

(** [arr.join(sep)] on an array of strings. *)
Definition join (sep : string) (l : list string) : string :=
  String.concat sep l.

(** A value interpolated in a template literal. *)
Definition template (v : option string) : string :=
  match v with
  | Some s => s
  | None => "undefined"
  end.

(** Truthiness of a [string | undefined]: [undefined] and the empty
    string are falsy. *)
Definition truthy (v : option string) : bool :=
  match v with
  | Some (String _ _) => true
  | _ => false
  end.

(** [a || b]. *)
Definition or_else (a b : option string) : option string :=
  if truthy a then a else b.

(** A number interpolated in a template literal. *)
Definition of_nat (n : nat) : string :=
  NilEmpty.string_of_uint (Nat.to_uint n).

End JsString.

(** ** Data of the course service *)

(** One class-time slot.  The three fields are what the object literals of
    [mapCourseFromDB] carry: array destructuring leaves a missing element
    [undefined]. *)
Record ClassTime : Type := mkClassTime {
  day : option string;
  time : option string;
  classroom : option string
}.

(** ** Schedule codec *)

(** The template of lines 243 and 592:
    [`${ct.day} at ${ct.time}${ct.classroom ? ` in ${ct.classroom}` : ''}`]. *)
Definition formatClassTime (ct : ClassTime) : string :=
  JsString.template (day ct) ++ " at " ++ JsString.template (time ct) ++
  (if JsString.truthy (classroom ct)
   then " in " ++ JsString.template (classroom ct)
   else "").

(** [classTimes.map(ct => ...).join(', ')]. *)
Definition formatClassTimes (cts : list ClassTime) : string :=
  JsString.join ", " (map formatClassTime cts).

(** The callback of lines 504-515, applied to one fragment.  [split] never
    returns an empty array (lemma [split_nonempty] below), so the first
    element of [timeStr.split(' in ')] is always a string; [hd] takes it. *)
Definition parseClassTime (timeStr : string) : ClassTime :=
  let hasClassroom := JsString.includes " in " timeStr in
  if hasClassroom then
    let parts := JsString.split " in " timeStr in
    let timeInfo := hd "" parts in
    let classroom := nth_error parts 1 in
    let dt := JsString.split " at " timeInfo in
    mkClassTime (nth_error dt 0) (nth_error dt 1) classroom
  else
    let dt := JsString.split " at " timeStr in
    mkClassTime (nth_error dt 0) (nth_error dt 1) None.

(** [data.class_time.split(', ').map(...)]. *)
Definition parseClassTimes (class_time : string) : list ClassTime :=
  map parseClassTime (JsString.split ", " class_time).

(** ** Values exchanged with the backend *)

(** An error object; the service reads its [message] only. *)
Record JsError : Type := mkError { err_message : string }.

(** How an awaited call ends: with a value, or rejected (an exception at
    the [await]). *)
Inductive Reply (A : Type) : Type :=
| Returned (a : A)
| Rejected (e : JsError).
Arguments Returned {A} a.
Arguments Rejected {A} e.

(** The [{ data, error }] object of a store query: the client types it as
    either data with a null error, or an error with null data. *)
Inductive Response (A : Type) : Type :=
| Data (a : A)
| Failure (e : JsError).
Arguments Data {A} a.
Arguments Failure {A} e.

Record UserMetadata : Type := mkMetadata {
  role : option string;
  sectionId : option string
}.

Record User : Type := mkUser {
  user_id : string;
  email : option string;
  user_metadata : option UserMetadata
}.

(** [NewCourse]: a candidate course.  The fields the service tests for
    truthiness are optional. *)
Record NewCourse : Type := mkNewCourse {
  name : string;
  code : string;
  teacher : option string;
  teacherId : option string;
  classTimes : list ClassTime;
  telegramGroup : option string;
  blcLink : option string;
  blcEnrollKey : option string;
  credit : option nat;
  section : option string
}.

(** The object given to [from('courses').insert]. *)
Record CourseInsert : Type := mkCourseInsert {
  ins_name : string;
  ins_code : string;
  ins_teacher : option string;
  ins_class_time : string;
  ins_telegram_group : option string;
  ins_blc_link : option string;
  ins_blc_enroll_key : option string;
  ins_credit : option nat;
  ins_section : option string;
  ins_teacher_id : option string
}.

(** The object given to [from('teachers').insert]. *)
Record TeacherInsert : Type := mkTeacherInsert {
  t_name : string;
  t_phone : string;
  t_department : option string
}.

(** A row of [teachers] as the store returns it. *)
Record TeacherRow : Type := mkTeacherRow {
  teacher_row_id : string;
  teacher_row_name : string
}.

(** A row of [courses] as the store returns it. *)
Record CourseRow : Type := mkCourseRow {
  db_id : string;
  db_name : string;
  db_code : string;
  db_teacher : option string;
  db_class_time : string;
  db_telegram_group : option string;
  db_blc_link : option string;
  db_blc_enroll_key : option string;
  db_credit : option nat;
  db_section : option string;
  db_created_at : string;
  db_created_by : option string
}.

(** [Course], the application entity built by [mapCourseFromDB]. *)
Record Course : Type := mkCourse {
  course_id : string;
  course_name : string;
  course_code : string;
  course_teacher : option string;
  course_classTimes : list ClassTime;
  course_telegramGroup : option string;
  course_blcLink : option string;
  course_blcEnrollKey : option string;
  course_credit : option nat;
  course_section : option string;
  course_createdAt : string;
  course_createdBy : option string
}.

(** Lines 502-531. *)
Definition mapCourseFromDB (data : CourseRow) : Course :=
  let classTimes := parseClassTimes (db_class_time data) in
  {| course_id := db_id data;
     course_name := db_name data;
     course_code := db_code data;
     course_teacher := db_teacher data;
     course_classTimes := classTimes;
     course_telegramGroup := db_telegram_group data;
     course_blcLink := db_blc_link data;
     course_blcEnrollKey := db_blc_enroll_key data;
     course_credit := db_credit data;
     course_section := db_section data;
     course_createdAt := db_created_at data;
     course_createdBy := db_created_by data |}.

(** One element of the [errors] array.  [isWarning] and [isSuccess] are
    [false] where the object literal leaves them out; [details] is the
    error object when the literal carries one. *)
Record ImportOutcome : Type := mkOutcome {
  message : string;
  isWarning : bool;
  isSuccess : bool;
  details : option JsError
}.

(** The value [bulkImportCourses] resolves to. *)
Record ImportReport : Type := mkReport {
  success : nat;
  errors : list ImportOutcome
}.

(** Every call the service makes on the backend, with the way it ended. *)
Inductive Event : Type :=
| EvGetUser (r : Reply (option User))
| EvUsersSelectRole (id : string) (r : Reply (Response (option string)))
| EvCoursesSelectByCode (c : string) (r : Reply (Response (option string)))
| EvCheckTeacherNameExists (n : string) (r : Reply bool)
| EvTeachersInsert (t : TeacherInsert) (r : Reply (Response TeacherRow))
| EvTeachersSelectIlike (n : string)
    (r : Reply (Response (option TeacherRow)))
| EvCoursesInsert (c : CourseInsert) (r : Reply (Response CourseRow)).

(** The backend client: the session provider, the store queries the
    service issues, and [checkTeacherNameExists] of the teacher service.
    Each call may change the backend's state [W]. *)
Record Backend (W : Type) : Type := mkBackend {
  (** [supabase.auth.getUser()], the [user] of its data. *)
  auth_getUser : W -> Reply (option User) * W;
  (** [from('users').select('role').eq('id', id).single()]. *)
  users_select_role : string -> W -> Reply (Response (option string)) * W;
  (** [from('courses').select('id, code').eq('code', c).maybeSingle()];
      the data is the id of the row found, if any. *)
  courses_select_by_code :
    string -> W -> Reply (Response (option string)) * W;
  (** [checkTeacherNameExists(name)], imported from the teacher service;
      its code is not among the sources, so its answer is left to the
      backend. *)
  checkTeacherNameExists : string -> W -> Reply bool * W;
  (** [from('teachers').insert(t).select().single()]. *)
  teachers_insert : TeacherInsert -> W -> Reply (Response TeacherRow) * W;
  (** [from('teachers').select('id').ilike('name', n).maybeSingle()]. *)
  teachers_select_ilike :
    string -> W -> Reply (Response (option TeacherRow)) * W;
  (** [from('courses').insert(c).select().single()]. *)
  courses_insert : CourseInsert -> W -> Reply (Response CourseRow) * W
}.
Arguments auth_getUser {W} _ _.
Arguments users_select_role {W} _ _ _.
Arguments courses_select_by_code {W} _ _ _.
Arguments checkTeacherNameExists {W} _ _ _.
Arguments teachers_insert {W} _ _ _.
Arguments teachers_select_ilike {W} _ _ _.
Arguments courses_insert {W} _ _ _.

(** ** Control flow: state, exceptions, try/catch *)

(** What running a block yields: its value, or the exception it threw. *)
Inductive Result (A : Type) : Type :=
| Val (a : A)
| Exn (e : JsError).
Arguments Val {A} a.
Arguments Exn {A} e.

(** A block of code over a state [S].  The state a block leaves behind is
    kept when it throws: what was pushed or sent before the exception is
    not undone. *)
Definition M (S A : Type) : Type := S -> Result A * S.

Definition ret {S A : Type} (a : A) : M S A := fun s => (Val a, s).

Definition bind {S A B : Type} (m : M S A) (k : A -> M S B) : M S B :=
  fun s =>
    match m s with
    | (Val a, s') => k a s'
    | (Exn e, s') => (Exn e, s')
    end.

Definition throw {S A : Type} (e : JsError) : M S A := fun s => (Exn e, s).

(** [try { m } catch (error) { h error }]. *)
Definition try_catch {S A : Type} (m : M S A) (h : JsError -> M S A) : M S A :=
  fun s =>
    match m s with
    | (Val a, s') => (Val a, s')
    | (Exn e, s') => h e s'
    end.

Declare Scope js_scope.
Delimit Scope js_scope with js.
Notation "x <- m ;; k" := (bind m (fun x => k))
  (at level 61, m at next level, right associativity) : js_scope.
Notation "m ;;; k" := (bind m (fun _ => k))
  (at level 61, right associativity) : js_scope.

(** The double-quote character of the message templates. *)
Definition dquote : string := String (ascii_of_nat 34) EmptyString.

Section Service.

Variable W : Type.
Variable db : Backend W.

(** The backend's state and the calls made so far, oldest first. *)
Record Env : Type := mkEnv {
  world : W;
  trace : list Event
}.

(** An awaited backend call: it is recorded, and a rejection is thrown. *)
Definition call {A : Type} (f : W -> Reply A * W) (ev : Reply A -> Event)
  : M Env A :=
  fun s =>
    let (r, w') := f (world s) in
    let s' := {| world := w'; trace := trace s ++ [ev r] |} in
    match r with
    | Returned a => (Val a, s')
    | Rejected e => (Exn e, s')
    end.

(** [user?.user_metadata?.role] and [user?.user_metadata?.sectionId]. *)
Definition role_of (user : option User) : option string :=
  match user with
  | Some u => match user_metadata u with
              | Some md => role md
              | None => None
              end
  | None => None
  end.

Definition sectionId_of (user : option User) : option string :=
  match user with
  | Some u => match user_metadata u with
              | Some md => sectionId md
              | None => None
              end
  | None => None
  end.

(** [userRole === lit]. *)
Definition role_is (userRole : option string) (lit : string) : bool :=
  match userRole with
  | Some r => String.eqb r lit
  | None => false
  end.

(** The test of lines 230 and 571:
    [!userRole || (userRole !== 'admin' && userRole !== 'section_admin')]. *)
Definition role_denied (userRole : option string) : bool :=
  negb (JsString.truthy userRole) ||
  (negb (role_is userRole "admin") &&
   negb (role_is userRole "section_admin")).

(** [classTimes.map(...).join(', ')] and the object of lines 255-265. *)
Definition createCourse_insert (course : NewCourse) : CourseInsert :=
  {| ins_name := name course;
     ins_code := code course;
     ins_teacher := teacher course;
     ins_class_time := formatClassTimes (classTimes course);
     ins_telegram_group := telegramGroup course;
     ins_blc_link := blcLink course;
     ins_blc_enroll_key := blcEnrollKey course;
     ins_credit := credit course;
     ins_section := section course;
     ins_teacher_id := None |}.

(** [createCourse], lines 223-280.  The outer [catch] logs and rethrows. *)
Definition createCourse (course : NewCourse) : M Env Course :=
  try_catch
    (user <- call (auth_getUser db) EvGetUser ;;
     let userRole := role_of user in
     if role_denied userRole then
       throw (mkError
         "Permission denied: Only admins and section admins can create courses")
     else if role_is userRole "section_admin"
             && negb (JsString.truthy (section course)) then
       throw (mkError "Section admin must specify a section for the course")
     else
       let row := createCourse_insert course in
       res <- call (courses_insert db row) (EvCoursesInsert row) ;;
       match res with
       | Failure error =>
           throw (mkError ("Failed to create course: " ++ err_message error))
       | Data data => ret (mapCourseFromDB data)
       end)%js
    (fun error => throw error).

(** *** Bulk import *)

(** The locals of [bulkImportCourses] next to the backend. *)
Record Run : Type := mkRun {
  env : Env;
  errs : list ImportOutcome;
  successCount : nat
}.

(** A backend call made from the bulk import. *)
Definition await {A : Type} (m : M Env A) : M Run A :=
  fun s =>
    let (r, e') := m (env s) in
    (r, {| env := e'; errs := errs s; successCount := successCount s |}).

(** [errors.push(o)]. *)
Definition push (o : ImportOutcome) : M Run unit :=
  fun s =>
    (Val tt,
     {| env := env s; errs := errs s ++ [o];
        successCount := successCount s |}).

(** [successCount++]. *)
Definition incr_success : M Run unit :=
  fun s =>
    (Val tt,
     {| env := env s; errs := errs s;
        successCount := S (successCount s) |}).

(** [`Course #${i + 1} (${course.code}): `], the head of the row
    messages. *)
Definition row_label (i : nat) (course : NewCourse) : string :=
  "Course #" ++ JsString.of_nat (i + 1) ++ " (" ++ code course ++ "): ".

Definition section_missing_warning (i : nat) (course : NewCourse)
  : ImportOutcome :=
  {| message := row_label i course ++
       "Section admin must specify a section for the course";
     isWarning := true; isSuccess := false; details := None |}.

Definition duplicate_error (i : nat) (course : NewCourse) : ImportOutcome :=
  {| message := row_label i course ++
       "A course with this code already exists";
     isWarning := false; isSuccess := false; details := None |}.

Definition teacher_error_warning (i : nat) (course : NewCourse)
    (teacherError : JsError) : ImportOutcome :=
  {| message := row_label i course ++ "Warning - Could not create teacher " ++
       dquote ++ JsString.template (teacher course) ++ dquote ++ ": " ++
       err_message teacherError;
     isWarning := true; isSuccess := false; details := None |}.

Definition teacher_created_warning (course : NewCourse) : ImportOutcome :=
  {| message := "Created teacher " ++ dquote ++
       JsString.template (teacher course) ++ dquote ++ " for course " ++
       dquote ++ code course ++ dquote;
     isWarning := true; isSuccess := true; details := None |}.

Definition teacher_thrown_warning (i : nat) (course : NewCourse)
    (teacherCreateError : JsError) : ImportOutcome :=
  {| message := row_label i course ++
       "Warning - Failed to create teacher: " ++
       err_message teacherCreateError;
     isWarning := true; isSuccess := false; details := None |}.

(** The outcome of lines 701-704 and of the row's [catch], 712-715. *)
Definition row_error (i : nat) (course : NewCourse) (error : JsError)
  : ImportOutcome :=
  {| message := row_label i course ++ err_message error;
     isWarning := false; isSuccess := false; details := Some error |}.

Definition batch_error (error : JsError) : ImportOutcome :=
  {| message := "Bulk import failed: " ++ err_message error;
     isWarning := false; isSuccess := false; details := Some error |}.

(** The object of lines 628-632. *)
Definition new_teacher (user : option User) (course : NewCourse)
  : TeacherInsert :=
  {| t_name := JsString.template (teacher course);
     t_phone := "N/A";
     t_department :=
       JsString.or_else
         (JsString.or_else (section course) (sectionId_of user)) None |}.

(** The object of lines 684-695. *)
Definition bulk_insert (user : option User) (course : NewCourse)
    (teacherId : option string) : CourseInsert :=
  {| ins_name := name course;
     ins_code := code course;
     ins_teacher := teacher course;
     ins_class_time := formatClassTimes (classTimes course);
     ins_telegram_group := telegramGroup course;
     ins_blc_link := blcLink course;
     ins_blc_enroll_key := blcEnrollKey course;
     ins_credit := credit course;
     ins_section := JsString.or_else (section course) (sectionId_of user);
     ins_teacher_id := teacherId |}.

(** Lines 614-679: the value of [teacherId] when the insert is reached.
    [course.teacher] is a non-empty string where it is passed on. *)
Definition resolve_teacher (user : option User) (i : nat)
    (course : NewCourse) : M Run (option string) :=
  let teacherId := teacherId course in
  if negb (JsString.truthy teacherId) && JsString.truthy (teacher course)
  then
    let tname := JsString.template (teacher course) in
    (teacherExists <-
       await (call (checkTeacherNameExists db tname)
                   (EvCheckTeacherNameExists tname)) ;;
     if negb teacherExists then
       try_catch
         (let t := new_teacher user course in
          res <- await (call (teachers_insert db t) (EvTeachersInsert t)) ;;
          match res with
          | Failure teacherError =>
              push (teacher_error_warning i course teacherError) ;;;
              ret teacherId
          | Data newTeacher =>
              push (teacher_created_warning course) ;;;
              ret (Some (teacher_row_id newTeacher))
          end)
         (fun teacherCreateError =>
            push (teacher_thrown_warning i course teacherCreateError) ;;;
            ret teacherId)
     else
       try_catch
         (res <- await (call (teachers_select_ilike db tname)
                             (EvTeachersSelectIlike tname)) ;;
          match res with
          | Failure _ => ret teacherId
          | Data (Some existingTeacher) =>
              ret (Some (teacher_row_id existingTeacher))
          | Data None => ret teacherId
          end)
         (fun _ => ret teacherId))%js
  else ret teacherId.

(** The body of the row's [try], lines 581-709; [continue] ends it. *)
Definition row_body (userRole : option string) (user : option User)
    (i : nat) (course : NewCourse) : M Run unit :=
  if role_is userRole "section_admin"
     && negb (JsString.truthy (section course))
  then push (section_missing_warning i course)
  else
    (check <- await (call (courses_select_by_code db (code course))
                          (EvCoursesSelectByCode (code course))) ;;
     match check with
     | Failure checkError =>
         throw (mkError ("Error checking for existing course: " ++
                         err_message checkError))
     | Data (Some _) => push (duplicate_error i course)
     | Data None =>
         teacherId <- resolve_teacher user i course ;;
         let row := bulk_insert user course teacherId in
         res <- await (call (courses_insert db row) (EvCoursesInsert row)) ;;
         match res with
         | Failure error => push (row_error i course error)
         | Data _ => incr_success
         end
     end)%js.

(** One turn of the loop, lines 579-716. *)
Definition import_row (userRole : option string) (user : option User)
    (i : nat) (course : NewCourse) : M Run unit :=
  try_catch (row_body userRole user i course)
            (fun error => push (row_error i course error)).

(** [for (let i = ...; i < courses.length; i++)], from index [i] on. *)
Fixpoint import_rows (userRole : option string) (user : option User)
    (i : nat) (courses : list NewCourse) : M Run unit :=
  match courses with
  | [] => ret tt
  | course :: rest =>
      (import_row userRole user i course ;;;
       import_rows userRole user (S i) rest)%js
  end.

(** The body of the outer [try], lines 543-717. *)
Definition bulk_body (courses : list NewCourse) : M Run unit :=
  (user <- await (call (auth_getUser db) EvGetUser) ;;
   (if JsString.truthy (option_map user_id user) then
      let id := JsString.template (option_map user_id user) in
      _ <- await (call (users_select_role db id) (EvUsersSelectRole id)) ;;
      ret tt
    else ret tt) ;;;
   let userRole := role_of user in
   if role_denied userRole then
     throw (mkError
       "Permission denied: Only admins and section admins can import courses")
   else import_rows userRole user 0 courses)%js.

(** The state [bulkImportCourses] starts in. *)
Definition start (w : W) : Run :=
  {| env := {| world := w; trace := [] |}; errs := []; successCount := 0 |}.

(** [return { success: successCount, errors }]. *)
Definition report_of (s : Run) : ImportReport :=
  {| success := successCount s; errors := errs s |}.

Definition return_report : M Run ImportReport :=
  fun s => (Val (report_of s), s).

(** [bulkImportCourses], lines 538-728. *)
Definition bulkImportCourses (courses : list NewCourse)
  : M Run ImportReport :=
  (try_catch (bulk_body courses)
             (fun error => push (batch_error error)) ;;;
   return_report)%js.

End Service.

Arguments world {W} _.
Arguments trace {W} _.
Arguments mkEnv {W} _ _.
Arguments env {W} _.
Arguments errs {W} _.
Arguments successCount {W} _.
Arguments mkRun {W} _ _ _.
Arguments call {W A} _ _ _.
Arguments await {W A} _ _.
Arguments push {W} _ _.
Arguments incr_success {W} _.
Arguments createCourse {W} _ _ _.
Arguments resolve_teacher {W} _ _ _ _ _.
Arguments row_body {W} _ _ _ _ _ _.
Arguments import_row {W} _ _ _ _ _ _.
Arguments import_rows {W} _ _ _ _ _ _.
Arguments bulk_body {W} _ _ _.
Arguments start {W} _.
Arguments report_of {W} _.
Arguments return_report {W} _.
Arguments bulkImportCourses {W} _ _ _.

(** ** Reading the outcome list and the call record *)

(** A hard error is an outcome without the warning flag; a soft warning
    carries it. *)
Definition hard (o : ImportOutcome) : bool := negb (isWarning o).

(** Calls that look up the session, as opposed to calls made for a row. *)
Definition session_call (ev : Event) : bool :=
  match ev with
  | EvGetUser _ | EvUsersSelectRole _ _ => true
  | _ => false
  end.

(** A course insert call, and one that returned without error. *)
Definition insert_call (ev : Event) : bool :=
  match ev with
  | EvCoursesInsert _ _ => true
  | _ => false
  end.

Definition insert_ok (ev : Event) : bool :=
  match ev with
  | EvCoursesInsert _ (Returned (Data _)) => true
  | _ => false
  end.

Definition teacher_insert_call (ev : Event) : bool :=
  match ev with
  | EvTeachersInsert _ _ => true
  | _ => false
  end.

(** The condition of lines 236 and 582. *)
Definition section_missing (userRole : option string) (course : NewCourse)
  : bool :=
  role_is userRole "section_admin" && negb (JsString.truthy (section course)).

(** The state of a run after the loop has gone through [courses] from
    index [i]: every row is run, one after the other. *)
Fixpoint after_rows {W : Type} (db : Backend W) (userRole : option string)
    (user : option User) (i : nat) (courses : list NewCourse) (s : Run W)
  : Run W :=
  match courses with
  | [] => s
  | course :: rest =>
      after_rows db userRole user (S i) rest
        (snd (import_row db userRole user i course s))
  end.

(** What the insert call of a row adds to the outcomes and to the count. *)
Definition insert_outcomes (i : nat) (course : NewCourse)
    (r : Reply (Response CourseRow)) : list ImportOutcome :=
  match r with
  | Returned (Data _) => []
  | Returned (Failure error) => [row_error i course error]
  | Rejected error => [row_error i course error]
  end.

Definition insert_successes (r : Reply (Response CourseRow)) : nat :=
  match r with
  | Returned (Data _) => 1
  | _ => 0
  end.

(** The warning of a teacher creation that failed: the store answered
    with an error (lines 636-642), or the call was rejected (653-658). *)
Definition creation_warning (i : nat) (course : NewCourse)
    (r : Reply (Response TeacherRow)) : option ImportOutcome :=
  match r with
  | Returned (Data _) => None
  | Returned (Failure teacherError) =>
      Some (teacher_error_warning i course teacherError)
  | Rejected teacherCreateError =>
      Some (teacher_thrown_warning i course teacherCreateError)
  end.

(** ** Words of the schedule format *)

(** [starts_in sep a tail]: in the text [a ++ tail], the separator matches
    at some position that lies inside [a]. *)
Fixpoint starts_in (sep a tail : string) : bool :=
  match a with
  | EmptyString => false
  | String _ a' =>
      JsString.startsWith sep (a ++ tail) || starts_in sep a' tail
  end.

Definition delimiters : list string := [", "; " at "; " in "].

(** The hypothesis of the round-trip property as the specification words
    it: the field holds none of the delimiters. *)
Definition no_delimiter (f : option string) : bool :=
  match f with
  | Some s => forallb (fun d => negb (JsString.includes d s)) delimiters
  | None => true
  end.

Definition plain_entry (ct : ClassTime) : bool :=
  no_delimiter (day ct) && no_delimiter (time ct) &&
  no_delimiter (classroom ct).

(** A field is clean when no delimiter occurs in it, not even with the
    help of one space before it and one space after it. *)
Definition field_clean (f : string) : bool :=
  forallb (fun d => negb (JsString.includes d (" " ++ f ++ " "))) delimiters.

(** A class-time slot the codec can carry: day and time are present, a
    classroom that is present is not the empty string, and every field is
    clean. *)
Definition entry_ok (ct : ClassTime) : bool :=
  match day ct, time ct with
  | Some d, Some t =>
      field_clean d && field_clean t &&
      match classroom ct with
      | None => true
      | Some c => JsString.truthy (Some c) && field_clean c
      end
  | _, _ => false
  end.

(** What may follow a field or a fragment in an encoded schedule: the end
    of the text, a space, or a comma. *)
Definition boundary (tail : string) : Prop :=
  tail = "" \/ (exists X, tail = String " " X) \/
  (exists X, tail = String "," X).

(** ** An in-memory backend, to run the service on *)

Module Memory.

(** The session, the codes of the courses held, the teachers held, the
    codes whose insert the store refuses, and, when teacher inserts are
    to fail, the way they end. *)
Record Store : Type := mkStore {
  st_session : option User;
  st_courses : list string;
  st_teachers : list TeacherRow;
  st_refused : list string;
  st_teacher_fault : option (Reply (Response TeacherRow))
}.

Definition lower (c : ascii) : ascii :=
  let n := nat_of_ascii c in
  if Nat.leb 65 n && Nat.leb n 90 then ascii_of_nat (n + 32) else c.

Fixpoint toLowerCase (s : string) : string :=
  match s with
  | EmptyString => EmptyString
  | String c s' => String (lower c) (toLowerCase s')
  end.

(** The [ilike] filter on a name without wildcards; the name check of the
    teacher service is taken to compare the same way. *)
Definition ilike (n : string) (t : TeacherRow) : bool :=
  String.eqb (toLowerCase n) (toLowerCase (teacher_row_name t)).

Definition stored_row (n : nat) (c : CourseInsert) : CourseRow :=
  {| db_id := "c" ++ JsString.of_nat n;
     db_name := ins_name c;
     db_code := ins_code c;
     db_teacher := ins_teacher c;
     db_class_time := ins_class_time c;
     db_telegram_group := ins_telegram_group c;
     db_blc_link := ins_blc_link c;
     db_blc_enroll_key := ins_blc_enroll_key c;
     db_credit := ins_credit c;
     db_section := ins_section c;
     db_created_at := "2025-01-01T00:00:00Z";
     db_created_by := None |}.

Definition backend : Backend Store :=
  {| auth_getUser := fun w => (Returned (st_session w), w);
     users_select_role := fun _ w =>
       (Returned (Data (role_of (st_session w))), w);
     courses_select_by_code := fun c w =>
       (Returned (Data (find (String.eqb c) (st_courses w))), w);
     checkTeacherNameExists := fun n w =>
       (Returned (existsb (ilike n) (st_teachers w)), w);
     teachers_insert := fun t w =>
       match st_teacher_fault w with
       | Some r => (r, w)
       | None =>
           let row :=
             mkTeacherRow
               ("t" ++ JsString.of_nat (S (List.length (st_teachers w))))
               (t_name t) in
           (Returned (Data row),
            mkStore (st_session w) (st_courses w)
              (st_teachers w ++ [row]) (st_refused w) (st_teacher_fault w))
       end;
     teachers_select_ilike := fun n w =>
       (Returned (Data (find (ilike n) (st_teachers w))), w);
     courses_insert := fun c w =>
       if existsb (String.eqb (ins_code c)) (st_refused w)
       then (Returned (Failure
               (mkError "duplicate key value violates unique constraint")),
             w)
       else
         (Returned (Data (stored_row (S (List.length (st_courses w))) c)),
          mkStore (st_session w) (st_courses w ++ [ins_code c])
            (st_teachers w) (st_refused w) (st_teacher_fault w)) |}.

Definition signed_in (r : string) (sec : option string) : option User :=
  Some (mkUser "u1" (Some "admin@nesttask.com")
          (Some (mkMetadata (Some r) sec))).

(** A store with the given session and courses and nothing else. *)
Definition store (r : string) (sec : option string) (codes : list string)
  : Store :=
  mkStore (signed_in r sec) codes [] [] None.

Definition candidate (c : string) (t : option string) (sec : option string)
  : NewCourse :=
  {| name := "Algorithms"; code := c; teacher := t; teacherId := None;
     classTimes := [mkClassTime (Some "Mon") (Some "10:00") (Some "R1")];
     telegramGroup := None; blcLink := None; blcEnrollKey := None;
     credit := Some 3; section := sec |}.

(** The report of an import and the store it leaves. *)
Definition import (courses : list NewCourse) (w : Store)
  : Result ImportReport * Store :=
  let (r, s) := bulkImportCourses backend courses (start w) in
  (r, world (env s)).

End Memory.

(** ** More readings of the call record *)

(** The calls of the teacher step: the name check, the insert and the
    lookup. *)
Definition teacher_call (ev : Event) : bool :=
  match ev with
  | EvCheckTeacherNameExists _ _ | EvTeachersInsert _ _
  | EvTeachersSelectIlike _ _ => true
  | _ => false
  end.

Definition duplicate_check_call (ev : Event) : bool :=
  match ev with
  | EvCoursesSelectByCode _ _ => true
  | _ => false
  end.

(** The teacher step is entered: line 616, [!teacherId && course.teacher]. *)
Definition teacher_step (course : NewCourse) : bool :=
  negb (JsString.truthy (teacherId course)) && JsString.truthy (teacher course).

(** The teacher id a lookup of an existing teacher leaves, lines 662-677. *)
Definition looked_up_id (course : NewCourse)
    (r : Reply (Response (option TeacherRow))) : option string :=
  match r with
  | Returned (Data (Some existingTeacher)) =>
      Some (teacher_row_id existingTeacher)
  | _ => teacherId course
  end.

(** An awaited call that was rejected. *)
Definition rejected {A : Type} (r : Reply A) : bool :=
  match r with
  | Returned _ => false
  | Rejected _ => true
  end.

(** ** The rest of the course service: reading, updating, deleting *)

(** [Partial<Course>], the fields [updateCourse] reads. *)
Record CourseUpdates : Type := mkCourseUpdates {
  upd_name : option string;
  upd_code : option string;
  upd_teacher : option string;
  upd_classTimes : option (list ClassTime);
  upd_telegramGroup : option string;
  upd_blcLink : option string;
  upd_blcEnrollKey : option string;
  upd_credit : option nat;
  upd_section : option string
}.

(** The object given to [from('courses').update]. *)
Record CoursePatch : Type := mkCoursePatch {
  set_name : option string;
  set_code : option string;
  set_teacher : option string;
  set_class_time : option string;
  set_telegram_group : option string;
  set_blc_link : option string;
  set_blc_enroll_key : option string;
  set_credit : option nat;
  set_section : option string
}.

(** A row of [select('*, study_materials (id)')]: the course and the ids
    of its study materials, when the relation is there. *)
Record FetchedCourse : Type := mkFetchedCourse {
  fetched_row : CourseRow;
  study_materials : option (list string)
}.

(** The course joined to a study material: the columns of lines 344-355,
    which leave out [credit] and [section]. *)
Record JoinedCourse : Type := mkJoinedCourse {
  j_id : string;
  j_name : string;
  j_code : string;
  j_teacher : option string;
  j_class_time : string;
  j_telegram_group : option string;
  j_blc_link : option string;
  j_blc_enroll_key : option string;
  j_created_at : string;
  j_created_by : option string
}.

(** The joined object as [mapCourseFromDB] reads it: the keys it does not
    have are [undefined]. *)
Definition joined_data (j : JoinedCourse) : CourseRow :=
  {| db_id := j_id j; db_name := j_name j; db_code := j_code j;
     db_teacher := j_teacher j; db_class_time := j_class_time j;
     db_telegram_group := j_telegram_group j; db_blc_link := j_blc_link j;
     db_blc_enroll_key := j_blc_enroll_key j; db_credit := None;
     db_section := None; db_created_at := j_created_at j;
     db_created_by := j_created_by j |}.

(** A row of [study_materials] with its joined course. *)
Record MaterialRow : Type := mkMaterialRow {
  m_id : string;
  m_title : string;
  m_description : option string;
  m_course_id : option string;
  m_category : string;
  m_file_urls : option (list string);
  m_original_file_names : option (list string);
  m_created_at : string;
  m_created_by : option string;
  m_course : option JoinedCourse
}.

(** [StudyMaterial], the application entity. *)
Record StudyMaterial : Type := mkStudyMaterial {
  sm_id : string;
  sm_title : string;
  sm_description : option string;
  sm_courseid : option string;
  sm_category : string;
  sm_fileUrls : list string;
  sm_originalFileNames : list string;
  sm_createdAt : string;
  sm_createdBy : option string;
  sm_course : option Course
}.

(** [NewStudyMaterial]. *)
Record NewStudyMaterial : Type := mkNewStudyMaterial {
  nm_title : string;
  nm_description : option string;
  nm_courseId : option string;
  nm_category : string;
  nm_fileUrls : list string;
  nm_originalFileNames : list string
}.

(** The object given to [from('study_materials').insert]. *)
Record MaterialInsert : Type := mkMaterialInsert {
  mi_title : string;
  mi_description : option string;
  mi_course_id : option string;
  mi_category : string;
  mi_file_urls : list string;
  mi_original_file_names : list string
}.

(** [Partial<StudyMaterial>] as [updateStudyMaterial] reads it, which is
    also the shape of the object given to [update]. *)
Record MaterialPatch : Type := mkMaterialPatch {
  mp_title : option string;
  mp_description : option string;
  mp_course_id : option string;
  mp_category : option string;
  mp_file_urls : option (list string);
  mp_original_file_names : option (list string)
}.

(** The calls of these functions, with the way each ended. *)
Inductive StoreEvent : Type :=
| EvCoursesSelectAll (r : Reply (Response (option (list FetchedCourse))))
| EvCoursesUpdate (id : string) (p : CoursePatch)
    (r : Reply (Response CourseRow))
| EvCoursesDelete (id : string) (r : Reply (Response unit))
| EvMaterialsSelectAll (r : Reply (Response (list MaterialRow)))
| EvMaterialsInsert (m : MaterialInsert)
    (r : Reply (Response (option MaterialRow)))
| EvMaterialsUpdate (id : string) (p : MaterialPatch)
    (r : Reply (Response MaterialRow))
| EvMaterialsDelete (id : string) (r : Reply (Response unit)).

(** The store queries of these functions.  Where the source tests the
    data for null ([data ? ... : []] in [fetchCourses], [!data] in
    [createStudyMaterial]) the data is optional; elsewhere it is what the
    client's types say. *)
Record CourseStore (W : Type) : Type := mkCourseStore {
  courses_select_all :
    W -> Reply (Response (option (list FetchedCourse))) * W;
  courses_update :
    string -> CoursePatch -> W -> Reply (Response CourseRow) * W;
  courses_delete : string -> W -> Reply (Response unit) * W;
  materials_select_all : W -> Reply (Response (list MaterialRow)) * W;
  materials_insert :
    MaterialInsert -> W -> Reply (Response (option MaterialRow)) * W;
  materials_update :
    string -> MaterialPatch -> W -> Reply (Response MaterialRow) * W;
  materials_delete : string -> W -> Reply (Response unit) * W
}.
Arguments courses_select_all {W} _ _.
Arguments courses_update {W} _ _ _ _.
Arguments courses_delete {W} _ _ _.
Arguments materials_select_all {W} _ _.
Arguments materials_insert {W} _ _ _.
Arguments materials_update {W} _ _ _ _.
Arguments materials_delete {W} _ _ _.

(** An awaited call on a state made of the backend and a call record of
    any kind. *)
Definition invoke {W E A : Type} (f : W -> Reply A * W) (ev : Reply A -> E)
  : M (W * list E) A :=
  fun s =>
    let (r, w') := f (fst s) in
    let s' := (w', (snd s ++ [ev r])%list) in
    match r with
    | Returned a => (Val a, s')
    | Rejected e => (Exn e, s')
    end.

Section Crud.

Variable W : Type.
Variable st : CourseStore W.

(** [course.study_materials?.length || 0]. *)
Definition materialCount_of (course : FetchedCourse) : nat :=
  match study_materials course with
  | Some ids => List.length ids
  | None => 0
  end.

(** [fetchCourses], lines 200-221: the courses, each with its
    [materialCount]. *)
Definition fetchCourses : M (W * list StoreEvent) (list (Course * nat)) :=
  try_catch
    (res <- invoke (courses_select_all st) EvCoursesSelectAll ;;
     match res with
     | Failure error => throw error
     | Data data =>
         ret (match data with
              | Some rows =>
                  map (fun course =>
                         (mapCourseFromDB (fetched_row course),
                          materialCount_of course)) rows
              | None => []
              end)
     end)%js
    (fun error => throw error).

(** The object of lines 293-303. *)
Definition course_patch (updates : CourseUpdates) : CoursePatch :=
  let formattedClassTimes :=
    match upd_classTimes updates with
    | Some cts => Some (formatClassTimes cts)
    | None => None
    end in
  {| set_name := upd_name updates;
     set_code := upd_code updates;
     set_teacher := upd_teacher updates;
     set_class_time := formattedClassTimes;
     set_telegram_group := upd_telegramGroup updates;
     set_blc_link := upd_blcLink updates;
     set_blc_enroll_key := upd_blcEnrollKey updates;
     set_credit := upd_credit updates;
     set_section := upd_section updates |}.

(** [updateCourse], lines 282-314. *)
Definition updateCourse (id : string) (updates : CourseUpdates)
  : M (W * list StoreEvent) Course :=
  try_catch
    (let patch := course_patch updates in
     res <- invoke (courses_update st id patch) (EvCoursesUpdate id patch) ;;
     match res with
     | Failure error => throw error
     | Data data => ret (mapCourseFromDB data)
     end)%js
    (fun error => throw error).

(** [deleteCourse], lines 316-335. *)
Definition deleteCourse (id : string) : M (W * list StoreEvent) unit :=
  try_catch
    (res <- invoke (courses_delete st id) (EvCoursesDelete id) ;;
     match res with
     | Failure error => throw error
     | Data _ => ret tt
     end)%js
    (fun error => throw error).

(** The object literal of lines 361-372, 419-430 and 469-480:
    [file_urls || []] and
    [course ? mapCourseFromDB(course) : undefined]. *)
Definition materialFromDB (data : MaterialRow) : StudyMaterial :=
  {| sm_id := m_id data;
     sm_title := m_title data;
     sm_description := m_description data;
     sm_courseid := m_course_id data;
     sm_category := m_category data;
     sm_fileUrls :=
       match m_file_urls data with Some l => l | None => [] end;
     sm_originalFileNames :=
       match m_original_file_names data with Some l => l | None => [] end;
     sm_createdAt := m_created_at data;
     sm_createdBy := m_created_by data;
     sm_course :=
       match m_course data with
       | Some course => Some (mapCourseFromDB (joined_data course))
       | None => None
       end |}.

(** [fetchStudyMaterials], lines 338-377. *)
Definition fetchStudyMaterials
  : M (W * list StoreEvent) (list StudyMaterial) :=
  try_catch
    (res <- invoke (materials_select_all st) EvMaterialsSelectAll ;;
     match res with
     | Failure materialsError => throw materialsError
     | Data materials => ret (map materialFromDB materials)
     end)%js
    (fun error => throw error).

(** The object of lines 385-392. *)
Definition material_insert (material : NewStudyMaterial) : MaterialInsert :=
  {| mi_title := nm_title material;
     mi_description := nm_description material;
     mi_course_id := nm_courseId material;
     mi_category := nm_category material;
     mi_file_urls := nm_fileUrls material;
     mi_original_file_names := nm_originalFileNames material |}.

(** [createStudyMaterial], lines 379-435. *)
Definition createStudyMaterial (material : NewStudyMaterial)
  : M (W * list StoreEvent) StudyMaterial :=
  try_catch
    (let row := material_insert material in
     res <- invoke (materials_insert st row) (EvMaterialsInsert row) ;;
     match res with
     | Failure error =>
         throw (mkError ("Failed to create study material: " ++
                         err_message error))
     | Data None =>
         throw (mkError
           "No data returned from database after creating study material")
     | Data (Some data) => ret (materialFromDB data)
     end)%js
    (fun error => throw error).

(** [updateStudyMaterial], lines 437-485. *)
Definition updateStudyMaterial (id : string) (updates : MaterialPatch)
  : M (W * list StoreEvent) StudyMaterial :=
  try_catch
    (res <- invoke (materials_update st id updates)
                   (EvMaterialsUpdate id updates) ;;
     match res with
     | Failure error => throw error
     | Data data => ret (materialFromDB data)
     end)%js
    (fun error => throw error).

(** [deleteStudyMaterial], lines 487-499. *)
Definition deleteStudyMaterial (id : string)
  : M (W * list StoreEvent) unit :=
  try_catch
    (res <- invoke (materials_delete st id) (EvMaterialsDelete id) ;;
     match res with
     | Failure error => throw error
     | Data _ => ret tt
     end)%js
    (fun error => throw error).

End Crud.

Arguments fetchCourses {W} _ _.
Arguments updateCourse {W} _ _ _ _.
Arguments deleteCourse {W} _ _ _.
Arguments fetchStudyMaterials {W} _ _.
Arguments createStudyMaterial {W} _ _ _.
Arguments updateStudyMaterial {W} _ _ _ _.
Arguments deleteStudyMaterial {W} _ _ _.

(** The slot the empty text decodes to. *)
Definition blank_slot : ClassTime := mkClassTime (Some "") None None.

(** ** The admin dashboard: what a section admin sees *)

(** [TaskCategory] and [TaskStatus] of the task types. *)
Inductive TaskCategory : Type :=
| presentation | assignment | quiz | lab_report | lab_final
| lab_performance | task | documents | blc | groups | project | midterm
| final_exam | others | all.

Inductive TaskStatus : Type := my_tasks | in_progress | completed.

(** [Task]: [sectionId] is [string | null | undefined]; both empty values
    are [None], and neither is strictly equal to a string. *)
Record Task : Type := mkTask {
  task_id : string;
  task_name : string;
  task_category : TaskCategory;
  task_dueDate : string;
  task_description : string;
  task_status : TaskStatus;
  task_createdAt : string;
  task_isAdminTask : bool;
  task_sectionId : option string
}.

(** [NewTask = Omit<Task, 'id' | 'createdAt' | 'isAdminTask' | 'sectionId'>]. *)
Record NewTask : Type := mkNewTask {
  new_name : string;
  new_category : TaskCategory;
  new_dueDate : string;
  new_description : string;
  new_status : TaskStatus
}.

(** The application user, with the fields [useAuth] sets. *)
Record AppUser : Type := mkAppUser {
  app_id : string;
  app_email : option string;
  app_name : string;
  app_role : string;
  app_createdAt : option string;
  app_avatar : option string;
  app_phone : option string;
  app_studentId : option string;
  app_departmentId : option string;
  app_batchId : option string;
  app_sectionId : option string
}.

(** [a === b] on values that are a string or empty. *)
Definition strict_eq (a b : option string) : bool :=
  match a, b with
  | Some x, Some y => String.eqb x y
  | None, None => true
  | _, _ => false
  end.

(** The callback of [tasks.filter], lines 345-358 of the dashboard. *)
Definition task_relevant (users : list AppUser) (sectionId : option string)
    (t : Task) : bool :=
  if strict_eq (task_sectionId t) sectionId then true
  else
    existsb
      (fun u =>
         strict_eq (app_sectionId u) sectionId &&
         (task_isAdminTask t
          || JsString.includes (app_name u) (task_description t)
          || JsString.includes (app_name u) (task_name t)))
      users.

(** [filteredTasks], lines 331-359. *)
Definition filteredTasks (users : list AppUser) (tasks : list Task)
    (isSectionAdmin : bool) (sectionId : option string) : list Task :=
  if negb isSectionAdmin || negb (JsString.truthy sectionId) then tasks
  else filter (task_relevant users sectionId) tasks.

Section Announcements.

(** The announcement type is declared outside the sources; the dashboard
    reads its title and its content. *)
Variable Announcement : Type.
Variable ann_title : Announcement -> string.
Variable ann_content : Announcement -> string.

(** The callback of [announcements.filter], lines 375-388, as the
    truthiness of [hasSectionMention || hasUserMention]. *)
Definition announcement_relevant (users : list AppUser)
    (sectionName : option string) (a : Announcement) : bool :=
  let hasSectionMention :=
    JsString.truthy sectionName &&
    (JsString.includes (JsString.template sectionName) (ann_title a)
     || JsString.includes (JsString.template sectionName) (ann_content a)) in
  let hasUserMention :=
    existsb
      (fun user =>
         JsString.includes (app_name user) (ann_title a)
         || JsString.includes (app_name user) (ann_content a))
      users in
  hasSectionMention || hasUserMention.

(** [filteredAnnouncements], lines 368-389. *)
Definition filteredAnnouncements (users : list AppUser)
    (announcements : list Announcement) (isSectionAdmin : bool)
    (sectionId sectionName : option string) : list Announcement :=
  if negb isSectionAdmin || negb (JsString.truthy sectionId)
  then announcements
  else filter (announcement_relevant users sectionName) announcements.

End Announcements.

Arguments announcement_relevant {Announcement} _ _ _ _ _.
Arguments filteredAnnouncements {Announcement} _ _ _ _ _ _ _.

(** What the two handlers of the dashboard do to the outside: calls of
    the teacher service, of the task callbacks, and error toasts. *)
Inductive DashEvent : Type :=
| EvDeleteTeacherService (teacherId : string) (r : Reply unit)
| EvErrorToast (text : string)
| EvOnCreateTask (t : NewTask) (sectionId : option string) (r : Reply unit)
| EvRefreshTasks (r : Reply unit).

(** The collaborators of the handlers: [deleteTeacher] of [useTeachers],
    the [onCreateTask] property and [refreshTasks] of [useTasks]. *)
Record DashProps (W : Type) : Type := mkDashProps {
  deleteTeacherService : string -> W -> Reply unit * W;
  onCreateTask : NewTask -> option string -> W -> Reply unit * W;
  refreshTasks : W -> Reply unit * W
}.
Arguments deleteTeacherService {W} _ _ _.
Arguments onCreateTask {W} _ _ _ _.
Arguments refreshTasks {W} _ _.

(** [showErrorToast(text)]. *)
Definition showErrorToast {W : Type} (text : string)
  : M (W * list DashEvent) unit :=
  fun s => (Val tt, (fst s, (snd s ++ [EvErrorToast text])%list)).

(** [error.message || 'Unknown error']. *)
Definition message_or_unknown (error : JsError) : string :=
  if JsString.truthy (Some (err_message error)) then err_message error
  else "Unknown error".

Section Handlers.

Variable W : Type.
Variable props : DashProps W.

(** [deleteTeacher] of the dashboard, lines 492-512; it resolves in every
    branch. *)
Definition deleteTeacher (teacherId : string) : M (W * list DashEvent) unit :=
  if negb (JsString.truthy (Some teacherId)) then
    showErrorToast "Invalid teacher ID"
  else
    try_catch
      (invoke (deleteTeacherService props teacherId)
              (EvDeleteTeacherService teacherId))
      (fun error =>
         showErrorToast
           ("Error deleting teacher: " ++ message_or_unknown error ++
            ". The UI has been updated but you may need to refresh.")).

(** [handleCreateTask], lines 468-489. *)
Definition handleCreateTask (isSectionAdmin : bool)
    (sectionId : option string) (taskData : NewTask)
  : M (W * list DashEvent) unit :=
  try_catch
    ((if isSectionAdmin && JsString.truthy sectionId then
        let enhancedTask := taskData in
        invoke (onCreateTask props enhancedTask sectionId)
               (EvOnCreateTask enhancedTask sectionId)
      else
        invoke (onCreateTask props taskData None)
               (EvOnCreateTask taskData None)) ;;;
     invoke (refreshTasks props) EvRefreshTasks)%js
    (fun _ => ret tt).

End Handlers.

Arguments deleteTeacher {W} _ _ _.
Arguments handleCreateTask {W} _ _ _ _ _.

Definition refresh_call (ev : DashEvent) : bool :=
  match ev with
  | EvRefreshTasks _ => true
  | _ => false
  end.

(** ** The authentication hook *)

(** [localStorage]: keys with their values. *)
Definition Storage : Type := list (string * string).

Fixpoint getItem (k : string) (l : Storage) : option string :=
  match l with
  | [] => None
  | (k', v) :: l' => if String.eqb k k' then Some v else getItem k l'
  end.

Definition removeItem (k : string) (l : Storage) : Storage :=
  filter (fun p => negb (String.eqb k (fst p))) l.

Definition setItem (k v : string) (l : Storage) : Storage :=
  (k, v) :: removeItem k l.

Definition REMEMBER_ME_KEY : string := "nesttask_remember_me".
Definition SAVED_EMAIL_KEY : string := "nesttask_saved_email".

(** The user of the auth service ([authUser: any]) with the fields the
    hook reads. *)
Record AuthMetadata : Type := mkAuthMetadata {
  amd_name : option string;
  amd_role : option string;
  amd_phone : option string;
  amd_studentId : option string;
  amd_departmentId : option string;
  amd_batchId : option string;
  amd_sectionId : option string
}.

Record AuthUser : Type := mkAuthUser {
  au_id : string;
  au_email : option string;
  au_created_at : option string;
  au_user_metadata : option AuthMetadata
}.

(** A row of the [users] table with the columns the hook reads. *)
Record UserRow : Type := mkUserRow {
  ur_role : option string;
  ur_name : option string;
  ur_avatar : option string;
  ur_phone : option string;
  ur_student_id : option string;
  ur_department_id : option string;
  ur_batch_id : option string;
  ur_section_id : option string
}.

Record LoginCredentials : Type := mkLoginCredentials {
  cred_email : string;
  cred_password : string
}.

(** [x?.field] on an optional object. *)
Definition opt_field {A : Type} (x : option A) (f : A -> option string)
  : option string :=
  match x with
  | Some a => f a
  | None => None
  end.

(** [a || 'literal']: always a string. *)
Definition or_default (a : option string) (d : string) : string :=
  if JsString.truthy a then JsString.template a else d.

(** [authUser.email?.split('@')[0]]. *)
Definition email_local_part (email : option string) : option string :=
  match email with
  | Some e => nth_error (JsString.split "@" e) 0
  | None => None
  end.

(** The object given to [setUser] in [updateUserState], lines 74-89;
    [userData] is null when the query returned an error. *)
Definition user_of (authUser : AuthUser) (userData : option UserRow)
  : AppUser :=
  let md := au_user_metadata authUser in
  let role :=
    or_default (JsString.or_else (opt_field userData ur_role)
                                 (opt_field md amd_role)) "user" in
  {| app_id := au_id authUser;
     app_email := au_email authUser;
     app_name :=
       or_default
         (JsString.or_else
            (JsString.or_else (opt_field md amd_name)
                              (opt_field userData ur_name))
            (email_local_part (au_email authUser))) "";
     app_role := role;
     app_createdAt := au_created_at authUser;
     app_avatar := opt_field userData ur_avatar;
     app_phone :=
       JsString.or_else (opt_field userData ur_phone) (opt_field md amd_phone);
     app_studentId :=
       JsString.or_else (opt_field userData ur_student_id)
                        (opt_field md amd_studentId);
     app_departmentId :=
       JsString.or_else (opt_field userData ur_department_id)
                        (opt_field md amd_departmentId);
     app_batchId :=
       JsString.or_else (opt_field userData ur_batch_id)
                        (opt_field md amd_batchId);
     app_sectionId :=
       JsString.or_else (opt_field userData ur_section_id)
                        (opt_field md amd_sectionId) |}.

(** [if (userData.f) user.f = userData.f] on an optional field. *)
Definition overwrite (from_db current : option string) : option string :=
  if JsString.truthy from_db then from_db else current.

(** The user after the assignments of lines 126-160 of [login]. *)
Definition merge_row (user : AppUser) (userData : UserRow) : AppUser :=
  {| app_id := app_id user;
     app_email := app_email user;
     app_name := app_name user;
     app_role :=
       if JsString.truthy (ur_role userData)
       then JsString.template (ur_role userData) else app_role user;
     app_createdAt := app_createdAt user;
     app_avatar := overwrite (ur_avatar userData) (app_avatar user);
     app_phone := overwrite (ur_phone userData) (app_phone user);
     app_studentId := overwrite (ur_student_id userData) (app_studentId user);
     app_departmentId :=
       overwrite (ur_department_id userData) (app_departmentId user);
     app_batchId := overwrite (ur_batch_id userData) (app_batchId user);
     app_sectionId := overwrite (ur_section_id userData) (app_sectionId user)
  |}.

(** [c.replace(/^ +/, "")]: the leading spaces are dropped. *)
Fixpoint strip_spaces (c : string) : string :=
  match c with
  | String " " c' => strip_spaces c'
  | _ => c
  end.

(** The line terminators, which [.] of a regular expression does not
    match: LF, CR, U+2028 and U+2029.  Texts are UTF-8 here, as string
    literals are, so each of the last two is three bytes. *)
Definition LF : string := String (ascii_of_nat 10) EmptyString.
Definition CR : string := String (ascii_of_nat 13) EmptyString.

Definition utf8_3 (a b c : nat) : string :=
  String (ascii_of_nat a) (String (ascii_of_nat b)
    (String (ascii_of_nat c) EmptyString)).

Definition LINE_SEPARATOR : string := utf8_3 226 128 168.
Definition PARAGRAPH_SEPARATOR : string := utf8_3 226 128 169.

Definition line_terminators : list string :=
  [LF; CR; LINE_SEPARATOR; PARAGRAPH_SEPARATOR].

(** The text begins with a line terminator. *)
Definition line_terminator (s : string) : bool :=
  existsb (fun t => JsString.startsWith t s) line_terminators.

(** The text from its first line terminator on. *)
Fixpoint from_line_end (s : string) : string :=
  match s with
  | EmptyString => EmptyString
  | String c s' => if line_terminator s then s else from_line_end s'
  end.

(** [c.replace(/=.*/, r)] for a replacement text without [$]: the first
    "=" and what follows it on its line are replaced. *)
Fixpoint replace_from_equals (r c : string) : string :=
  match c with
  | EmptyString => EmptyString
  | String x c' =>
      if Ascii.eqb x "="%char then r ++ from_line_end c'
      else String x (replace_from_equals r c')
  end.

(** The text assigned to [document.cookie] for the piece [c], line 233;
    [now] is [new Date().toUTCString()], which holds no [$]. *)
Definition expired_cookie (now c : string) : string :=
  replace_from_equals ("=;expires=" ++ now ++ ";path=/") (strip_spaces c).

(** The calls of the hook on the auth client, the auth service and the
    document, with the way each ended. *)
Inductive AuthEvent (C : Type) : Type :=
| EvGetSession (r : Reply (option AuthUser))
| EvUsersSelect (id : string) (r : Reply (Response UserRow))
| EvLoginUser (c : LoginCredentials) (r : Reply AppUser)
| EvSignupUser (c : C) (r : Reply AppUser)
| EvLogoutUser (r : Reply unit)
| EvResetPassword (email : string) (r : Reply unit)
| EvCookieWrite (text : string).
Arguments EvGetSession {C} r.
Arguments EvUsersSelect {C} id r.
Arguments EvLoginUser {C} c r.
Arguments EvSignupUser {C} c r.
Arguments EvLogoutUser {C} r.
Arguments EvResetPassword {C} email r.
Arguments EvCookieWrite {C} text.

(** The collaborators of the hook; [C] is the type of the signup
    credentials, which the hook only passes on. *)
Record AuthBackend (W C : Type) : Type := mkAuthBackend {
  (** [supabase.auth.getSession()], the [user] of its session. *)
  getSession : W -> Reply (option AuthUser) * W;
  (** [from('users').select('*').eq('id', id).single()]. *)
  users_select : string -> W -> Reply (Response UserRow) * W;
  loginUser : LoginCredentials -> W -> Reply AppUser * W;
  signupUser : C -> W -> Reply AppUser * W;
  logoutUser : W -> Reply unit * W;
  resetPassword : string -> W -> Reply unit * W;
  (** [document.cookie] read and assigned, and the clock. *)
  cookie_get : W -> string;
  cookie_set : string -> W -> W;
  now_utc : W -> string
}.
Arguments getSession {W C} _ _.
Arguments users_select {W C} _ _ _.
Arguments loginUser {W C} _ _ _.
Arguments signupUser {W C} _ _ _.
Arguments logoutUser {W C} _ _.
Arguments resetPassword {W C} _ _ _.
Arguments cookie_get {W C} _ _.
Arguments cookie_set {W C} _ _ _.
Arguments now_utc {W C} _ _.

(** [try { m } finally { f }]. *)
Definition try_finally {S A : Type} (m : M S A) (f : M S unit) : M S A :=
  fun s =>
    let (r, s') := m s in
    match f s' with
    | (Val _, s'') => (r, s'')
    | (Exn e, s'') => (Exn e, s'')
    end.

Section UseAuth.

Variable W : Type.
Variable C : Type.
Variable auth : AuthBackend W C.

(** The state of the hook, the local storage, and the outside. *)
Record Hook : Type := mkHook {
  h_world : W;
  h_calls : list (AuthEvent C);
  h_user : option AppUser;
  h_loading : bool;
  h_error : option string;
  h_savedEmail : option string;
  h_storage : Storage
}.

Definition request {A : Type} (f : W -> Reply A * W)
    (ev : Reply A -> AuthEvent C) : M Hook A :=
  fun s =>
    let (r, w') := f (h_world s) in
    let s' := mkHook w' (h_calls s ++ [ev r])%list (h_user s) (h_loading s)
                (h_error s) (h_savedEmail s) (h_storage s) in
    match r with
    | Returned a => (Val a, s')
    | Rejected e => (Exn e, s')
    end.

Definition setUser (u : option AppUser) : M Hook unit :=
  fun s => (Val tt, mkHook (h_world s) (h_calls s) u (h_loading s)
                      (h_error s) (h_savedEmail s) (h_storage s)).

Definition setLoading (b : bool) : M Hook unit :=
  fun s => (Val tt, mkHook (h_world s) (h_calls s) (h_user s) b
                      (h_error s) (h_savedEmail s) (h_storage s)).

Definition setError (e : option string) : M Hook unit :=
  fun s => (Val tt, mkHook (h_world s) (h_calls s) (h_user s) (h_loading s)
                      e (h_savedEmail s) (h_storage s)).

Definition setSavedEmail (e : option string) : M Hook unit :=
  fun s => (Val tt, mkHook (h_world s) (h_calls s) (h_user s) (h_loading s)
                      (h_error s) e (h_storage s)).

Definition storage (f : Storage -> Storage) : M Hook unit :=
  fun s => (Val tt, mkHook (h_world s) (h_calls s) (h_user s) (h_loading s)
                      (h_error s) (h_savedEmail s) (f (h_storage s))).

Definition readItem (k : string) : M Hook (option string) :=
  fun s => (Val (getItem k (h_storage s)), s).

(** Lines 18-21 of the effect: the saved email is loaded. *)
Definition restoreSavedEmail : M Hook unit :=
  (savedEmail <- readItem SAVED_EMAIL_KEY ;;
   if JsString.truthy savedEmail then setSavedEmail savedEmail
   else ret tt)%js.

(** [updateUserState], lines 53-94. *)
Definition updateUserState (authUser : AuthUser) : M Hook unit :=
  try_catch
    (res <- request (users_select auth (au_id authUser))
                    (EvUsersSelect (au_id authUser)) ;;
     let userData :=
       match res with
       | Data row => Some row
       | Failure _ => None
       end in
     setUser (Some (user_of authUser userData)))%js
    (fun _ => setError (Some "Failed to update user information")).

(** [checkSession], lines 30-42. *)
Definition checkSession : M Hook unit :=
  try_finally
    (try_catch
       (session_user <- request (getSession auth) EvGetSession ;;
        match session_user with
        | Some u => updateUserState u
        | None => ret tt
        end)%js
       (fun _ => setError (Some "Failed to check authentication status")))
    (setLoading false).

(** [handleAuthChange], lines 44-51, given the [user] of the session. *)
Definition handleAuthChange (session_user : option AuthUser) : M Hook unit :=
  ((match session_user with
    | Some u => updateUserState u
    | None => setUser None
    end) ;;;
   setLoading false)%js.

(** [login], lines 96-168. *)
Definition login (credentials : LoginCredentials) (rememberMe : bool)
  : M Hook unit :=
  try_catch
    (setError None ;;;
     (if rememberMe then
        storage (setItem REMEMBER_ME_KEY "true") ;;;
        storage (setItem SAVED_EMAIL_KEY (cred_email credentials))
      else
        storage (removeItem REMEMBER_ME_KEY) ;;;
        storage (removeItem SAVED_EMAIL_KEY)) ;;;
     user <- request (loginUser auth credentials) (EvLoginUser credentials) ;;
     res <- request (users_select auth (app_id user))
                    (EvUsersSelect (app_id user)) ;;
     setUser (Some match res with
                   | Failure _ => user
                   | Data userData => merge_row user userData
                   end))%js
    (fun err => (setError (Some (err_message err)) ;;; throw err)%js).

(** [signup], lines 170-207. *)
Definition signup (credentials : C) : M Hook AppUser :=
  try_catch
    (setError None ;;;
     user <- request (signupUser auth credentials)
                     (EvSignupUser credentials) ;;
     setUser (Some user) ;;;
     ret user)%js
    (fun err => (setError (Some (err_message err)) ;;; throw err)%js).

(** [document.cookie = text]. *)
Definition writeCookie (text : string) : M Hook unit :=
  fun s => (Val tt,
            mkHook (cookie_set auth text (h_world s))
              (h_calls s ++ [EvCookieWrite text])%list (h_user s)
              (h_loading s) (h_error s) (h_savedEmail s) (h_storage s)).

(** The [forEach] of lines 232-234 over the pieces of the cookie text. *)
Fixpoint expireCookies (pieces : list string) : M Hook unit :=
  match pieces with
  | [] => ret tt
  | c :: rest =>
      ((fun s => writeCookie (expired_cookie (now_utc auth (h_world s)) c) s)
       ;;; expireCookies rest)%js
  end.

(** [logout], lines 209-244; it returns [true]. *)
Definition logout : M Hook bool :=
  try_catch
    (setError None ;;;
     setUser None ;;;
     request (logoutUser auth) EvLogoutUser ;;;
     remember <- readItem REMEMBER_ME_KEY ;;
     (if negb (strict_eq remember (Some "true"))
      then storage (removeItem SAVED_EMAIL_KEY) else ret tt) ;;;
     storage (removeItem "supabase.auth.token") ;;;
     storage (removeItem "nesttask_user") ;;;
     (fun s =>
        expireCookies (JsString.split ";" (cookie_get auth (h_world s))) s)
     ;;;
     ret true)%js
    (fun err => (setError (Some (err_message err)) ;;; throw err)%js).

(** [forgotPassword], lines 246-254. *)
Definition forgotPassword (email : string) : M Hook unit :=
  try_catch
    (setError None ;;;
     request (resetPassword auth email) (EvResetPassword email))%js
    (fun err => (setError (Some (err_message err)) ;;; throw err)%js).

End UseAuth.

Arguments mkHook {W C} _ _ _ _ _ _ _.
Arguments h_world {W C} _.
Arguments h_calls {W C} _.
Arguments h_user {W C} _.
Arguments h_loading {W C} _.
Arguments h_error {W C} _.
Arguments h_savedEmail {W C} _.
Arguments h_storage {W C} _.
Arguments request {W C A} _ _ _.
Arguments setUser {W C} _ _.
Arguments setLoading {W C} _ _.
Arguments setError {W C} _ _.
Arguments setSavedEmail {W C} _ _.
Arguments storage {W C} _ _.
Arguments readItem {W C} _ _.
Arguments restoreSavedEmail {W C} _.
Arguments updateUserState {W C} _ _ _.
Arguments checkSession {W C} _ _.
Arguments handleAuthChange {W C} _ _ _.
Arguments login {W C} _ _ _ _.
Arguments signup {W C} _ _ _.
Arguments writeCookie {W C} _ _ _.
Arguments expireCookies {W C} _ _ _.
Arguments logout {W C} _ _.
Arguments forgotPassword {W C} _ _ _.

(** The local storage a successful [logout] leaves. *)
Definition storage_after_logout (l : Storage) : Storage :=
  removeItem "nesttask_user"
    (removeItem "supabase.auth.token"
       (if negb (strict_eq (getItem REMEMBER_ME_KEY l) (Some "true"))
        then removeItem SAVED_EMAIL_KEY l else l)).


(** ** Backends to run the rest of the code on *)

Module Shelf.

(** A store that holds course rows with their material ids, and
    study-material rows. *)
Record Shelf : Type := mkShelf {
  sh_courses : list FetchedCourse;
  sh_materials : list MaterialRow
}.

Definition pick {A : Type} (new : option A) (old : A) : A :=
  match new with
  | Some x => x
  | None => old
  end.

Definition keep {A : Type} (new old : option A) : option A :=
  match new with
  | Some x => Some x
  | None => old
  end.

(** A row with the columns of a patch written over it. *)
Definition patched (p : CoursePatch) (r : CourseRow) : CourseRow :=
  {| db_id := db_id r;
     db_name := pick (set_name p) (db_name r);
     db_code := pick (set_code p) (db_code r);
     db_teacher := keep (set_teacher p) (db_teacher r);
     db_class_time := pick (set_class_time p) (db_class_time r);
     db_telegram_group := keep (set_telegram_group p) (db_telegram_group r);
     db_blc_link := keep (set_blc_link p) (db_blc_link r);
     db_blc_enroll_key := keep (set_blc_enroll_key p) (db_blc_enroll_key r);
     db_credit := keep (set_credit p) (db_credit r);
     db_section := keep (set_section p) (db_section r);
     db_created_at := db_created_at r;
     db_created_by := db_created_by r |}.

Definition has_id (id : string) (c : FetchedCourse) : bool :=
  String.eqb id (db_id (fetched_row c)).

Definition no_rows : JsError :=
  mkError "JSON object requested, multiple (or no) rows returned".

Definition store : CourseStore Shelf :=
  {| courses_select_all := fun w => (Returned (Data (Some (sh_courses w))), w);
     courses_update := fun id p w =>
       match find (has_id id) (sh_courses w) with
       | Some c =>
           (Returned (Data (patched p (fetched_row c))),
            mkShelf
              (map (fun x =>
                      if has_id id x
                      then mkFetchedCourse (patched p (fetched_row x))
                             (study_materials x)
                      else x) (sh_courses w))
              (sh_materials w))
       | None => (Returned (Failure no_rows), w)
       end;
     courses_delete := fun id w =>
       (Returned (Data tt),
        mkShelf (filter (fun x => negb (has_id id x)) (sh_courses w))
          (sh_materials w));
     materials_select_all := fun w => (Returned (Data (sh_materials w)), w);
     materials_insert := fun m w =>
       let row :=
         mkMaterialRow
           ("m" ++ JsString.of_nat (S (List.length (sh_materials w))))
           (mi_title m) (mi_description m) (mi_course_id m) (mi_category m)
           (Some (mi_file_urls m)) (Some (mi_original_file_names m))
           "2025-01-01T00:00:00Z" None None in
       (Returned (Data (Some row)),
        mkShelf (sh_courses w) (sh_materials w ++ [row]));
     materials_update := fun id p w =>
       (Returned (Failure no_rows), w);
     materials_delete := fun id w =>
       (Returned (Data tt),
        mkShelf (sh_courses w)
          (filter (fun x => negb (String.eqb id (m_id x))) (sh_materials w)))
  |}.

Definition algorithms : CourseRow :=
  {| db_id := "c1"; db_name := "Algorithms"; db_code := "CSE101";
     db_teacher := Some "Dr. X"; db_class_time := "Mon at 10:00 in R1";
     db_telegram_group := None; db_blc_link := None;
     db_blc_enroll_key := None; db_credit := Some 3; db_section := Some "A";
     db_created_at := "2025-01-01T00:00:00Z"; db_created_by := Some "u1" |}.

Definition notes : MaterialRow :=
  mkMaterialRow "m1" "Lecture notes" None (Some "c1") "notes" None None
    "2025-01-02T00:00:00Z" (Some "u1")
    (Some (mkJoinedCourse "c1" "Algorithms" "CSE101" (Some "Dr. X")
             "Mon at 10:00 in R1" None None None "2025-01-01T00:00:00Z"
             (Some "u1"))).

Definition shelf : Shelf :=
  mkShelf [mkFetchedCourse algorithms (Some ["m1"])] [notes].

End Shelf.

Module Desk.

(** An auth backend without state that answers every call of one kind
    the same way. *)
Definition backend (session_user : option AuthUser)
    (row : Reply (Response UserRow)) (account : Reply AppUser)
    (signed_out : Reply unit) (cookie : string) : AuthBackend unit unit :=
  {| getSession := fun w => (Returned session_user, w);
     users_select := fun _ w => (row, w);
     loginUser := fun _ w => (account, w);
     signupUser := fun _ w => (account, w);
     logoutUser := fun w => (signed_out, w);
     resetPassword := fun _ w => (Returned tt, w);
     cookie_get := fun _ => cookie;
     cookie_set := fun _ w => w;
     now_utc := fun _ => "Thu, 01 Jan 2026 00:00:00 GMT" |}.

Definition student : AuthUser :=
  mkAuthUser "u7" (Some "rahim@diu.edu.bd") (Some "2025-01-01")
    (Some (mkAuthMetadata None (Some "user") None None None None (Some "A"))).

Definition student_row : UserRow :=
  mkUserRow (Some "section_admin") None None None None None None (Some "B").

Definition account : AppUser :=
  mkAppUser "u7" (Some "rahim@diu.edu.bd") "Rahim" "user" None None
    (Some "0170") None None None (Some "A").

Definition fresh : Hook unit unit :=
  mkHook tt [] None true None None [].

(** A course backend with an admin session whose users table cannot be
    reached. *)
Definition offline_users : Backend unit :=
  mkBackend unit
    (fun w => (Returned (Memory.signed_in "admin" None), w))
    (fun _ w => (Rejected (mkError "fetch failed"), w))
    (fun _ w => (Returned (Data None), w))
    (fun _ w => (Returned false, w))
    (fun _ w => (Rejected (mkError "fetch failed"), w))
    (fun _ w => (Rejected (mkError "fetch failed"), w))
    (fun _ w => (Rejected (mkError "fetch failed"), w)).

End Desk.

Module Outage.

(** The in-memory backend behind a connection that drops while the
    duplicate check of one code is under way: that call is rejected, every
    other call is answered by the in-memory backend. *)
Definition backend (lost : string) : Backend Memory.Store :=
  {| auth_getUser := auth_getUser Memory.backend;
     users_select_role := users_select_role Memory.backend;
     courses_select_by_code := fun c w =>
       if String.eqb c lost
       then (Rejected (mkError "Failed to fetch"), w)
       else courses_select_by_code Memory.backend c w;
     checkTeacherNameExists := checkTeacherNameExists Memory.backend;
     teachers_insert := teachers_insert Memory.backend;
     teachers_select_ilike := teachers_select_ilike Memory.backend;
     courses_insert := courses_insert Memory.backend |}.

End Outage.

Module Campus.

(** The shelf of courses together with the session of the caller: the
    session provider answers with the given session, and the course table
    is the one [Shelf.store] reads, updates and deletes. *)
Definition with_code (c : string) (x : FetchedCourse) : bool :=
  String.eqb c (db_code (fetched_row x)).

Definition backend (session : option User) : Backend Shelf.Shelf :=
  {| auth_getUser := fun w => (Returned session, w);
     users_select_role := fun _ w => (Returned (Data (role_of session)), w);
     courses_select_by_code := fun c w =>
       (Returned
          (Data (option_map (fun x => db_id (fetched_row x))
                   (find (with_code c) (Shelf.sh_courses w)))), w);
     checkTeacherNameExists := fun _ w => (Returned false, w);
     teachers_insert := fun _ w => (Returned (Failure Shelf.no_rows), w);
     teachers_select_ilike := fun _ w => (Returned (Data None), w);
     courses_insert := fun c w =>
       let row :=
         Memory.stored_row (S (List.length (Shelf.sh_courses w))) c in
       (Returned (Data row),
        Shelf.mkShelf
          (Shelf.sh_courses w ++ [mkFetchedCourse row None])
          (Shelf.sh_materials w)) |}.

(** An update that renames a course. *)
Definition rename (n : string) : CourseUpdates :=
  mkCourseUpdates (Some n) None None None None None None None None.

End Campus.

(** ** The service at work *)

Example format_with_classroom :
  formatClassTimes [mkClassTime (Some "Mon") (Some "10:00") (Some "R1")]
  = "Mon at 10:00 in R1".
Proof. reflexivity. Qed.

Example parse_with_classroom :
  parseClassTimes "Mon at 10:00 in R1, Tue at 11:00"
  = [mkClassTime (Some "Mon") (Some "10:00") (Some "R1");
     mkClassTime (Some "Tue") (Some "11:00") None].
Proof. reflexivity. Qed.

Example import_empty_batch :
  fst (Memory.import [] (Memory.store "admin" None []))
  = Val {| success := 0; errors := [] |}.
Proof. reflexivity. Qed.

Example import_duplicate_code :
  fst (Memory.import [Memory.candidate "CSE101" None None]
         (Memory.store "admin" None ["CSE101"]))
  = Val {| success := 0;
           errors := [mkOutcome
             "Course #1 (CSE101): A course with this code already exists"
             false false None] |}.
Proof. reflexivity. Qed.

(** Two candidates name the same unknown teacher: the first row creates
    the record, the second finds it. *)
Example import_new_teacher_once :
  let '(r, w) :=
    Memory.import [Memory.candidate "CSE101" (Some "Dr. X") None;
                   Memory.candidate "CSE102" (Some "dr. x") None]
      (Memory.store "admin" (Some "A") []) in
  option_map success (match r with Val x => Some x | Exn _ => None end)
    = Some 2 /\
  List.length (Memory.st_teachers w) = 1 /\
  Memory.st_courses w = ["CSE101"; "CSE102"].
Proof. vm_compute. repeat split. Qed.

(** Three candidates, the store refuses the second. *)
Example import_partial_failure :
  let '(r, w) :=
    Memory.import [Memory.candidate "CSE101" None None;
                   Memory.candidate "CSE102" None None;
                   Memory.candidate "CSE103" None None]
      (Memory.mkStore (Memory.signed_in "admin" None) [] [] ["CSE102"] None)
  in
  r = Val {| success := 2;
             errors := [mkOutcome
               ("Course #2 (CSE102): " ++
                "duplicate key value violates unique constraint")
               false false
               (Some (mkError
                  "duplicate key value violates unique constraint"))] |} /\
  Memory.st_courses w = ["CSE101"; "CSE103"].
Proof. vm_compute. repeat split. Qed.

(** ** Facts about the string primitives *)

Import JsString.

Lemma append_assoc (a b c : string) : (a ++ b) ++ c = a ++ b ++ c.
Proof. induction a as [|x a IH]; simpl; [reflexivity | now rewrite IH]. Qed.

Lemma append_nil_r (a : string) : a ++ "" = a.
Proof. induction a as [|x a IH]; simpl; [reflexivity | now rewrite IH]. Qed.

Lemma startsWith_app (p s t : string) :
  startsWith p s = true -> startsWith p (s ++ t) = true.
Proof.
  revert s; induction p as [|a p IH]; intros s H; [reflexivity|].
  destruct s as [|b s]; simpl in *; [discriminate|].
  apply andb_true_iff in H as [Hab Hp].
  now rewrite Hab, (IH _ Hp).
Qed.

Lemma startsWith_self (p t : string) : startsWith p (p ++ t) = true.
Proof.
  induction p as [|a p IH]; simpl; [reflexivity|].
  now rewrite Ascii.eqb_refl, IH.
Qed.

Lemma includes_app (sep a t : string) :
  includes sep (a ++ t) = starts_in sep a t || includes sep t.
Proof.
  induction a as [|c a IH]; [reflexivity|].
  change (includes sep (String c a ++ t))
    with (startsWith sep (String c a ++ t) || includes sep (a ++ t)).
  rewrite IH. simpl. now rewrite orb_assoc.
Qed.

Lemma starts_in_app (sep a b t : string) :
  starts_in sep (a ++ b) t = starts_in sep a (b ++ t) || starts_in sep b t.
Proof.
  induction a as [|c a IH]; [reflexivity|].
  simpl. rewrite IH, append_assoc. now rewrite orb_assoc.
Qed.

Lemma starts_in_mono (sep a t u : string) :
  starts_in sep a t = true -> starts_in sep a (t ++ u) = true.
Proof.
  induction a as [|c a IH]; simpl; [discriminate|].
  intros H. apply orb_true_iff in H as [H|H].
  - apply (startsWith_app _ _ u) in H. simpl in H.
    rewrite append_assoc in H. now rewrite H.
  - rewrite (IH H). apply orb_true_r.
Qed.

Lemma includes_nil (sep : string) : sep <> "" -> includes sep "" = false.
Proof. destruct sep; [congruence | reflexivity]. Qed.

Lemma includes_starts_in (sep a : string) :
  sep <> "" -> includes sep a = starts_in sep a "".
Proof.
  intros H. rewrite <- (append_nil_r a) at 1.
  now rewrite includes_app, (includes_nil _ H), orb_false_r.
Qed.

Lemma includes_mid (sep a b : string) : includes sep (a ++ sep ++ b) = true.
Proof.
  rewrite includes_app. destruct sep as [|c sep]; simpl.
  - destruct b; simpl; apply orb_true_r.
  - rewrite Ascii.eqb_refl, startsWith_self. simpl. apply orb_true_r.
Qed.

(** *** Splitting at the first match *)

Lemma split_scan_skip (sep x b : string) :
  split_scan sep (String.length x) (x ++ b) = split_scan sep 0 b.
Proof. induction x as [|c x IH]; simpl; [reflexivity | exact IH]. Qed.

Lemma split_scan_nonempty (sep : string) (k : nat) (s : string) :
  split_scan sep k s <> [].
Proof.
  revert k; induction s as [|c s IH]; intros k; simpl; [discriminate|].
  destruct k; [|apply IH].
  destruct (startsWith sep (String c s)); [discriminate|].
  destruct (split_scan sep 0 s); discriminate.
Qed.

Lemma split_nonempty (sep s : string) : sep <> "" -> split sep s <> [].
Proof.
  destruct sep; [congruence|]. intros _. apply split_scan_nonempty.
Qed.

Lemma split_scan_cut (c : ascii) (sep a b : string) :
  starts_in (String c sep) a (String c sep ++ b) = false ->
  split_scan (String c sep) 0 (a ++ String c sep ++ b)
  = a :: split_scan (String c sep) 0 b.
Proof.
  induction a as [|x a IH]; intros H.
  - change ("" ++ String c sep ++ b) with (String c (sep ++ b)).
    cbn [split_scan].
    change (String c (sep ++ b)) with (String c sep ++ b).
    rewrite startsWith_self. f_equal.
    cbn [String.length]. rewrite Nat.sub_succ, Nat.sub_0_r.
    apply split_scan_skip.
  - cbn [starts_in] in H. apply orb_false_iff in H as [H1 H2].
    change (String x a ++ String c sep ++ b)
      with (String x (a ++ String c sep ++ b)) in *.
    cbn [split_scan]. rewrite H1. now rewrite (IH H2).
Qed.

Lemma split_cut (sep a b : string) :
  sep <> "" -> starts_in sep a (sep ++ b) = false ->
  split sep (a ++ sep ++ b) = a :: split sep b.
Proof.
  destruct sep as [|c sep]; [congruence|]. intros _. apply split_scan_cut.
Qed.

Lemma split_scan_whole (sep a : string) :
  starts_in sep a "" = false -> split_scan sep 0 a = [a].
Proof.
  induction a as [|x a IH]; intros H; [reflexivity|].
  cbn [starts_in] in H. apply orb_false_iff in H as [H1 H2].
  rewrite append_nil_r in H1.
  cbn [split_scan]. rewrite H1. now rewrite (IH H2).
Qed.

Lemma split_whole (sep a : string) :
  sep <> "" -> includes sep a = false -> split sep a = [a].
Proof.
  intros Hsep H. rewrite (includes_starts_in _ _ Hsep) in H.
  destruct sep as [|c sep]; [congruence|]. now apply split_scan_whole.
Qed.

(** *** The three delimiters of the schedule format *)

Ltac delimiter_cases H :=
  unfold delimiters in H; simpl in H;
  destruct H as [H|[H|[H|[]]]]; subst.

Ltac eqb_cases :=
  repeat match goal with
         | |- context [Ascii.eqb ?x ?y] =>
             lazymatch x with
             | Ascii _ _ _ _ _ _ _ _ =>
                 lazymatch y with
                 | Ascii _ _ _ _ _ _ _ _ => fail
                 | _ => destruct (Ascii.eqb x y)
                 end
             | _ => fail
             end
         end.

(** A delimiter holds a space only as its first or its last character, so
    a match that begins before a space and reaches it ends there. *)
Lemma startsWith_space_ctx (d : string) (c : ascii) (s X : string) :
  In d delimiters ->
  startsWith d (String c s ++ String " " X) = startsWith d (String c s ++ " ").
Proof.
  intros H. delimiter_cases H;
    destruct s as [|c1 [|c2 [|c3 s]]]; simpl; eqb_cases; reflexivity.
Qed.

(** A delimiter holds a comma only as its first character, so a match
    that begins before a comma does not reach it. *)
Lemma startsWith_comma_ctx (d : string) (c : ascii) (s X : string) :
  In d delimiters ->
  startsWith d (String c s ++ String "," X) = startsWith d (String c s).
Proof.
  intros H. delimiter_cases H;
    destruct s as [|c1 [|c2 [|c3 s]]]; simpl; eqb_cases; reflexivity.
Qed.

Lemma starts_in_space_ctx (d a X : string) :
  In d delimiters -> starts_in d a (String " " X) = starts_in d a " ".
Proof.
  intros H. induction a as [|c a IH]; [reflexivity|].
  cbn [starts_in]. now rewrite IH, (startsWith_space_ctx _ _ _ X H).
Qed.

Lemma starts_in_comma_ctx (d a X : string) :
  In d delimiters -> starts_in d a (String "," X) = starts_in d a "".
Proof.
  intros H. induction a as [|c a IH]; [reflexivity|].
  cbn [starts_in].
  now rewrite IH, (startsWith_comma_ctx _ _ _ X H), append_nil_r.
Qed.

Lemma field_clean_delim (d f : string) :
  In d delimiters -> field_clean f = true ->
  includes d (" " ++ f ++ " ") = false.
Proof.
  intros H Hf. unfold field_clean in Hf.
  rewrite forallb_forall in Hf. specialize (Hf d H).
  now apply negb_true_iff in Hf.
Qed.

(** No delimiter matches at the space before a clean field or inside the
    field, whatever boundary follows it. *)
Lemma padded_field_free (d f tail : string) :
  In d delimiters -> field_clean f = true -> boundary tail ->
  starts_in d (String " " f) tail = false.
Proof.
  intros H Hf Hb. pose proof (field_clean_delim d f H Hf) as Hi.
  change (" " ++ f ++ " ") with (String " " f ++ " ") in Hi.
  rewrite includes_app in Hi. apply orb_false_iff in Hi as [Hi _].
  destruct Hb as [->|[[X ->]|[X ->]]].
  - destruct (starts_in d (String " " f) "") eqn:E; [|reflexivity].
    apply (starts_in_mono _ _ _ " ") in E. simpl append in E. congruence.
  - now rewrite starts_in_space_ctx.
  - rewrite starts_in_comma_ctx by assumption.
    destruct (starts_in d (String " " f) "") eqn:E; [|reflexivity].
    apply (starts_in_mono _ _ _ " ") in E. simpl append in E. congruence.
Qed.

Lemma field_free (d f tail : string) :
  In d delimiters -> field_clean f = true -> boundary tail ->
  starts_in d f tail = false.
Proof.
  intros H Hf Hb. pose proof (padded_field_free d f tail H Hf Hb) as P.
  cbn [starts_in] in P. now apply orb_false_iff in P as [_ P].
Qed.

Lemma space_field_free (d f tail : string) :
  In d delimiters -> field_clean f = true -> boundary tail ->
  startsWith d (String " " (f ++ tail)) = false.
Proof.
  intros H Hf Hb. pose proof (padded_field_free d f tail H Hf Hb) as P.
  cbn [starts_in] in P. now apply orb_false_iff in P as [P _].
Qed.

Lemma field_no_delim (d f : string) :
  In d delimiters -> field_clean f = true -> includes d f = false.
Proof.
  intros H Hf. rewrite includes_starts_in.
  - apply field_free; [assumption | assumption | now left].
  - delimiter_cases H; discriminate.
Qed.

Lemma boundary_space (X : string) : boundary (String " " X).
Proof. right; left; now exists X. Qed.

Lemma boundary_comma (X : string) : boundary (String "," X).
Proof. right; right; now exists X. Qed.

Lemma boundary_nil : boundary "".
Proof. now left. Qed.

Create HintDb codec.
#[local] Hint Resolve boundary_space boundary_comma boundary_nil : codec.

(** A word delimiter followed by a clean field holds no match of another
    delimiter. *)
Lemma word_field_free (d m f tail : string) :
  In d delimiters -> m = " at " \/ m = " in " -> d <> m ->
  field_clean f = true -> boundary tail ->
  starts_in d (m ++ f) tail = false.
Proof.
  intros H Hm Hdm Hf Hb.
  pose proof (field_free d f tail H Hf Hb) as P1.
  pose proof (space_field_free d f tail H Hf Hb) as P2.
  destruct Hm as [-> | ->]; delimiter_cases H; try congruence;
    cbn [append starts_in]; rewrite P1;
    change (String " " (f ++ tail)) with (" " ++ f ++ tail) in P2;
    cbn [append] in P2; rewrite P2; reflexivity.
Qed.

(** [<day> at <time>]: only [" at "] matches, and only between the fields. *)
Lemma day_time_free (d D T tail : string) :
  In d delimiters -> d <> " at " ->
  field_clean D = true -> field_clean T = true -> boundary tail ->
  starts_in d (D ++ " at " ++ T) tail = false.
Proof.
  intros H Hd HD HT Hb. rewrite starts_in_app.
  rewrite (field_free d D) by (cbn [append]; auto with codec).
  now rewrite word_field_free by auto.
Qed.

Lemma fragment_free (ct : ClassTime) (tail : string) :
  entry_ok ct = true -> boundary tail ->
  starts_in ", " (formatClassTime ct) tail = false.
Proof.
  unfold entry_ok, formatClassTime. intros H Hb.
  destruct (day ct) as [D|]; [|discriminate].
  destruct (time ct) as [T|]; [|discriminate].
  apply andb_true_iff in H as [H HC]. apply andb_true_iff in H as [HD HT].
  assert (Hin : In ", " delimiters) by (simpl; auto).
  assert (Hne : ", " <> " at ") by discriminate.
  cbn [template].
  destruct (classroom ct) as [C|].
  - apply andb_true_iff in HC as [Ht HC]. rewrite Ht. cbn [template].
    rewrite <- (append_assoc " at " T), <- (append_assoc D).
    rewrite starts_in_app.
    rewrite day_time_free by (cbn [append]; auto with codec).
    rewrite word_field_free; auto. discriminate.
  - cbn [truthy]. rewrite append_nil_r. now apply day_time_free.
Qed.

(** The decoder inverts the encoder on one slot. *)
Lemma parse_format_one (ct : ClassTime) :
  entry_ok ct = true -> parseClassTime (formatClassTime ct) = ct.
Proof.
  destruct ct as [d t c]. unfold entry_ok, formatClassTime, parseClassTime.
  cbn [day time classroom]. intros H.
  destruct d as [D|]; [|discriminate]. destruct t as [T|]; [|discriminate].
  apply andb_true_iff in H as [H HC]. apply andb_true_iff in H as [HD HT].
  assert (Iat : In " at " delimiters) by (simpl; auto).
  assert (Iin : In " in " delimiters) by (simpl; auto).
  assert (Sat : split " at " (D ++ " at " ++ T) = [D; T]).
  { rewrite split_cut; [|discriminate|].
    - now rewrite (split_whole " at " T)
        by (discriminate || now apply field_no_delim).
    - apply field_free; cbn [append]; auto with codec. }
  cbn [template]. destruct c as [C|].
  - apply andb_true_iff in HC as [Ht HC]. rewrite Ht. cbn [template].
    rewrite <- (append_assoc " at " T), <- (append_assoc D).
    rewrite includes_mid.
    rewrite split_cut; [|discriminate|].
    + rewrite (split_whole " in " C)
        by (discriminate || now apply field_no_delim).
      cbn [hd nth_error]. now rewrite Sat.
    + apply day_time_free; cbn [append]; auto with codec. discriminate.
  - cbn [truthy]. rewrite append_nil_r.
    rewrite includes_starts_in by discriminate.
    rewrite day_time_free by (auto with codec; discriminate).
    now rewrite Sat.
Qed.

Lemma split_join_fragments (cts : list ClassTime) :
  cts <> [] -> forallb entry_ok cts = true ->
  split ", " (join ", " (map formatClassTime cts)) = map formatClassTime cts.
Proof.
  induction cts as [|ct rest IH]; [congruence|]. intros _ H.
  cbn [forallb] in H. apply andb_true_iff in H as [Hct Hrest].
  destruct rest as [|ct' rest].
  - cbn [map join String.concat]. apply split_whole; [discriminate|].
    rewrite includes_starts_in by discriminate.
    apply fragment_free; auto with codec.
  - change (join ", " (map formatClassTime (ct :: ct' :: rest)))
      with (formatClassTime ct ++ ", " ++
            join ", " (map formatClassTime (ct' :: rest))).
    rewrite split_cut; [|discriminate|].
    + rewrite IH by (discriminate || assumption). reflexivity.
    + apply fragment_free; cbn [append]; auto with codec.
Qed.

(** *** The first match of a separator *)

Lemma first_match (sep s : string) :
  includes sep s = true ->
  exists a b, s = a ++ sep ++ b /\ starts_in sep a (sep ++ b) = false.
Proof.
  induction s as [|c s IH]; intros H.
  - destruct sep; [|discriminate]. now exists "", "".
  - destruct (startsWith sep (String c s)) eqn:E.
    + exists "". clear - E.
      assert (P : forall p t, startsWith p t = true -> exists b, t = p ++ b).
      { induction p as [|x p IHp]; intros t Ht; [now exists t|].
        destruct t as [|y t]; [discriminate|]. simpl in Ht.
        apply andb_true_iff in Ht as [Hxy Ht]. apply Ascii.eqb_eq in Hxy.
        destruct (IHp _ Ht) as [b ->]. exists b. now subst. }
      destruct (P _ _ E) as [b ->]. now exists b.
    + cbn [includes] in H. rewrite E in H. cbn [orb] in H.
      destruct (IH H) as (a & b & -> & Hfree).
      exists (String c a), b. split; [reflexivity|].
      cbn [starts_in]. rewrite Hfree. cbn [append] in *. now rewrite E.
Qed.

Lemma starts_in_prefix_free (sep a t : string) :
  sep <> "" -> includes sep (a ++ t) = false -> includes sep a = false.
Proof.
  intros Hsep H. rewrite includes_app in H.
  apply orb_false_iff in H as [H _].
  rewrite (includes_starts_in _ _ Hsep).
  destruct (starts_in sep a "") eqn:E; [|reflexivity].
  apply (starts_in_mono _ _ _ t) in E. simpl append in E. congruence.
Qed.

(** ** The schedule codec: claims C2 and C8 *)

(** C2, as stated, fails: fields free of the delimiter substrings do not
    make decoding the inverse of encoding.  The time "in the morning"
    holds no delimiter, yet behind " at " it forms " in ", and the decoder
    takes the slot for one with a classroom; and the encoding of the empty
    sequence, the empty string, decodes to one slot. *)
Lemma codec_roundtrip_counterexample :
  forallb plain_entry [mkClassTime (Some "Mon") (Some "in the morning") None]
    = true /\
  parseClassTimes
    (formatClassTimes [mkClassTime (Some "Mon") (Some "in the morning") None])
    = [mkClassTime (Some "Mon at") None (Some "the morning")] /\
  parseClassTimes
    (formatClassTimes [mkClassTime (Some "Mon") (Some "in the morning") None])
    <> [mkClassTime (Some "Mon") (Some "in the morning") None] /\
  forallb plain_entry [] = true /\
  parseClassTimes (formatClassTimes []) = [mkClassTime (Some "") None None] /\
  parseClassTimes (formatClassTimes []) <> [].
Proof.
  repeat split; try reflexivity; vm_compute; discriminate.
Qed.

(** C2, amended: for every non-empty sequence of slots whose day and time
    are present, whose classroom, when present, is not the empty string,
    and whose fields hold no delimiter even when a space is put before and
    after them, decoding the encoded string yields the sequence. *)
Theorem codec_roundtrip (cts : list ClassTime) :
  cts <> [] -> forallb entry_ok cts = true ->
  parseClassTimes (formatClassTimes cts) = cts.
Proof.
  intros Hne Hok. unfold parseClassTimes, formatClassTimes.
  rewrite split_join_fragments by assumption.
  rewrite map_map. clear Hne.
  induction cts as [|ct rest IH]; [reflexivity|].
  cbn [forallb] in Hok. apply andb_true_iff in Hok as [Hct Hrest].
  cbn [map]. now rewrite parse_format_one, IH.
Qed.

Lemma codec_roundtrip_witness :
  parseClassTimes
    (formatClassTimes
       [mkClassTime (Some "Mon") (Some "10:00 AM") (Some "Room 101");
        mkClassTime (Some "Tue") (Some "11:00") None])
  = [mkClassTime (Some "Mon") (Some "10:00 AM") (Some "Room 101");
     mkClassTime (Some "Tue") (Some "11:00") None].
Proof.
  apply codec_roundtrip; [discriminate | reflexivity].
Defined.

(** C8, as stated, fails: a fragment without " at " that holds " in " is
    cut at " in " first, and its day is the text before that, not the
    whole fragment. *)
Lemma parse_without_at_counterexample :
  includes " at " "Mon in R1" = false /\
  parseClassTimes "Mon in R1" = [mkClassTime (Some "Mon") None (Some "R1")] /\
  day (parseClassTime "Mon in R1") <> Some "Mon in R1".
Proof.
  repeat split; try reflexivity. vm_compute. discriminate.
Qed.

(** C8, amended: for every input string the decoder returns a sequence of
    slots, one for each fragment between ", ", and raises nothing.  A
    fragment without " at " yields a slot whose time is undefined; its day
    is the whole fragment when the fragment holds no " in " either, and
    otherwise the text before the first " in " of the fragment, the
    classroom being the text up to the next " in ". *)
Theorem parse_total_without_at (class_time : string) :
  parseClassTimes class_time <> [] /\
  List.length (parseClassTimes class_time)
    = List.length (split ", " class_time) /\
  forall f, In f (split ", " class_time) ->
    In (parseClassTime f) (parseClassTimes class_time) /\
    (includes " at " f = false ->
       time (parseClassTime f) = None /\
       (includes " in " f = false ->
          parseClassTime f = mkClassTime (Some f) None None) /\
       (includes " in " f = true ->
          exists a b, f = a ++ " in " ++ b /\
            starts_in " in " a (" in " ++ b) = false /\
            parseClassTime f
            = mkClassTime (Some a) None (Some (hd "" (split " in " b))))).
Proof.
  unfold parseClassTimes. split; [|split].
  - intros E. apply map_eq_nil in E. revert E. now apply split_nonempty.
  - apply length_map.
  - intros f Hf. split; [now apply in_map|]. intros Hat.
    assert (Whole : forall a t, f = a ++ t ->
              split " at " a = [a]).
    { intros a t ->. apply split_whole; [discriminate|].
      now apply (starts_in_prefix_free " at " a t). }
    destruct (includes " in " f) eqn:Hin.
    + destruct (first_match _ _ Hin) as (a & b & E & Hfree).
      assert (P : parseClassTime f
                  = mkClassTime (Some a) None (Some (hd "" (split " in " b)))).
      { unfold parseClassTime. rewrite Hin.
        rewrite E, split_cut by (discriminate || assumption).
        destruct (split " in " b) as [|cl more] eqn:Eb;
          [now apply split_nonempty in Eb|].
        cbn [hd nth_error]. now rewrite (Whole a (" in " ++ b) E). }
      rewrite P. split; [reflexivity|]. split; [discriminate|]. intros _.
      now exists a, b.
    + assert (P : parseClassTime f = mkClassTime (Some f) None None).
      { unfold parseClassTime. rewrite Hin.
        now rewrite (Whole f "") by now rewrite append_nil_r. }
      rewrite P. split; [reflexivity|]. split; [reflexivity|discriminate].
Qed.

Lemma parse_total_without_at_witness :
  In "Mon 10:00" (split ", " "Mon 10:00, Tue at 11:00") /\
  includes " at " "Mon 10:00" = false /\
  includes " in " "Mon 10:00" = false /\
  parseClassTime "Mon 10:00" = mkClassTime (Some "Mon 10:00") None None.
Proof.
  assert (H : In "Mon 10:00" (split ", " "Mon 10:00, Tue at 11:00"))
    by (left; reflexivity).
  split; [exact H|]. split; [reflexivity|]. split; [reflexivity|].
  exact (proj1 (proj2 (proj2 (proj2 (proj2
           (parse_total_without_at "Mon 10:00, Tue at 11:00"))
           "Mon 10:00" H) eq_refl)) eq_refl).
Defined.

(** ** Tactics that run the service *)

(** Open one turn of the loop, or the whole import, down to the backend
    calls. *)
Ltac unfold_row :=
  unfold import_row, row_body, resolve_teacher, try_catch, bind, await, call,
    push, incr_success, ret, throw.

Ltac unfold_bulk :=
  unfold bulkImportCourses, bulk_body, return_report, report_of, start,
    try_catch, bind, await, call, push, ret, throw.

(** Go through every way the backend can answer: each [match] of the goal
    is decided in turn, outermost first. *)
Ltac split_cases :=
  repeat match goal with
         | |- context [match ?x with _ => _ end] =>
             lazymatch x with
             | context [match _ with _ => _ end] => fail
             | _ => destruct x eqn:?; cbn [fst snd env errs successCount world trace]
             end
         end.

(** [l' = l ++ ?more], where [l'] is [l] with elements appended. *)
Ltac suffix :=
  cbn [env errs successCount world trace];
  rewrite <- ?app_assoc;
  first [ reflexivity | symmetry; apply app_nil_r ].

(** ** The bulk import: exceptions stay inside the row *)

Section Rows.

Context {W : Type} (db : Backend W).

Lemma import_row_returns (userRole : option string) (user : option User)
    (i : nat) (course : NewCourse) (s : Run W) :
  fst (import_row db userRole user i course s) = Val tt.
Proof.
  unfold_row. split_cases; try reflexivity.
Qed.

(** What one turn of the loop adds to the state: calls made for the row,
    outcomes appended to the list, and one more success exactly when the
    row's insert call returned without error. *)
Lemma import_row_step (userRole : option string) (user : option User)
    (i : nat) (course : NewCourse) (s : Run W) :
  exists evs outs,
    trace (env (snd (import_row db userRole user i course s)))
      = (trace (env s) ++ evs)%list /\
    errs (snd (import_row db userRole user i course s)) = (errs s ++ outs)%list /\
    successCount (snd (import_row db userRole user i course s))
      = successCount s + List.length (filter insert_ok evs) /\
    List.length (filter insert_call evs) <= 1 /\
    List.length (filter insert_ok evs) <= List.length (filter insert_call evs) /\
    forallb (fun ev => negb (session_call ev)) evs = true.
Proof.
  unfold_row. split_cases;
    (eexists; eexists; split; [suffix|]; split; [suffix|];
     cbn; repeat split; lia).
Qed.

Lemma import_rows_after (userRole : option string) (user : option User)
    (courses : list NewCourse) (i : nat) (s : Run W) :
  import_rows db userRole user i courses s
  = (Val tt, after_rows db userRole user i courses s).
Proof.
  revert i s. induction courses as [|c rest IH]; intros i s; [reflexivity|].
  cbn [import_rows after_rows]. unfold bind at 1.
  pose proof (import_row_returns userRole user i c s) as R.
  destruct (import_row db userRole user i c s) as [r s1].
  cbn [fst snd] in *. subst r. apply IH.
Qed.

Lemma after_rows_app (userRole : option string) (user : option User)
    (cs1 cs2 : list NewCourse) (i : nat) (s : Run W) :
  after_rows db userRole user i (cs1 ++ cs2)%list s
  = after_rows db userRole user (i + List.length cs1) cs2
      (after_rows db userRole user i cs1 s).
Proof.
  revert i s. induction cs1 as [|c cs1 IH]; intros i s.
  - cbn. now rewrite Nat.add_0_r.
  - cbn [app after_rows List.length]. rewrite IH. f_equal. lia.
Qed.

Lemma after_rows_step (userRole : option string) (user : option User)
    (courses : list NewCourse) (i : nat) (s : Run W) :
  exists evs outs,
    trace (env (after_rows db userRole user i courses s))
      = (trace (env s) ++ evs)%list /\
    errs (after_rows db userRole user i courses s) = (errs s ++ outs)%list /\
    successCount (after_rows db userRole user i courses s)
      = successCount s + List.length (filter insert_ok evs) /\
    List.length (filter insert_call evs) <= List.length courses /\
    List.length (filter insert_ok evs) <= List.length (filter insert_call evs) /\
    forallb (fun ev => negb (session_call ev)) evs = true.
Proof.
  revert i s. induction courses as [|c rest IH]; intros i s.
  - exists [], []. cbn. rewrite !app_nil_r. repeat split; lia.
  - cbn [after_rows].
    destruct (import_row_step userRole user i c s)
      as (ev1 & o1 & T1 & E1 & S1 & I1 & K1 & N1).
    destruct (IH (S i) (snd (import_row db userRole user i c s)))
      as (ev2 & o2 & T2 & E2 & S2 & I2 & K2 & N2).
    exists (ev1 ++ ev2)%list, (o1 ++ o2)%list.
    rewrite T2, T1, E2, E1, S2, S1, !app_assoc, !filter_app, !length_app.
    rewrite forallb_app, N1, N2. cbn [List.length].
    repeat split; lia.
Qed.

(** The row of a new teacher whose record is created. *)
Lemma row_teacher_created (userRole : option string) (user : option User)
    (i : nat) (course : NewCourse) (s : Run W) (w1 w2 w3 w4 : W)
    (newTeacher : TeacherRow) (r : Reply (Response CourseRow)) :
  section_missing userRole course = false ->
  JsString.truthy (teacherId course) = false ->
  JsString.truthy (teacher course) = true ->
  courses_select_by_code db (code course) (world (env s))
    = (Returned (Data None), w1) ->
  checkTeacherNameExists db (JsString.template (teacher course)) w1
    = (Returned false, w2) ->
  teachers_insert db (new_teacher user course) w2
    = (Returned (Data newTeacher), w3) ->
  courses_insert db
    (bulk_insert user course (Some (teacher_row_id newTeacher))) w3
    = (r, w4) ->
  import_row db userRole user i course s
  = (Val tt,
     {| env :=
          {| world := w4;
             trace :=
               (trace (env s) ++
                [EvCoursesSelectByCode (code course) (Returned (Data None));
                 EvCheckTeacherNameExists
                   (JsString.template (teacher course)) (Returned false);
                 EvTeachersInsert (new_teacher user course)
                   (Returned (Data newTeacher));
                 EvCoursesInsert
                   (bulk_insert user course
                      (Some (teacher_row_id newTeacher))) r])%list |};
        errs :=
          (errs s ++ teacher_created_warning course ::
           insert_outcomes i course r)%list;
        successCount := successCount s + insert_successes r |}).
Proof.
  intros Hsec Hid Hname Hsel Hex Hins Hcourse.
  unfold section_missing in Hsec.
  unfold_row. rewrite Hsec, Hsel. cbn. rewrite Hid, Hname. cbn.
  rewrite Hex. cbn. rewrite Hins. cbn. rewrite Hcourse.
  destruct r as [[row|error]|error]; cbn;
    rewrite <- ?app_assoc, ?Nat.add_0_r, ?Nat.add_1_r; reflexivity.
Qed.

(** The loop over two lists in a row is the loop over the first, then the
    loop over the second from the index and in the state the first
    left. *)
Lemma import_rows_app (userRole : option string) (user : option User)
    (cs1 cs2 : list NewCourse) (i : nat) (s : Run W) :
  snd (import_rows db userRole user i (cs1 ++ cs2)%list s)
  = snd (import_rows db userRole user (i + List.length cs1) cs2
           (snd (import_rows db userRole user i cs1 s))).
Proof.
  rewrite !import_rows_after. cbn [snd]. apply after_rows_app.
Qed.

(** The import of a permitted session whose lookups return: the session
    is looked up, which is all the import of the empty batch does, and the
    loop runs on the batch. *)
Lemma permitted_import_loops (courses : list NewCourse) (w w1 : W)
    (user : option User) :
  auth_getUser db w = (Returned user, w1) ->
  role_denied (role_of user) = false ->
  (forall id, rejected (fst (users_select_role db id w1)) = false) ->
  errs (snd (bulkImportCourses db [] (start w))) = [] /\
  successCount (snd (bulkImportCourses db [] (start w))) = 0 /\
  forallb session_call
    (trace (env (snd (bulkImportCourses db [] (start w))))) = true /\
  bulkImportCourses db courses (start w)
  = (Val (report_of
            (snd (import_rows db (role_of user) user 0 courses
                    (snd (bulkImportCourses db [] (start w)))))),
     snd (import_rows db (role_of user) user 0 courses
            (snd (bulkImportCourses db [] (start w))))).
Proof.
  intros Hget Hrole Hlook. unfold_bulk. cbn. rewrite Hget. cbn.
  destruct (JsString.truthy (option_map user_id user)); cbn.
  - specialize (Hlook (JsString.template (option_map user_id user))).
    destruct (users_select_role db _ w1) as [[r|e] w2]; [|discriminate].
    cbn. rewrite Hrole. cbn. rewrite import_rows_after. cbn.
    repeat split.
  - rewrite Hrole. cbn. rewrite import_rows_after. cbn. repeat split.
Qed.

(** The import of a batch made of two lists is the import of the first,
    followed by the loop over the second. *)
Lemma permitted_import_app (cs1 cs2 : list NewCourse) (w w1 : W)
    (user : option User) :
  auth_getUser db w = (Returned user, w1) ->
  role_denied (role_of user) = false ->
  (forall id, rejected (fst (users_select_role db id w1)) = false) ->
  bulkImportCourses db (cs1 ++ cs2)%list (start w)
  = (Val (report_of
            (snd (import_rows db (role_of user) user (List.length cs1) cs2
                    (snd (bulkImportCourses db cs1 (start w)))))),
     snd (import_rows db (role_of user) user (List.length cs1) cs2
            (snd (bulkImportCourses db cs1 (start w))))).
Proof.
  intros Hget Hrole Hlook.
  destruct (permitted_import_loops (cs1 ++ cs2)%list w w1 user Hget Hrole Hlook)
    as (_ & _ & _ & ->).
  destruct (permitted_import_loops cs1 w w1 user Hget Hrole Hlook)
    as (_ & _ & _ & ->).
  cbn [snd]. now rewrite import_rows_app.
Qed.

(** A turn of the loop sends the duplicate check of its candidate, once,
    unless the candidate is skipped for its missing section. *)
Lemma import_row_checks (userRole : option string) (user : option User)
    (i : nat) (course : NewCourse) (s : Run W) :
  exists evs,
    trace (env (snd (import_row db userRole user i course s)))
      = (trace (env s) ++ evs)%list /\
    List.length (filter duplicate_check_call evs)
    = (if section_missing userRole course then 0 else 1).
Proof.
  unfold section_missing. unfold_row. split_cases;
    (eexists; split; [suffix|]; reflexivity).
Qed.

Lemma import_rows_checks (userRole : option string) (user : option User)
    (courses : list NewCourse) (i : nat) (s : Run W) :
  exists evs,
    trace (env (snd (import_rows db userRole user i courses s)))
      = (trace (env s) ++ evs)%list /\
    List.length (filter duplicate_check_call evs)
    = List.length
        (filter (fun c => negb (section_missing userRole c)) courses).
Proof.
  rewrite import_rows_after. cbn [snd].
  revert i s. induction courses as [|c rest IH]; intros i s.
  - exists []. cbn. now rewrite app_nil_r.
  - cbn [after_rows].
    destruct (import_row_checks userRole user i c s) as (ev1 & T1 & K1).
    destruct (IH (S i) (snd (import_row db userRole user i c s)))
      as (ev2 & T2 & K2).
    exists (ev1 ++ ev2)%list. rewrite T2, T1, app_assoc.
    split; [reflexivity|].
    rewrite filter_app, length_app, K1, K2. cbn [filter].
    destruct (section_missing userRole c); reflexivity.
Qed.

(** The calls that look up the session are no duplicate checks. *)
Lemma session_calls_no_check (l : list Event) :
  forallb session_call l = true -> filter duplicate_check_call l = [].
Proof.
  induction l as [|ev l IH]; [reflexivity|].
  cbn [forallb]. intros H. apply andb_true_iff in H as [H1 H2].
  destruct ev; try discriminate; cbn; now apply IH.
Qed.

End Rows.

(** ** The claims on the bulk import and the permission gate *)

Section Claims.

Context {W : Type} (db : Backend W).

(** C1: when the session's role is absent or is neither admin nor
    section_admin, the import returns a report with no success and one
    hard error, the batch error; the only calls made are those that look
    up the session: no duplicate check, no teacher call and no insert is
    issued for any candidate. *)
Theorem denied_role_aborts_batch (courses : list NewCourse) (w w1 : W)
    (user : option User) :
  auth_getUser db w = (Returned user, w1) ->
  role_denied (role_of user) = true ->
  exists error s',
    bulkImportCourses db courses (start w)
      = (Val {| success := 0; errors := [batch_error error] |}, s') /\
    hard (batch_error error) = true /\
    forallb session_call (trace (env s')) = true.
Proof.
  intros Hget Hden. unfold_bulk. cbn. rewrite Hget. cbn.
  destruct (JsString.truthy (option_map user_id user)); cbn.
  - destruct (users_select_role db _ w1) as [[r|e] w2]; cbn;
      rewrite ?Hden; cbn; eexists; eexists; repeat split; reflexivity.
  - rewrite Hden. cbn. eexists; eexists; repeat split; reflexivity.
Qed.

(** C3, amended: a turn of the loop always ends normally.  An exception
    that leaves the body of the row's try, whichever step of the body
    raised it (the encoding, the duplicate check, the name check of the
    teacher, the insert), is caught at the row's boundary and becomes one
    hard error with the index, the code and the message of the row; the
    rejections of the duplicate check, of [checkTeacherNameExists] and of
    the course insert are such exceptions, and so is the error thrown
    when the duplicate check returns a store error.  An exception of the
    teacher insert or of the teacher lookup does not leave the body: the
    first becomes a soft warning, the second leaves no outcome, and in
    both cases the row goes on to its insert with the candidate's own
    teacher id.  The encoding of a candidate is a value, the text its
    insert sends.  The loop then goes on with every remaining candidate:
    in a batch of a permitted session, whatever the turn of one candidate
    did, the candidates after it are run from the state it left, and
    every candidate of the batch that is not skipped for its missing
    section has its duplicate check sent. *)
Theorem row_failure_contained (userRole : option string)
    (user : option User) (i : nat) (course : NewCourse)
    (rest : list NewCourse) (s : Run W) :
  fst (import_row db userRole user i course s) = Val tt /\
  (forall e s1,
     row_body db userRole user i course s = (Exn e, s1) ->
     import_row db userRole user i course s
     = (Val tt,
        {| env := env s1; errs := (errs s1 ++ [row_error i course e])%list;
           successCount := successCount s1 |}) /\
     hard (row_error i course e) = true /\
     message (row_error i course e)
     = "Course #" ++ JsString.of_nat (i + 1) ++ " (" ++ code course ++ "): "
       ++ err_message e) /\
  (exists evs outs,
     trace (env (snd (import_row db userRole user i course s)))
       = (trace (env s) ++ evs)%list /\
     errs (snd (import_row db userRole user i course s))
       = (errs s ++ outs)%list /\
     (forall c e, In (EvCoursesSelectByCode c (Rejected e)) evs ->
        outs = [row_error i course e] /\
        successCount (snd (import_row db userRole user i course s))
          = successCount s) /\
     (forall c e, In (EvCoursesSelectByCode c (Returned (Failure e))) evs ->
        outs = [row_error i course
                  (mkError ("Error checking for existing course: " ++
                            err_message e))] /\
        successCount (snd (import_row db userRole user i course s))
          = successCount s) /\
     (forall n e, In (EvCheckTeacherNameExists n (Rejected e)) evs ->
        outs = [row_error i course e] /\
        successCount (snd (import_row db userRole user i course s))
          = successCount s) /\
     (forall c e, In (EvCoursesInsert c (Rejected e)) evs ->
        In (row_error i course e) outs /\
        filter hard outs = [row_error i course e] /\
        successCount (snd (import_row db userRole user i course s))
          = successCount s) /\
     (forall t e, In (EvTeachersInsert t (Rejected e)) evs ->
        hard (teacher_thrown_warning i course e) = false /\
        exists r,
          In (EvCoursesInsert (bulk_insert user course (teacherId course)) r)
            evs /\
          outs = (teacher_thrown_warning i course e ::
                  insert_outcomes i course r)%list /\
          successCount (snd (import_row db userRole user i course s))
            = successCount s + insert_successes r) /\
     (forall n e, In (EvTeachersSelectIlike n (Rejected e)) evs ->
        exists r,
          In (EvCoursesInsert (bulk_insert user course (teacherId course)) r)
            evs /\
          outs = insert_outcomes i course r /\
          successCount (snd (import_row db userRole user i course s))
            = successCount s + insert_successes r) /\
     (forall c r, In (EvCoursesInsert c r) evs ->
        ins_class_time c = formatClassTimes (classTimes course))) /\
  import_rows db userRole user i (course :: rest) s
  = import_rows db userRole user (S i) rest
      (snd (import_row db userRole user i course s)) /\
  (forall before w w1 session,
     auth_getUser db w = (Returned session, w1) ->
     role_denied (role_of session) = false ->
     (forall id, rejected (fst (users_select_role db id w1)) = false) ->
     exists report s',
       bulkImportCourses db (before ++ course :: rest)%list (start w)
       = (Val report, s') /\
       s' = snd (import_rows db (role_of session) session
                   (S (List.length before)) rest
                   (snd (import_row db (role_of session) session
                           (List.length before) course
                           (snd (bulkImportCourses db before (start w))))))
       /\
       List.length (filter duplicate_check_call (trace (env s')))
       = List.length
           (filter (fun c => negb (section_missing (role_of session) c))
              (before ++ course :: rest)%list)).
Proof.
  split; [apply import_row_returns|].
  split.
  { intros e s1 Hbody. unfold import_row, try_catch. rewrite Hbody.
    split; [reflexivity|]. split; [reflexivity|].
    unfold row_error, row_label. cbn [message].
    now rewrite !append_assoc. }
  split.
  { unfold_row. split_cases;
      (eexists; eexists; split; [suffix|]; split; [suffix|];
       cbn [In app];
       split; [|split; [|split; [|split; [|split; [|split]]]]]; intros;
       repeat match goal with
              | H : _ \/ _ |- _ => destruct H
              | H : False |- _ => destruct H
              | H : @eq Event _ _ |- _ => inversion H; subst; clear H
              end;
       try solve [cbn; auto];
       try (split; [reflexivity|]);
       eexists;
       (split; [cbn [In]; repeat (first [left; reflexivity | right])|]);
       cbn; split; solve [reflexivity | lia]). }
  split.
  { cbn [import_rows]. unfold bind at 1.
    pose proof (import_row_returns db userRole user i course s) as R.
    destruct (import_row db userRole user i course s) as [r s1].
    cbn [fst snd] in *. now subst r. }
  intros before w w1 session Hget Hrole Hlook.
  pose proof (permitted_import_app db before (course :: rest) w w1 session
                Hget Hrole Hlook) as Hboth.
  destruct (permitted_import_loops db (before ++ course :: rest)%list w w1
              session Hget Hrole Hlook) as (_ & _ & Hsession & Hall).
  eexists; eexists. split; [exact Hboth|]. split.
  - cbn [import_rows]. unfold bind at 1.
    pose proof (import_row_returns db (role_of session) session
                  (List.length before) course
                  (snd (bulkImportCourses db before (start w)))) as R.
    destruct (import_row db (role_of session) session (List.length before)
                course (snd (bulkImportCourses db before (start w))))
      as [r s1].
    cbn [fst snd] in *. now subst r.
  - rewrite Hboth in Hall. apply (f_equal snd) in Hall. cbn [snd] in Hall.
    rewrite Hall.
    destruct (import_rows_checks db (role_of session) session
                (before ++ course :: rest)%list 0
                (snd (bulkImportCourses db [] (start w))))
      as (evs & T & K).
    rewrite T, filter_app, length_app, K.
    now rewrite (session_calls_no_check _ Hsession).
Qed.

(** C4, amended: for a candidate that passes the section check of its
    row, when the store holds a course with the candidate's code the turn
    appends one hard error that says the code already exists, makes no
    other call and leaves the success count as it was; when the existence
    query returns a store error, the turn appends one hard error with
    that message and likewise inserts nothing. *)
Theorem duplicate_row_skipped (userRole : option string)
    (user : option User) (i : nat) (course : NewCourse) (s : Run W) :
  section_missing userRole course = false ->
  (forall id w1,
     courses_select_by_code db (code course) (world (env s))
       = (Returned (Data (Some id)), w1) ->
     import_row db userRole user i course s
     = (Val tt,
        {| env :=
             {| world := w1;
                trace := (trace (env s) ++
                  [EvCoursesSelectByCode (code course)
                     (Returned (Data (Some id)))])%list |};
           errs := (errs s ++ [duplicate_error i course])%list;
           successCount := successCount s |})) /\
  (forall checkError w1,
     courses_select_by_code db (code course) (world (env s))
       = (Returned (Failure checkError), w1) ->
     import_row db userRole user i course s
     = (Val tt,
        {| env :=
             {| world := w1;
                trace := (trace (env s) ++
                  [EvCoursesSelectByCode (code course)
                     (Returned (Failure checkError))])%list |};
           errs := (errs s ++
             [row_error i course
                (mkError ("Error checking for existing course: " ++
                          err_message checkError))])%list;
           successCount := successCount s |})) /\
  hard (duplicate_error i course) = true /\
  JsString.includes "already exists" (message (duplicate_error i course))
    = true.
Proof.
  intros Hsec. unfold section_missing in Hsec. repeat split.
  - intros id w1 Hsel. unfold_row. now rewrite Hsec, Hsel.
  - intros e w1 Hsel. unfold_row. now rewrite Hsec, Hsel.
  - unfold duplicate_error. cbn [message].
    change "A course with this code already exists"
      with ("A course with this code " ++ "already exists" ++ "").
    rewrite <- append_assoc. apply includes_mid.
Qed.

(** C5, amended: for a candidate that passes the section check, whose
    code is not taken (the existence query returns no row), that supplies
    no teacher id but a teacher name, and for which
    [checkTeacherNameExists] answers no, the turn asks the store for a new
    teacher with that name, the phone "N/A" and, as department, the
    candidate's section or else the session's section; when the store
    returns the new record, the turn appends the soft warning of the
    creation, flagged as a success, and sends the course insert with the
    new teacher's id. *)
Theorem new_teacher_created (userRole : option string) (user : option User)
    (i : nat) (course : NewCourse) (s : Run W) (w1 w2 w3 w4 : W)
    (newTeacher : TeacherRow) (r : Reply (Response CourseRow)) :
  section_missing userRole course = false ->
  JsString.truthy (teacherId course) = false ->
  JsString.truthy (teacher course) = true ->
  courses_select_by_code db (code course) (world (env s))
    = (Returned (Data None), w1) ->
  checkTeacherNameExists db (JsString.template (teacher course)) w1
    = (Returned false, w2) ->
  teachers_insert db (new_teacher user course) w2
    = (Returned (Data newTeacher), w3) ->
  courses_insert db
    (bulk_insert user course (Some (teacher_row_id newTeacher))) w3
    = (r, w4) ->
  import_row db userRole user i course s
  = (Val tt,
     {| env :=
          {| world := w4;
             trace :=
               (trace (env s) ++
                [EvCoursesSelectByCode (code course) (Returned (Data None));
                 EvCheckTeacherNameExists
                   (JsString.template (teacher course)) (Returned false);
                 EvTeachersInsert (new_teacher user course)
                   (Returned (Data newTeacher));
                 EvCoursesInsert
                   (bulk_insert user course
                      (Some (teacher_row_id newTeacher))) r])%list |};
        errs :=
          (errs s ++ teacher_created_warning course ::
           insert_outcomes i course r)%list;
        successCount := successCount s + insert_successes r |}) /\
  teacher course = Some (t_name (new_teacher user course)) /\
  t_phone (new_teacher user course) = "N/A" /\
  t_department (new_teacher user course)
  = (if JsString.truthy (section course) then section course
     else if JsString.truthy (sectionId_of user) then sectionId_of user
     else None) /\
  isWarning (teacher_created_warning course) = true /\
  isSuccess (teacher_created_warning course) = true /\
  ins_teacher_id
    (bulk_insert user course (Some (teacher_row_id newTeacher)))
  = Some (teacher_row_id newTeacher).
Proof.
  intros Hsec Hid Hname Hsel Hex Hins Hcourse.
  split; [now apply (row_teacher_created db) with (w1 := w1) (w2 := w2)
                                                 (w3 := w3)|].
  repeat split.
  - cbn. destruct (teacher course) as [n|]; [reflexivity|discriminate].
  - cbn. unfold JsString.or_else.
    destruct (JsString.truthy (section course)) eqn:E; rewrite ?E;
      [reflexivity|].
    destruct (JsString.truthy (sectionId_of user)) eqn:E'; rewrite ?E';
      reflexivity.
Qed.

(** C6: when the implicit creation of the teacher fails (the store
    answers with an error, or the call is rejected), the turn appends a
    soft warning that describes the failure and still sends the course
    insert, with the candidate's own, falsy, teacher id; when that insert
    returns without error the row counts as a success and has no hard
    error. *)
Theorem teacher_failure_is_soft (userRole : option string)
    (user : option User) (i : nat) (course : NewCourse) (s : Run W)
    (w1 w2 w3 w4 : W) (failure : Reply (Response TeacherRow))
    (warning : ImportOutcome) (r : Reply (Response CourseRow)) :
  section_missing userRole course = false ->
  JsString.truthy (teacherId course) = false ->
  JsString.truthy (teacher course) = true ->
  courses_select_by_code db (code course) (world (env s))
    = (Returned (Data None), w1) ->
  checkTeacherNameExists db (JsString.template (teacher course)) w1
    = (Returned false, w2) ->
  teachers_insert db (new_teacher user course) w2 = (failure, w3) ->
  creation_warning i course failure = Some warning ->
  courses_insert db (bulk_insert user course (teacherId course)) w3
    = (r, w4) ->
  import_row db userRole user i course s
  = (Val tt,
     {| env :=
          {| world := w4;
             trace :=
               (trace (env s) ++
                [EvCoursesSelectByCode (code course) (Returned (Data None));
                 EvCheckTeacherNameExists
                   (JsString.template (teacher course)) (Returned false);
                 EvTeachersInsert (new_teacher user course) failure;
                 EvCoursesInsert
                   (bulk_insert user course (teacherId course)) r])%list |};
        errs := (errs s ++ warning :: insert_outcomes i course r)%list;
        successCount := successCount s + insert_successes r |}) /\
  isWarning warning = true /\
  hard warning = false /\
  JsString.includes "create teacher" (message warning) = true /\
  JsString.truthy
    (ins_teacher_id (bulk_insert user course (teacherId course))) = false /\
  (forall row, r = Returned (Data row) ->
     insert_outcomes i course r = [] /\ insert_successes r = 1).
Proof.
  intros Hsec Hid Hname Hsel Hex Hins Hwarn Hcourse.
  unfold section_missing in Hsec.
  assert (Hw : isWarning warning = true /\
               JsString.includes "create teacher" (message warning) = true).
  { destruct failure as [[t|e]|e]; cbn in Hwarn; inversion Hwarn; subst;
      (split; [reflexivity|]); cbn [message teacher_error_warning
                                      teacher_thrown_warning].
    - change "Warning - Could not create teacher "
        with ("Warning - Could not " ++ "create teacher" ++ " ").
      rewrite <- (append_assoc (row_label i course)).
      rewrite !append_assoc. rewrite <- (append_assoc (row_label i course)).
      apply includes_mid.
    - change "Warning - Failed to create teacher: "
        with ("Warning - Failed to " ++ "create teacher" ++ ": ").
      rewrite <- (append_assoc (row_label i course)).
      rewrite !append_assoc. rewrite <- (append_assoc (row_label i course)).
      apply includes_mid. }
  destruct Hw as [Hw1 Hw2].
  split; [|split; [assumption|]; split; [|split; [assumption|]; split]].
  - unfold_row. rewrite Hsec, Hsel. cbn. rewrite Hid, Hname. cbn.
    rewrite Hex. cbn. rewrite Hins.
    destruct failure as [[t|e]|e]; cbn in Hwarn; inversion Hwarn; subst;
      cbn; rewrite Hcourse;
      destruct r as [[row|error]|error]; cbn;
      rewrite <- ?app_assoc, ?Nat.add_0_r, ?Nat.add_1_r; reflexivity.
  - unfold hard. now rewrite Hw1.
  - exact Hid.
  - intros row ->. now split.
Qed.

Lemma role_denied_iff (userRole : option string) :
  role_denied userRole = false <->
  userRole = Some "admin" \/ userRole = Some "section_admin".
Proof.
  unfold role_denied, role_is. destruct userRole as [r|]; cbn.
  - destruct (String.eqb_spec r "admin") as [->|Ha];
      [cbn; split; auto|].
    destruct (String.eqb_spec r "section_admin") as [->|Hs];
      [cbn; split; auto|].
    cbn. rewrite orb_true_r. split; [discriminate|].
    intros [E|E]; inversion E; congruence.
  - split; [discriminate|]. intros [E|E]; discriminate.
Qed.

(** C7, amended: the creation of courses is permitted exactly for the
    roles admin and section_admin.  [createCourse] throws the permission
    error for any other role, and for a section_admin whose candidate has
    no section it throws the error that a section must be specified, in
    both cases before any insert; for an admin, whatever the section, and
    for a section_admin whose candidate has a section it reaches the
    insert.  [bulkImportCourses] refuses the whole batch for any other
    role; the row of a section_admin without a section gets a soft warning
    and is skipped with no call at all, and the row of an admin, whatever
    the section, or of a section_admin with a section goes on to the
    duplicate check, in a turn of the loop as at the end of any batch.
    [updateCourse] and [deleteCourse] test no role: whatever the session,
    each sends its one call to the store and returns what the store
    answers. *)
Theorem course_mutation_gate (st : CourseStore W) (course : NewCourse)
    (e0 : Env W) (w1 : W) (user : option User) :
  auth_getUser db (world e0) = (Returned user, w1) ->
  (role_denied (role_of user) = false <->
   role_of user = Some "admin" \/ role_of user = Some "section_admin") /\
  (role_denied (role_of user) = true ->
   createCourse db course e0
   = (Exn (mkError
        "Permission denied: Only admins and section admins can create courses"),
      {| world := w1;
         trace := (trace e0 ++ [EvGetUser (Returned user)])%list |})) /\
  (role_of user = Some "section_admin" ->
   JsString.truthy (section course) = false ->
   createCourse db course e0
   = (Exn (mkError "Section admin must specify a section for the course"),
      {| world := w1;
         trace := (trace e0 ++ [EvGetUser (Returned user)])%list |})) /\
  (role_of user = Some "admin" \/
   (role_of user = Some "section_admin" /\
    JsString.truthy (section course) = true) ->
   trace (snd (createCourse db course e0))
   = (trace e0 ++
      [EvGetUser (Returned user);
       EvCoursesInsert (createCourse_insert course)
         (fst (courses_insert db (createCourse_insert course) w1))])%list) /\
  (forall i s,
     role_of user = Some "section_admin" ->
     JsString.truthy (section course) = false ->
     import_row db (role_of user) user i course s
     = (Val tt,
        {| env := env s;
           errs := (errs s ++ [section_missing_warning i course])%list;
           successCount := successCount s |}) /\
     isWarning (section_missing_warning i course) = true /\
     hard (section_missing_warning i course) = false) /\
  (forall i s,
     role_of user = Some "admin" \/
     (role_of user = Some "section_admin" /\
      JsString.truthy (section course) = true) ->
     exists more,
       trace (env (snd (import_row db (role_of user) user i course s)))
       = (trace (env s) ++
          EvCoursesSelectByCode (code course)
            (fst (courses_select_by_code db (code course) (world (env s))))
          :: more)%list) /\
  (forall courses,
     role_denied (role_of user) = true ->
     (forall id, rejected (fst (users_select_role db id w1)) = false) ->
     exists s',
       bulkImportCourses db courses (start (world e0))
       = (Val {| success := 0;
                 errors :=
                   [batch_error (mkError
                      "Permission denied: Only admins and section admins can import courses")]
              |}, s') /\
       forallb session_call (trace (env s')) = true) /\
  (forall before,
     role_of user = Some "section_admin" ->
     JsString.truthy (section course) = false ->
     (forall id, rejected (fst (users_select_role db id w1)) = false) ->
     exists r1 s1 r2,
       bulkImportCourses db before (start (world e0)) = (Val r1, s1) /\
       bulkImportCourses db (before ++ [course])%list (start (world e0))
       = (Val r2,
          {| env := env s1;
             errs := (errs s1 ++
                      [section_missing_warning (List.length before) course])%list;
             successCount := successCount s1 |}) /\
       success r2 = success r1 /\
       errors r2
       = (errors r1 ++
          [section_missing_warning (List.length before) course])%list) /\
  (forall before,
     role_of user = Some "admin" \/
     (role_of user = Some "section_admin" /\
      JsString.truthy (section course) = true) ->
     (forall id, rejected (fst (users_select_role db id w1)) = false) ->
     exists r1 s1 r2 s2 more,
       bulkImportCourses db before (start (world e0)) = (Val r1, s1) /\
       bulkImportCourses db (before ++ [course])%list (start (world e0))
       = (Val r2, s2) /\
       trace (env s2)
       = (trace (env s1) ++
          EvCoursesSelectByCode (code course)
            (fst (courses_select_by_code db (code course) (world (env s1))))
          :: more)%list) /\
  (forall id updates w,
     snd (updateCourse st id updates (w, []))
     = (snd (courses_update st id (course_patch updates) w),
        [EvCoursesUpdate id (course_patch updates)
           (fst (courses_update st id (course_patch updates) w))]) /\
     (forall row,
        fst (courses_update st id (course_patch updates) w)
          = Returned (Data row) ->
        fst (updateCourse st id updates (w, [])) = Val (mapCourseFromDB row))) /\
  (forall id w,
     snd (deleteCourse st id (w, []))
     = (snd (courses_delete st id w),
        [EvCoursesDelete id (fst (courses_delete st id w))]) /\
     (forall u,
        fst (courses_delete st id w) = Returned (Data u) ->
        fst (deleteCourse st id (w, [])) = Val tt)).
Proof.
  intros Hget.
  assert (Permitted :
            role_of user = Some "admin" \/
            (role_of user = Some "section_admin" /\
             JsString.truthy (section course) = true) ->
            role_denied (role_of user) = false /\
            section_missing (role_of user) course = false).
  { unfold section_missing.
    intros [Hrole|[Hrole Hsec]]; rewrite Hrole, ?Hsec; now split. }
  assert (Checked : forall i s,
            section_missing (role_of user) course = false ->
            exists more,
              trace (env (snd (import_row db (role_of user) user i course s)))
              = (trace (env s) ++
                 EvCoursesSelectByCode (code course)
                   (fst (courses_select_by_code db (code course)
                           (world (env s))))
                 :: more)%list).
  { intros i s Hsec. unfold section_missing in Hsec.
    unfold_row. rewrite Hsec. cbn.
    repeat match goal with
           | |- context [match ?x with _ => _ end] =>
               lazymatch x with
               | context [match _ with _ => _ end] => fail
               | _ => destruct x eqn:?; cbn
               end
           end;
      eexists; rewrite <- ?app_assoc; cbn; reflexivity. }
  assert (One : forall i (s : Run W),
            snd (import_rows db (role_of user) user i [course] s)
            = snd (import_row db (role_of user) user i course s)).
  { intros. rewrite import_rows_after. reflexivity. }
  assert (Before : forall before,
            role_denied (role_of user) = false ->
            (forall id, rejected (fst (users_select_role db id w1)) = false) ->
            bulkImportCourses db before (start (world e0))
            = (Val (report_of
                      (snd (bulkImportCourses db before (start (world e0))))),
               snd (bulkImportCourses db before (start (world e0)))) /\
            bulkImportCourses db (before ++ [course])%list (start (world e0))
            = (Val (report_of
                      (snd (import_row db (role_of user) user
                              (List.length before) course
                              (snd (bulkImportCourses db before
                                      (start (world e0))))))),
               snd (import_row db (role_of user) user (List.length before)
                      course
                      (snd (bulkImportCourses db before (start (world e0)))))
              )).
  { intros before Hrole Hlook.
    pose proof (permitted_import_app db before [course] (world e0) w1 user
                  Hget Hrole Hlook) as Hboth.
    pose proof (permitted_import_app db before [] (world e0) w1 user
                  Hget Hrole Hlook) as Hfirst.
    rewrite app_nil_r in Hfirst. cbn [import_rows ret snd] in Hfirst.
    rewrite One in Hboth. split; assumption. }
  split; [apply role_denied_iff|].
  split; [|split; [|split; [|split; [|split; [|split; [|split; [|split;
    [|split]]]]]]]].
  - intros Hden. unfold createCourse, try_catch, bind, call, throw, ret.
    now rewrite Hget, Hden.
  - intros Hrole Hsec. unfold createCourse, try_catch, bind, call, throw, ret.
    now rewrite Hget, Hrole, Hsec.
  - intros Hrole. unfold createCourse, try_catch, bind, call, throw, ret.
    rewrite Hget.
    destruct Hrole as [Hrole|[Hrole Hsec]]; rewrite Hrole, ?Hsec; cbn;
    destruct (courses_insert db (createCourse_insert course) w1)
      as [[[row|error]|error] w2]; cbn; now rewrite <- app_assoc.
  - intros i s Hrole Hsec. split; [|now split].
    unfold_row. now rewrite Hrole, Hsec.
  - intros i s Hrole. apply Checked. now apply Permitted.
  - intros courses Hden Hlook. unfold_bulk. cbn. rewrite Hget. cbn.
    destruct (JsString.truthy (option_map user_id user)); cbn.
    + specialize (Hlook (JsString.template (option_map user_id user))).
      destruct (users_select_role db _ w1) as [[r|e] w2]; [|discriminate].
      cbn. rewrite Hden. cbn. eexists. split; reflexivity.
    + rewrite Hden. cbn. eexists. split; reflexivity.
  - intros before Hrole Hsec Hlook.
    assert (Hok : role_denied (role_of user) = false) by now rewrite Hrole.
    destruct (Before before Hok Hlook) as [Hfirst Hboth].
    assert (Hrow : forall i s,
              import_row db (role_of user) user i course s
              = (Val tt,
                 {| env := env s;
                    errs := (errs s ++ [section_missing_warning i course])%list;
                    successCount := successCount s |})).
    { intros i s. unfold_row. now rewrite Hrole, Hsec. }
    rewrite Hrow in Hboth. cbn [snd] in Hboth.
    eexists; eexists; eexists.
    split; [exact Hfirst|]. split; [exact Hboth|]. split; reflexivity.
  - intros before Hrole Hlook.
    destruct (Permitted Hrole) as [Hok Hsec].
    destruct (Before before Hok Hlook) as [Hfirst Hboth].
    destruct (Checked (List.length before)
                (snd (bulkImportCourses db before (start (world e0)))) Hsec)
      as [more Hmore].
    eexists; eexists; eexists; eexists; exists more.
    split; [exact Hfirst|]. split; [exact Hboth|]. exact Hmore.
  - intros id updates w.
    unfold updateCourse, try_catch, bind, invoke, throw, ret. cbn.
    destruct (courses_update st id (course_patch updates) w)
      as [[[row|error]|error] w2]; cbn;
      (split; [reflexivity|]); intros r H; inversion H; reflexivity.
  - intros id w.
    unfold deleteCourse, try_catch, bind, invoke, throw, ret. cbn.
    destruct (courses_delete st id w) as [[[u|error]|error] w2]; cbn;
      (split; [reflexivity|]); intros r H; inversion H; reflexivity.
Qed.

(** C9: the import always returns; its success count is the number of
    course insert calls that returned without error, it lies between 0
    and the number of candidates, and a turn of the loop never lowers it
    and raises it by at most one. *)
Theorem success_counts_inserts (courses : list NewCourse) (w : W) :
  exists report s',
    bulkImportCourses db courses (start w) = (Val report, s') /\
    success report = List.length (filter insert_ok (trace (env s'))) /\
    List.length (filter insert_ok (trace (env s')))
      <= List.length (filter insert_call (trace (env s'))) /\
    List.length (filter insert_call (trace (env s')))
      <= List.length courses /\
    0 <= success report <= List.length courses /\
    (forall userRole user i course s,
       successCount s
         <= successCount (snd (import_row db userRole user i course s))
         <= S (successCount s)).
Proof.
  assert (Step : forall userRole user i course s,
            successCount s
              <= successCount (snd (import_row db userRole user i course s))
              <= S (successCount s)).
  { intros userRole user i course s.
    destruct (import_row_step db userRole user i course s)
      as (evs & outs & _ & _ & S1 & I1 & K1 & _). lia. }
  assert (Loop : forall userRole user s0,
            errs s0 = [] -> successCount s0 = 0 ->
            forallb session_call (trace (env s0)) = true ->
            let s' := after_rows db userRole user 0 courses s0 in
            successCount s'
              = List.length (filter insert_ok (trace (env s'))) /\
            List.length (filter insert_ok (trace (env s')))
              <= List.length (filter insert_call (trace (env s'))) /\
            List.length (filter insert_call (trace (env s')))
              <= List.length courses).
  { intros userRole user s0 He Hs Ht s'. subst s'.
    destruct (after_rows_step db userRole user courses 0 s0)
      as (evs & outs & T & E & S1 & I1 & K1 & _).
    rewrite T, S1, Hs, !filter_app, !length_app.
    assert (Z1 : filter insert_ok (trace (env s0)) = []).
    { clear - Ht. induction (trace (env s0)) as [|ev l IH]; [reflexivity|].
      cbn in Ht. apply andb_true_iff in Ht as [H1 H2].
      cbn. destruct ev; try discriminate; cbn; now apply IH. }
    assert (Z2 : filter insert_call (trace (env s0)) = []).
    { clear - Ht. induction (trace (env s0)) as [|ev l IH]; [reflexivity|].
      cbn in Ht. apply andb_true_iff in Ht as [H1 H2].
      cbn. destruct ev; try discriminate; cbn; now apply IH. }
    rewrite Z1, Z2. cbn. lia. }
  unfold_bulk. cbn.
  destruct (auth_getUser db w) as [[user|e] w1]; cbn.
  - destruct (JsString.truthy (option_map user_id user)); cbn;
      [destruct (users_select_role db _ w1) as [[r|e] w2]; cbn|];
      try destruct (role_denied (role_of user)); cbn;
      try rewrite import_rows_after; cbn;
      eexists; eexists; (split; [reflexivity|]); cbn;
      try (repeat split; solve [lia | apply Step]);
      match goal with
      | |- context [after_rows db ?r ?u 0 courses ?s0] =>
          destruct (Loop r u s0 eq_refl eq_refl eq_refl) as (L1 & L2 & L3)
      end; repeat split; try apply Step; lia.
  - eexists; eexists; (split; [reflexivity|]); cbn.
    repeat split; solve [lia | apply Step].
Qed.

(** C10: the outcomes of a batch stand in the order of the candidates:
    the report of a batch made of two lists is the report of the first
    list followed by what the rows of the second list append, each run at
    its own index after the rows before it, and a batch with one more
    candidate at its end has the outcomes of that candidate's turn at the
    end of the report.  One candidate can add more than one outcome: the
    row of a teacher that was created gets a soft warning flagged as a
    success although the row is counted, and when its insert then fails
    the row gets a hard error as well, in a turn of the loop as in the
    report of the batch the row ends. *)
Theorem outcomes_follow_candidates :
  (forall cs1 cs2 w w1 user,
     auth_getUser db w = (Returned user, w1) ->
     role_denied (role_of user) = false ->
     (forall id, rejected (fst (users_select_role db id w1)) = false) ->
     exists r1 s1 r2 s2 o2,
       bulkImportCourses db cs1 (start w) = (Val r1, s1) /\
       bulkImportCourses db (cs1 ++ cs2)%list (start w) = (Val r2, s2) /\
       r1 = report_of s1 /\ r2 = report_of s2 /\
       s2 = snd (import_rows db (role_of user) user (List.length cs1) cs2 s1)
       /\
       errors r2 = (errors r1 ++ o2)%list /\
       (cs2 = [] -> o2 = []) /\
       (forall course, cs2 = [course] ->
          s2 = snd (import_row db (role_of user) user (List.length cs1)
                      course s1) /\
          errs (snd (import_row db (role_of user) user (List.length cs1)
                       course s1))
          = (errors r1 ++ o2)%list)) /\
  (forall userRole user i course (s : Run W) w1 w2 w3 w4 newTeacher r,
     section_missing userRole course = false ->
     JsString.truthy (teacherId course) = false ->
     JsString.truthy (teacher course) = true ->
     courses_select_by_code db (code course) (world (env s))
       = (Returned (Data None), w1) ->
     checkTeacherNameExists db (JsString.template (teacher course)) w1
       = (Returned false, w2) ->
     teachers_insert db (new_teacher user course) w2
       = (Returned (Data newTeacher), w3) ->
     courses_insert db
       (bulk_insert user course (Some (teacher_row_id newTeacher))) w3
       = (r, w4) ->
     isWarning (teacher_created_warning course) = true /\
     isSuccess (teacher_created_warning course) = true /\
     (forall row, r = Returned (Data row) ->
        errs (snd (import_row db userRole user i course s))
        = (errs s ++ [teacher_created_warning course])%list /\
        successCount (snd (import_row db userRole user i course s))
        = S (successCount s)) /\
     (forall error, r = Returned (Failure error) ->
        errs (snd (import_row db userRole user i course s))
        = (errs s ++ [teacher_created_warning course;
                      row_error i course error])%list /\
        hard (row_error i course error) = true /\
        successCount (snd (import_row db userRole user i course s))
        = successCount s)) /\
  (forall cs course w w0 user w1 w2 w3 w4 newTeacher r,
     auth_getUser db w = (Returned user, w0) ->
     role_denied (role_of user) = false ->
     (forall id, rejected (fst (users_select_role db id w0)) = false) ->
     section_missing (role_of user) course = false ->
     JsString.truthy (teacherId course) = false ->
     JsString.truthy (teacher course) = true ->
     courses_select_by_code db (code course)
       (world (env (snd (bulkImportCourses db cs (start w)))))
       = (Returned (Data None), w1) ->
     checkTeacherNameExists db (JsString.template (teacher course)) w1
       = (Returned false, w2) ->
     teachers_insert db (new_teacher user course) w2
       = (Returned (Data newTeacher), w3) ->
     courses_insert db
       (bulk_insert user course (Some (teacher_row_id newTeacher))) w3
       = (r, w4) ->
     exists r1 r2,
       fst (bulkImportCourses db cs (start w)) = Val r1 /\
       fst (bulkImportCourses db (cs ++ [course])%list (start w)) = Val r2 /\
       errors r2
       = (errors r1 ++ teacher_created_warning course ::
          insert_outcomes (List.length cs) course r)%list /\
       success r2 = success r1 + insert_successes r).
Proof.
  assert (One : forall userRole user i course (s : Run W),
            snd (import_rows db userRole user i [course] s)
            = snd (import_row db userRole user i course s)).
  { intros. rewrite import_rows_after. reflexivity. }
  split; [|split].
  - intros cs1 cs2 w w1 user Hget Hrole Hlook.
    pose proof (permitted_import_app db cs1 cs2 w w1 user Hget Hrole Hlook)
      as Hboth.
    pose proof (permitted_import_app db cs1 [] w w1 user Hget Hrole Hlook)
      as Hfirst.
    rewrite app_nil_r in Hfirst. cbn [import_rows ret snd] in Hfirst.
    destruct (bulkImportCourses db cs1 (start w)) as [res1 s1] eqn:E1.
    cbn [snd] in *. inversion Hfirst; subst res1.
    destruct (after_rows_step db (role_of user) user cs2 (List.length cs1) s1)
      as (evs & o2 & _ & Ho & _).
    assert (Ha : after_rows db (role_of user) user (List.length cs1) cs2 s1
                 = snd (import_rows db (role_of user) user
                          (List.length cs1) cs2 s1))
      by now rewrite import_rows_after.
    rewrite Ha in Ho. clear Ha.
    eexists; exists s1; eexists; eexists; exists o2.
    split; [reflexivity|]. split; [exact Hboth|].
    split; [reflexivity|]. split; [reflexivity|].
    split; [reflexivity|]. split; [exact Ho|]. split.
    + intros ->. cbn [import_rows ret snd] in Ho.
      rewrite <- (app_nil_r (errs s1)) in Ho at 1.
      now apply app_inv_head in Ho.
    + intros course ->. rewrite One in *. now split.
  - intros userRole user i course s w1 w2 w3 w4 newTeacher r
      Hsec Hid Hname Hsel Hex Hins Hcourse.
    rewrite (row_teacher_created db userRole user i course s w1 w2 w3 w4
               newTeacher r Hsec Hid Hname Hsel Hex Hins Hcourse).
    cbn [snd errs successCount].
    split; [reflexivity|]. split; [reflexivity|]. split.
    + intros row ->. cbn. split; [reflexivity|lia].
    + intros error ->. cbn. repeat split; lia.
  - intros cs course w w0 user w1 w2 w3 w4 newTeacher r
      Hget Hrole Hlook Hsec Hid Hname Hsel Hex Hins Hcourse.
    pose proof (permitted_import_app db cs [course] w w0 user Hget Hrole Hlook)
      as Hboth.
    pose proof (permitted_import_app db cs [] w w0 user Hget Hrole Hlook)
      as Hfirst.
    rewrite app_nil_r in Hfirst. cbn [import_rows ret snd] in Hfirst.
    rewrite One in Hboth.
    rewrite (row_teacher_created db (role_of user) user (List.length cs)
               course _ w1 w2 w3 w4 newTeacher r
               Hsec Hid Hname Hsel Hex Hins Hcourse) in Hboth.
    rewrite Hboth, Hfirst. cbn [fst snd].
    eexists; eexists. split; [reflexivity|]. split; [reflexivity|].
    split; reflexivity.
Qed.

End Claims.


(** ** The claims at work on the in-memory backend *)

Lemma denied_role_aborts_batch_witness :
  exists error s',
    bulkImportCourses Memory.backend
      [Memory.candidate "CSE101" None None;
       Memory.candidate "CSE102" (Some "Dr. X") None]
      (start (Memory.store "user" None []))
      = (Val {| success := 0; errors := [batch_error error] |}, s') /\
    hard (batch_error error) = true /\
    forallb session_call (trace (env s')) = true.
Proof.
  apply (denied_role_aborts_batch Memory.backend _
           (Memory.store "user" None []) (Memory.store "user" None [])
           (Memory.signed_in "user" None));
    reflexivity.
Defined.

(** C3, as stated, fails for the teacher step: an exception raised by the
    teacher insert is caught inside the row, becomes a soft warning, and
    the row goes on to its insert and is counted. *)
Lemma teacher_exception_counterexample :
  fst (bulkImportCourses Memory.backend
         [Memory.candidate "CSE101" (Some "Dr. X") None]
         (start (Memory.mkStore (Memory.signed_in "admin" None) [] [] []
                   (Some (Rejected (mkError "network down"))))))
  = Val {| success := 1;
           errors := [teacher_thrown_warning 0
                        (Memory.candidate "CSE101" (Some "Dr. X") None)
                        (mkError "network down")] |} /\
  hard (teacher_thrown_warning 0
          (Memory.candidate "CSE101" (Some "Dr. X") None)
          (mkError "network down")) = false /\
  filter teacher_insert_call
    (trace (env (snd (bulkImportCourses Memory.backend
       [Memory.candidate "CSE101" (Some "Dr. X") None]
       (start (Memory.mkStore (Memory.signed_in "admin" None) [] [] []
                 (Some (Rejected (mkError "network down")))))))))
  = [EvTeachersInsert
       (new_teacher (Memory.signed_in "admin" None)
          (Memory.candidate "CSE101" (Some "Dr. X") None))
       (Rejected (mkError "network down"))].
Proof.
  split; [vm_compute; reflexivity|]. split; vm_compute; reflexivity.
Qed.

(** The connection drops during the duplicate check of the first of two
    candidates: its turn ends with one hard error, the second candidate
    is checked and inserted.  And a teacher insert that is rejected leaves
    a soft warning, and the row is inserted and counted. *)
Lemma row_failure_contained_witness :
  import_row (Outage.backend "CSE101") (Some "admin")
    (Memory.signed_in "admin" None) 0
    (Memory.candidate "CSE101" None None)
    (start (Memory.store "admin" None []))
  = (Val tt,
     {| env :=
          {| world := Memory.store "admin" None [];
             trace := [EvCoursesSelectByCode "CSE101"
                         (Rejected (mkError "Failed to fetch"))] |};
        errs := [row_error 0 (Memory.candidate "CSE101" None None)
                   (mkError "Failed to fetch")];
        successCount := 0 |}) /\
  (exists report s',
     bulkImportCourses (Outage.backend "CSE101")
       [Memory.candidate "CSE101" None None;
        Memory.candidate "CSE102" None None]
       (start (Memory.store "admin" None []))
     = (Val report, s') /\
     errors report
     = [row_error 0 (Memory.candidate "CSE101" None None)
          (mkError "Failed to fetch")] /\
     success report = 1 /\
     Memory.st_courses (world (env s')) = ["CSE102"] /\
     List.length (filter duplicate_check_call (trace (env s'))) = 2) /\
  errs (snd (import_row Memory.backend (Some "admin")
               (Memory.signed_in "admin" None) 0
               (Memory.candidate "CSE101" (Some "Dr. X") None)
               (start (Memory.mkStore (Memory.signed_in "admin" None) [] []
                         [] (Some (Rejected (mkError "network down")))))))
  = [teacher_thrown_warning 0
       (Memory.candidate "CSE101" (Some "Dr. X") None)
       (mkError "network down")].
Proof.
  split; [|split].
  - exact (proj1 (proj1 (proj2
      (row_failure_contained (Outage.backend "CSE101") (Some "admin")
         (Memory.signed_in "admin" None) 0
         (Memory.candidate "CSE101" None None) []
         (start (Memory.store "admin" None [])))) _ _ eq_refl)).
  - pose proof (proj2 (proj2 (proj2 (proj2
      (row_failure_contained (Outage.backend "CSE101") (Some "admin")
         (Memory.signed_in "admin" None) 0
         (Memory.candidate "CSE101" None None)
         [Memory.candidate "CSE102" None None]
         (start (Memory.store "admin" None []))))))) as Hbatch.
    destruct (Hbatch [] (Memory.store "admin" None [])
                (Memory.store "admin" None [])
                (Memory.signed_in "admin" None)
                eq_refl eq_refl (fun _ => eq_refl))
      as (report & s' & Hrun & Hs' & Hcount).
    exists report, s'. split; [exact Hrun|].
    vm_compute in Hs'. subst s'.
    vm_compute in Hrun. inversion Hrun. subst report.
    repeat split; reflexivity.
  - destruct (proj1 (proj2 (proj2
      (row_failure_contained Memory.backend (Some "admin")
         (Memory.signed_in "admin" None) 0
         (Memory.candidate "CSE101" (Some "Dr. X") None) []
         (start (Memory.mkStore (Memory.signed_in "admin" None) [] [] []
                   (Some (Rejected (mkError "network down")))))))))
      as (evs & outs & T & E & _ & _ & _ & _ & Hinsert & _).
    vm_compute in T. subst evs.
    destruct (Hinsert _ (mkError "network down")
                (or_intror (or_intror (or_introl eq_refl))))
      as (_ & r & Hin & Houts & _).
    rewrite E, Houts.
    destruct Hin as [Hin|[Hin|[Hin|[Hin|[]]]]]; inversion Hin.
    reflexivity.
Defined.

(** C4, as stated, fails for a row that does not reach the duplicate
    check: the candidate of a section_admin without a section is skipped
    with a soft warning although a course with its code exists. *)
Lemma duplicate_unchecked_counterexample :
  fst (courses_select_by_code Memory.backend "CSE101"
         (Memory.store "section_admin" (Some "A") ["CSE101"]))
  = Returned (Data (Some "CSE101")) /\
  fst (bulkImportCourses Memory.backend
         [Memory.candidate "CSE101" None None]
         (start (Memory.store "section_admin" (Some "A") ["CSE101"])))
  = Val {| success := 0;
           errors := [section_missing_warning 0
                        (Memory.candidate "CSE101" None None)] |} /\
  hard (section_missing_warning 0 (Memory.candidate "CSE101" None None))
  = false /\
  JsString.includes "already exists"
    (message (section_missing_warning 0
                (Memory.candidate "CSE101" None None))) = false.
Proof.
  repeat split; vm_compute; reflexivity.
Qed.

Lemma duplicate_row_skipped_witness :
  section_missing (Some "admin") (Memory.candidate "CSE101" None None)
  = false /\
  import_row Memory.backend (Some "admin") (Memory.signed_in "admin" None) 0
    (Memory.candidate "CSE101" None None)
    (start (Memory.store "admin" None ["CSE101"]))
  = (Val tt,
     {| env :=
          {| world := Memory.store "admin" None ["CSE101"];
             trace := [EvCoursesSelectByCode "CSE101"
                         (Returned (Data (Some "CSE101")))] |};
        errs := [duplicate_error 0 (Memory.candidate "CSE101" None None)];
        successCount := 0 |}).
Proof.
  split; [reflexivity|].
  exact (proj1 (duplicate_row_skipped Memory.backend (Some "admin")
                  (Memory.signed_in "admin" None) 0
                  (Memory.candidate "CSE101" None None)
                  (start (Memory.store "admin" None ["CSE101"])) eq_refl)
           "CSE101" (Memory.store "admin" None ["CSE101"]) eq_refl).
Defined.

(** C5, as stated, fails for a row that does not reach the teacher step:
    a candidate with an unknown teacher name whose code is taken is
    rejected as a duplicate, and no teacher is created. *)
Lemma teacher_not_created_counterexample :
  teacherId (Memory.candidate "CSE101" (Some "Dr. X") None) = None /\
  fst (checkTeacherNameExists Memory.backend "Dr. X"
         (Memory.store "admin" None ["CSE101"]))
  = Returned false /\
  fst (bulkImportCourses Memory.backend
         [Memory.candidate "CSE101" (Some "Dr. X") None]
         (start (Memory.store "admin" None ["CSE101"])))
  = Val {| success := 0;
           errors := [duplicate_error 0
             (Memory.candidate "CSE101" (Some "Dr. X") None)] |} /\
  filter teacher_insert_call
    (trace (env (snd (bulkImportCourses Memory.backend
       [Memory.candidate "CSE101" (Some "Dr. X") None]
       (start (Memory.store "admin" None ["CSE101"])))))) = [] /\
  Memory.st_teachers
    (world (env (snd (bulkImportCourses Memory.backend
       [Memory.candidate "CSE101" (Some "Dr. X") None]
       (start (Memory.store "admin" None ["CSE101"])))))) = [].
Proof.
  repeat split; vm_compute; reflexivity.
Qed.

Lemma new_teacher_created_witness :
  exists s',
    import_row Memory.backend (Some "admin")
      (Memory.signed_in "admin" (Some "A")) 0
      (Memory.candidate "CSE101" (Some "Dr. X") None)
      (start (Memory.store "admin" (Some "A") []))
    = (Val tt, s') /\
    errs s'
    = [teacher_created_warning
         (Memory.candidate "CSE101" (Some "Dr. X") None)] /\
    successCount s' = 1 /\
    Memory.st_teachers (world (env s')) = [mkTeacherRow "t1" "Dr. X"] /\
    filter teacher_insert_call (trace (env s'))
    = [EvTeachersInsert (mkTeacherInsert "Dr. X" "N/A" (Some "A"))
         (Returned (Data (mkTeacherRow "t1" "Dr. X")))].
Proof.
  eexists. split.
  - refine (proj1 (new_teacher_created Memory.backend (Some "admin")
              (Memory.signed_in "admin" (Some "A")) 0
              (Memory.candidate "CSE101" (Some "Dr. X") None)
              (start (Memory.store "admin" (Some "A") []))
              (Memory.store "admin" (Some "A") [])
              (Memory.store "admin" (Some "A") [])
              _ _ (mkTeacherRow "t1" "Dr. X") _
              eq_refl eq_refl eq_refl eq_refl eq_refl eq_refl eq_refl)).
  - repeat split; reflexivity.
Defined.

Lemma teacher_failure_is_soft_witness :
  exists s',
    import_row Memory.backend (Some "admin")
      (Memory.signed_in "admin" None) 0
      (Memory.candidate "CSE101" (Some "Dr. X") None)
      (start (Memory.mkStore (Memory.signed_in "admin" None) [] [] []
                (Some (Returned (Failure (mkError "phone is required"))))))
    = (Val tt, s') /\
    errs s'
    = [teacher_error_warning 0
         (Memory.candidate "CSE101" (Some "Dr. X") None)
         (mkError "phone is required")] /\
    successCount s' = 1 /\
    Memory.st_courses (world (env s')) = ["CSE101"].
Proof.
  eexists. split.
  - refine (proj1 (teacher_failure_is_soft Memory.backend (Some "admin")
              (Memory.signed_in "admin" None) 0
              (Memory.candidate "CSE101" (Some "Dr. X") None)
              (start (Memory.mkStore (Memory.signed_in "admin" None) [] [] []
                 (Some (Returned (Failure (mkError "phone is required"))))))
              _ _ _ _
              (Returned (Failure (mkError "phone is required"))) _ _
              eq_refl eq_refl eq_refl eq_refl eq_refl eq_refl eq_refl
              eq_refl)).
  - repeat split; reflexivity.
Defined.

(** C7, as stated, fails for the mutations other than creation: under a
    session whose role is "user", for which [createCourse] is refused,
    [deleteCourse] removes the course of the shelf and [updateCourse]
    renames it. *)
Lemma update_delete_ungated_counterexample :
  fst (auth_getUser (Campus.backend (Memory.signed_in "user" None))
         Shelf.shelf)
  = Returned (Memory.signed_in "user" None) /\
  role_of (Memory.signed_in "user" None) = Some "user" /\
  fst (createCourse (Campus.backend (Memory.signed_in "user" None))
         (Memory.candidate "CSE102" None (Some "A"))
         (mkEnv Shelf.shelf []))
  = Exn (mkError
      "Permission denied: Only admins and section admins can create courses")
  /\
  map (fun x => db_id (fetched_row x)) (Shelf.sh_courses Shelf.shelf)
  = ["c1"] /\
  fst (deleteCourse Shelf.store "c1" (Shelf.shelf, [])) = Val tt /\
  Shelf.sh_courses (fst (snd (deleteCourse Shelf.store "c1" (Shelf.shelf, []))))
  = [] /\
  option_map course_name
    (match fst (updateCourse Shelf.store "c1" (Campus.rename "Algorithms II")
                  (Shelf.shelf, [])) with
     | Val c => Some c
     | Exn _ => None
     end)
  = Some "Algorithms II" /\
  map (fun x => db_name (fetched_row x))
    (Shelf.sh_courses
       (fst (snd (updateCourse Shelf.store "c1"
                    (Campus.rename "Algorithms II") (Shelf.shelf, [])))))
  = ["Algorithms II"].
Proof.
  repeat split; vm_compute; reflexivity.
Qed.

(** A section admin and a candidate without a section: [createCourse]
    throws, the import skips the row with a warning and sends nothing for
    it; and [deleteCourse] goes to the store under this session as under
    any other. *)
Lemma course_mutation_gate_witness :
  createCourse (Campus.backend (Memory.signed_in "section_admin" (Some "A")))
    (Memory.candidate "CSE102" None None) (mkEnv Shelf.shelf [])
  = (Exn (mkError "Section admin must specify a section for the course"),
     {| world := Shelf.shelf;
        trace := [EvGetUser
                    (Returned (Memory.signed_in "section_admin" (Some "A")))]
     |}) /\
  (exists r2 s2,
     bulkImportCourses
       (Campus.backend (Memory.signed_in "section_admin" (Some "A")))
       [Memory.candidate "CSE102" None None] (start Shelf.shelf)
     = (Val r2, s2) /\
     success r2 = 0 /\
     errors r2
     = [section_missing_warning 0 (Memory.candidate "CSE102" None None)] /\
     forallb session_call (trace (env s2)) = true) /\
  (exists more,
     trace (env (snd (import_row
                        (Campus.backend
                           (Memory.signed_in "section_admin" (Some "A")))
                        (Some "section_admin")
                        (Memory.signed_in "section_admin" (Some "A")) 0
                        (Memory.candidate "CSE101" None (Some "A"))
                        (start Shelf.shelf))))
     = EvCoursesSelectByCode "CSE101" (Returned (Data (Some "c1"))) :: more)
  /\
  fst (deleteCourse Shelf.store "c1" (Shelf.shelf, [])) = Val tt.
Proof.
  pose proof (fun course =>
    course_mutation_gate
      (Campus.backend (Memory.signed_in "section_admin" (Some "A")))
      Shelf.store course (mkEnv Shelf.shelf []) Shelf.shelf
      (Memory.signed_in "section_admin" (Some "A")) eq_refl) as Gate.
  split; [|split; [|split]].
  - exact (proj1 (proj2 (proj2 (Gate (Memory.candidate "CSE102" None None))))
             eq_refl eq_refl).
  - destruct (proj1 (proj2 (proj2 (proj2 (proj2 (proj2 (proj2 (proj2
                (Gate (Memory.candidate "CSE102" None None)))))))))
                [] eq_refl eq_refl (fun _ => eq_refl))
      as (r1 & s1 & r2 & H1 & H2 & Hs & He).
    vm_compute in H1. inversion H1. subst r1 s1.
    eexists; eexists. split; [exact H2|].
    split; [exact Hs|]. split; [exact He|reflexivity].
  - exact (proj1 (proj2 (proj2 (proj2 (proj2 (proj2
             (Gate (Memory.candidate "CSE101" None (Some "A"))))))))
             0 (start Shelf.shelf) (or_intror (conj eq_refl eq_refl))).
  - exact (proj2 (proj2 (proj2 (proj2 (proj2 (proj2 (proj2 (proj2 (proj2
             (proj2 (proj2 (Gate (Memory.candidate "CSE102" None None)))))))))))
             "c1" Shelf.shelf) tt eq_refl).
Defined.

(** Two candidates whose teachers are new, the code of the second being
    refused by the store: the report holds the warning of the first, then
    the warning and the hard error of the second, and one success. *)
Lemma outcomes_follow_candidates_witness :
  exists r2,
    fst (bulkImportCourses Memory.backend
           [Memory.candidate "CSE101" (Some "Dr. X") None;
            Memory.candidate "CSE102" (Some "Dr. Y") None]
           (start (Memory.mkStore (Memory.signed_in "admin" None) [] []
                     ["CSE102"] None)))
    = Val r2 /\
    errors r2
    = [teacher_created_warning
         (Memory.candidate "CSE101" (Some "Dr. X") None);
       teacher_created_warning
         (Memory.candidate "CSE102" (Some "Dr. Y") None);
       row_error 1 (Memory.candidate "CSE102" (Some "Dr. Y") None)
         (mkError "duplicate key value violates unique constraint")] /\
    success r2 = 1.
Proof.
  destruct (proj2 (proj2 (outcomes_follow_candidates Memory.backend))
              [Memory.candidate "CSE101" (Some "Dr. X") None]
              (Memory.candidate "CSE102" (Some "Dr. Y") None)
              (Memory.mkStore (Memory.signed_in "admin" None) [] []
                 ["CSE102"] None)
              (Memory.mkStore (Memory.signed_in "admin" None) [] []
                 ["CSE102"] None)
              (Memory.signed_in "admin" None)
              _ _ _ _ (mkTeacherRow "t2" "Dr. Y") _
              eq_refl eq_refl (fun _ => eq_refl) eq_refl eq_refl eq_refl
              eq_refl eq_refl eq_refl eq_refl)
    as (r1 & r2 & H1 & H2 & He & Hs).
  vm_compute in H1. inversion H1. subst r1.
  exists r2. split; [exact H2|]. split; [exact He|exact Hs].
Defined.

(** ** More on the bulk import *)

(** Decide the membership hypotheses of a goal about a concrete call
    record. *)
Ltac decide_events :=
  repeat match goal with
         | H : _ \/ _ |- _ => destruct H
         | H : False |- _ => destruct H
         | H : @eq Event _ _ |- _ => inversion H; subst; clear H
         end.

Section BulkMore.

Context {W : Type} (db : Backend W).

(** Every row ends in one of three ways: skipped for its missing section,
    counted, or given one hard error. *)
Lemma import_row_accounts (userRole : option string) (user : option User)
    (i : nat) (course : NewCourse) (s : Run W) :
  exists outs,
    errs (snd (import_row db userRole user i course s))
      = (errs s ++ outs)%list /\
    List.length outs <= 2 /\
    successCount (snd (import_row db userRole user i course s))
      + List.length (filter hard outs)
      + (if section_missing userRole course then 1 else 0)
    = successCount s + 1.
Proof.
  unfold section_missing. unfold_row. split_cases;
    (eexists; split; [suffix|]; cbn; split; lia).
Qed.

Lemma after_rows_accounts (userRole : option string) (user : option User)
    (courses : list NewCourse) (i : nat) (s : Run W) :
  exists outs,
    errs (after_rows db userRole user i courses s) = (errs s ++ outs)%list /\
    List.length outs <= 2 * List.length courses /\
    successCount (after_rows db userRole user i courses s)
      + List.length (filter hard outs)
      + List.length (filter (section_missing userRole) courses)
    = successCount s + List.length courses.
Proof.
  revert i s. induction courses as [|c rest IH]; intros i s.
  - exists []. cbn. rewrite app_nil_r. repeat split; lia.
  - cbn [after_rows].
    destruct (import_row_accounts userRole user i c s) as (o1 & E1 & L1 & A1).
    destruct (IH (S i) (snd (import_row db userRole user i c s)))
      as (o2 & E2 & L2 & A2).
    exists (o1 ++ o2)%list. rewrite E2, E1, app_assoc.
    split; [reflexivity|].
    rewrite filter_app, !length_app. cbn [filter List.length].
    destruct (section_missing userRole c); cbn [List.length]; split; lia.
Qed.

(** The run of an import whose session is permitted and whose session
    lookups return: the loop goes through every candidate. *)
Lemma bulk_permitted_run (courses : list NewCourse) (w w1 : W)
    (user : option User) :
  auth_getUser db w = (Returned user, w1) ->
  role_denied (role_of user) = false ->
  (forall id, rejected (fst (users_select_role db id w1)) = false) ->
  exists s0,
    errs s0 = [] /\ successCount s0 = 0 /\
    forallb session_call (trace (env s0)) = true /\
    bulkImportCourses db courses (start w)
    = (Val (report_of (after_rows db (role_of user) user 0 courses s0)),
       after_rows db (role_of user) user 0 courses s0).
Proof.
  intros Hget Hrole Hlook. unfold_bulk. cbn. rewrite Hget. cbn.
  destruct (JsString.truthy (option_map user_id user)); cbn.
  - specialize (Hlook (JsString.template (option_map user_id user))).
    destruct (users_select_role db _ w1) as [[r|e] w2]; [|discriminate].
    cbn. rewrite Hrole. cbn. rewrite import_rows_after. cbn.
    eexists. refine (conj _ (conj _ (conj _ eq_refl))); reflexivity.
  - rewrite Hrole. cbn. rewrite import_rows_after. cbn.
    eexists. refine (conj _ (conj _ (conj _ eq_refl))); reflexivity.
Qed.

(** X1: when the session is permitted and its lookups return, every
    candidate is accounted for exactly once: the success count, the hard
    errors and the rows skipped for a missing section add up to the number
    of candidates, and the report holds at most two outcomes per
    candidate. *)
Theorem every_candidate_accounted (courses : list NewCourse) (w w1 : W)
    (user : option User) :
  auth_getUser db w = (Returned user, w1) ->
  role_denied (role_of user) = false ->
  (forall id, rejected (fst (users_select_role db id w1)) = false) ->
  exists report s',
    bulkImportCourses db courses (start w) = (Val report, s') /\
    success report + List.length (filter hard (errors report))
      + List.length (filter (section_missing (role_of user)) courses)
    = List.length courses /\
    List.length (errors report) <= 2 * List.length courses.
Proof.
  intros Hget Hrole Hlook.
  destruct (bulk_permitted_run courses w w1 user Hget Hrole Hlook)
    as (s0 & E0 & S0 & _ & Run).
  destruct (after_rows_accounts (role_of user) user courses 0 s0)
    as (outs & E & L & A).
  eexists; eexists. split; [exact Run|].
  unfold report_of. cbn [success errors].
  rewrite E, E0 in *. cbn [app]. split; lia.
Qed.

(** X2: a turn of the loop makes at most one duplicate check and at most
    one course insert, and it sends an insert only after the duplicate
    check of the candidate's code returned no row; the insert carries the
    candidate's name and code. *)
Theorem insert_follows_clean_check (userRole : option string)
    (user : option User) (i : nat) (course : NewCourse) (s : Run W) :
  exists evs,
    trace (env (snd (import_row db userRole user i course s)))
      = (trace (env s) ++ evs)%list /\
    List.length (filter duplicate_check_call evs) <= 1 /\
    List.length (filter insert_call evs) <= 1 /\
    forall row reply,
      In (EvCoursesInsert row reply) evs ->
      ins_name row = name course /\ ins_code row = code course /\
      ins_class_time row = formatClassTimes (classTimes course) /\
      exists more last,
        evs = (EvCoursesSelectByCode (code course) (Returned (Data None))
               :: more ++ [last])%list /\
        last = EvCoursesInsert row reply /\
        filter teacher_call more = more.
Proof.
  unfold_row. split_cases;
    (eexists; split; [suffix|]; cbn [In app filter duplicate_check_call
                                      insert_call List.length];
     split; [lia|]; split; [lia|];
     intros row reply Hin; decide_events;
     (split; [reflexivity|]); (split; [reflexivity|]);
     (split; [reflexivity|]);
     first
       [ solve [eexists [], _; cbn; repeat split; reflexivity]
       | solve [eexists [_], _; cbn; repeat split; reflexivity]
       | solve [eexists [_; _], _; cbn; repeat split; reflexivity] ]).
Qed.

(** X3: a candidate that brings a teacher id, or no teacher name, makes no
    teacher call at all, and the insert of its row carries the teacher id
    as the candidate gave it. *)
Theorem no_teacher_step_no_teacher_call (userRole : option string)
    (user : option User) (i : nat) (course : NewCourse) (s : Run W) :
  teacher_step course = false ->
  exists evs,
    trace (env (snd (import_row db userRole user i course s)))
      = (trace (env s) ++ evs)%list /\
    filter teacher_call evs = [] /\
    forall row reply,
      In (EvCoursesInsert row reply) evs ->
      ins_teacher_id row = teacherId course.
Proof.
  unfold teacher_step. intros Hstep. unfold_row. rewrite Hstep.
  split_cases;
    (eexists; split; [suffix|]; cbn [In app filter teacher_call];
     split; [reflexivity|]; intros row reply Hin; decide_events;
     reflexivity).
Qed.

(** X4: for a teacher name the name check knows, the row looks the teacher
    up by name and sends the insert with the id found; when the lookup
    finds nothing, returns a store error or is rejected, the row records
    nothing about it and sends the insert with the candidate's own teacher
    id. *)
Theorem existing_teacher_lookup (userRole : option string)
    (user : option User) (i : nat) (course : NewCourse) (s : Run W)
    (w1 w2 w3 w4 : W) (found : Reply (Response (option TeacherRow)))
    (r : Reply (Response CourseRow)) :
  section_missing userRole course = false ->
  teacher_step course = true ->
  courses_select_by_code db (code course) (world (env s))
    = (Returned (Data None), w1) ->
  checkTeacherNameExists db (JsString.template (teacher course)) w1
    = (Returned true, w2) ->
  teachers_select_ilike db (JsString.template (teacher course)) w2
    = (found, w3) ->
  courses_insert db (bulk_insert user course (looked_up_id course found)) w3
    = (r, w4) ->
  import_row db userRole user i course s
  = (Val tt,
     {| env :=
          {| world := w4;
             trace :=
               (trace (env s) ++
                [EvCoursesSelectByCode (code course) (Returned (Data None));
                 EvCheckTeacherNameExists
                   (JsString.template (teacher course)) (Returned true);
                 EvTeachersSelectIlike
                   (JsString.template (teacher course)) found;
                 EvCoursesInsert
                   (bulk_insert user course (looked_up_id course found))
                   r])%list |};
        errs := (errs s ++ insert_outcomes i course r)%list;
        successCount := successCount s + insert_successes r |}).
Proof.
  intros Hsec Hstep Hsel Hex Hfound Hins.
  unfold section_missing in Hsec. unfold teacher_step in Hstep.
  unfold_row. rewrite Hsec, Hsel. cbn. rewrite Hstep. cbn.
  rewrite Hex. cbn. rewrite Hfound.
  destruct found as [[[t|]|e]|e]; cbn in Hins |- *; rewrite Hins;
    destruct r as [[row|error]|error]; cbn;
    rewrite <- ?app_assoc, ?app_nil_r, ?Nat.add_0_r, ?Nat.add_1_r;
    reflexivity.
Qed.

(** X5: the import cannot start when a session lookup is rejected: a
    rejected [getUser], and also a rejected query of the users table,
    which the import makes for its log only, ends the import with the
    batch error and no row is run, whatever the role of the session. *)
Theorem session_failure_aborts (courses : list NewCourse) (w : W) :
  (forall e w1,
     auth_getUser db w = (Rejected e, w1) ->
     bulkImportCourses db courses (start w)
     = (Val {| success := 0; errors := [batch_error e] |},
        {| env := {| world := w1; trace := [EvGetUser (Rejected e)] |};
           errs := [batch_error e]; successCount := 0 |})) /\
  (forall u w1 e w2,
     auth_getUser db w = (Returned (Some u), w1) ->
     JsString.truthy (Some (user_id u)) = true ->
     users_select_role db (user_id u) w1 = (Rejected e, w2) ->
     bulkImportCourses db courses (start w)
     = (Val {| success := 0; errors := [batch_error e] |},
        {| env :=
             {| world := w2;
                trace := [EvGetUser (Returned (Some u));
                          EvUsersSelectRole (user_id u) (Rejected e)] |};
           errs := [batch_error e]; successCount := 0 |})).
Proof.
  split.
  - intros e w1 Hget. unfold_bulk. cbn. now rewrite Hget.
  - intros u w1 e w2 Hget Hid Hlook. unfold_bulk. cbn. rewrite Hget. cbn.
    cbn in Hid. rewrite Hid. cbn. now rewrite Hlook.
Qed.

(** X6: under the role section_admin every course insert of a row carries
    the candidate's own, non-empty section, and every teacher the row
    creates gets that section as department; the section of the session
    is never used. *)
Theorem section_admin_rows_keep_section (user : option User) (i : nat)
    (course : NewCourse) (s : Run W) :
  exists evs,
    trace (env (snd (import_row db (Some "section_admin") user i course s)))
      = (trace (env s) ++ evs)%list /\
    (forall row reply,
       In (EvCoursesInsert row reply) evs ->
       JsString.truthy (section course) = true /\
       ins_section row = section course) /\
    (forall t reply,
       In (EvTeachersInsert t reply) evs ->
       JsString.truthy (section course) = true /\
       t_department t = section course).
Proof.
  unfold_row. cbn [role_is String.eqb]. 
  destruct (JsString.truthy (section course)) eqn:Hsec.
  - split_cases;
      (eexists; split; [suffix|]; cbn [In app];
       split; intros x reply Hin; decide_events;
       (split; [reflexivity|]); cbn; unfold JsString.or_else;
       rewrite ?Hsec; cbn; rewrite ?Hsec; reflexivity).
  - cbn. exists []. rewrite app_nil_r. repeat split; destruct H.
Qed.

End BulkMore.

(** ** More on the schedule codec *)



(** How [split] goes on after the first match, and what it does when
    there is none. *)
Lemma split_structure (sep s : string) :
  sep <> "" ->
  (includes sep s = false /\ split sep s = [s]) \/
  (exists a b, s = a ++ sep ++ b /\ includes sep a = false /\
               split sep s = a :: split sep b).
Proof.
  intros Hsep. destruct (includes sep s) eqn:E.
  - right. destruct (first_match _ _ E) as (a & b & -> & Hfree).
    exists a, b. split; [reflexivity|]. split.
    + rewrite (includes_starts_in _ _ Hsep).
      destruct (starts_in sep a "") eqn:F; [|reflexivity].
      apply (starts_in_mono _ _ _ (sep ++ b)) in F. simpl append in F.
      congruence.
    + now apply split_cut.
  - left. split; [reflexivity|]. now apply split_whole.
Qed.

Lemma length_append (a b : string) :
  String.length (a ++ b) = String.length a + String.length b.
Proof. induction a as [|c a IH]; simpl; [reflexivity | now rewrite IH]. Qed.

(** Induction on the text that is left after a match. *)
Lemma split_induction (sep : string) (P : string -> Prop) :
  sep <> "" ->
  (forall s, includes sep s = false -> split sep s = [s] -> P s) ->
  (forall a b, includes sep a = false ->
     split sep (a ++ sep ++ b) = a :: split sep b ->
     P b -> P (a ++ sep ++ b)) ->
  forall s, P s.
Proof.
  intros Hsep Hwhole Hcut s.
  remember (String.length s) as n eqn:Hn. revert s Hn.
  induction n as [n IH] using lt_wf_ind. intros s Hn.
  destruct (split_structure sep s Hsep) as [[E S]|(a & b & E & Ha & S)].
  - now apply Hwhole.
  - subst s. apply Hcut; [assumption | assumption |].
    apply (IH (String.length b)); [|reflexivity].
    subst n. rewrite !length_append.
    destruct sep; [congruence|]. simpl. lia.
Qed.

Lemma join_cons (sep x : string) (l : list string) :
  l <> [] -> join sep (x :: l) = x ++ sep ++ join sep l.
Proof. destruct l; [congruence | reflexivity]. Qed.

(** X9: cutting a schedule string at ", " drops no text: the fragments,
    joined again with ", ", are the string; and no fragment holds ", ". *)
Theorem fragments_rejoin (class_time : string) :
  join ", " (split ", " class_time) = class_time /\
  forall f, In f (split ", " class_time) -> includes ", " f = false.
Proof.
  assert (Hsep : ", " <> "") by discriminate.
  apply (split_induction ", "
           (fun s => join ", " (split ", " s) = s /\
                     forall f, In f (split ", " s) ->
                               includes ", " f = false) Hsep).
  - intros s E S. rewrite S. split; [reflexivity|].
    intros f [<-|[]]. exact E.
  - intros a b Ha S [IH1 IH2]. rewrite S. split.
    + rewrite join_cons by now apply split_nonempty. now rewrite IH1.
    + intros f [<-|Hf]; [exact Ha | now apply IH2].
Qed.

Lemma split_pieces_free (sep s p : string) :
  sep <> "" -> In p (split sep s) -> includes sep p = false.
Proof.
  intros Hsep. revert p.
  apply (split_induction sep
           (fun s => forall p, In p (split sep s) -> includes sep p = false)
           Hsep).
  - intros s0 E S p. rewrite S. intros [<-|[]]. exact E.
  - intros a b Ha S IH p. rewrite S. intros [<-|Hp]; [exact Ha|].
    now apply IH.
Qed.

Lemma split_hd_in (sep s : string) :
  sep <> "" -> In (hd "" (split sep s)) (split sep s).
Proof.
  intros Hsep. pose proof (split_nonempty sep s Hsep) as N.
  destruct (split sep s); [congruence | now left].
Qed.

Lemma split_second (sep s : string) :
  sep <> "" ->
  (nth_error (split sep s) 1 = None <-> includes sep s = false).
Proof.
  intros Hsep.
  destruct (split_structure sep s Hsep) as [[E S]|(a & b & E & Ha & S)].
  - rewrite S, E. cbn. tauto.
  - rewrite S. subst s. rewrite includes_mid.
    pose proof (split_nonempty sep b Hsep) as N.
    destruct (split sep b); [congruence|]. cbn. split; discriminate.
Qed.

(** X7: every decoded slot has a day; it has a classroom exactly when its
    fragment holds " in "; the day and the time never hold " at ", and
    the classroom never holds " in ". *)
Theorem decoded_slot_shape (f : string) :
  (exists d, day (parseClassTime f) = Some d /\ includes " at " d = false) /\
  (classroom (parseClassTime f) = None <-> includes " in " f = false) /\
  (forall t, time (parseClassTime f) = Some t -> includes " at " t = false) /\
  (forall c, classroom (parseClassTime f) = Some c ->
             includes " in " c = false).
Proof.
  assert (Hat : " at " <> "") by discriminate.
  assert (Hin : " in " <> "") by discriminate.
  assert (Day : forall x, exists d,
            nth_error (split " at " x) 0 = Some d /\
            includes " at " d = false).
  { intros x. pose proof (split_hd_in " at " x Hat) as H.
    pose proof (split_nonempty " at " x Hat) as N.
    destruct (split " at " x) as [|d l] eqn:E; [congruence|].
    exists d. split; [reflexivity|].
    apply (split_pieces_free " at " x d Hat). rewrite E. exact H. }
  assert (Time : forall x t,
            nth_error (split " at " x) 1 = Some t ->
            includes " at " t = false).
  { intros x t H. apply (split_pieces_free " at " x t Hat).
    now apply nth_error_In in H. }
  unfold parseClassTime. destruct (includes " in " f) eqn:E; cbn [day time classroom].
  - split; [apply Day|]. split; [|split].
    + pose proof (split_second " in " f Hin) as S. rewrite E in S.
      split; [intros H; apply S in H; discriminate | discriminate].
    + apply Time.
    + intros c H. apply (split_pieces_free " in " f c Hin).
      now apply nth_error_In in H.
  - split; [apply Day|]. split; [tauto|]. split; [apply Time|discriminate].
Qed.

(** X8: a schedule string without any delimiter, such as a free text or
    the empty string, comes back from decoding and encoding with
    " at undefined" appended. *)
Theorem reencode_plain_text (class_time : string) :
  includes ", " class_time = false ->
  includes " at " class_time = false ->
  includes " in " class_time = false ->
  parseClassTimes class_time = [mkClassTime (Some class_time) None None] /\
  formatClassTimes (parseClassTimes class_time)
  = class_time ++ " at undefined".
Proof.
  intros Hc Hat Hin.
  assert (P : parseClassTimes class_time
              = [mkClassTime (Some class_time) None None]).
  { unfold parseClassTimes.
    rewrite (split_whole ", " class_time) by (discriminate || assumption).
    cbn [map]. unfold parseClassTime. rewrite Hin.
    now rewrite (split_whole " at " class_time)
      by (discriminate || assumption). }
  split; [exact P|]. rewrite P.
  unfold formatClassTimes, formatClassTime. cbn. reflexivity.
Qed.

Lemma reencode_plain_text_witness :
  formatClassTimes (parseClassTimes "To be announced")
  = "To be announced at undefined".
Proof.
  exact (proj2 (reencode_plain_text "To be announced"
                  eq_refl eq_refl eq_refl)).
Defined.

(** ** More on [createCourse] and on the rest of the course service *)

Lemma mapCourseFromDB_has_slot (data : CourseRow) :
  course_classTimes (mapCourseFromDB data) <> [].
Proof.
  unfold mapCourseFromDB. cbn [course_classTimes].
  unfold parseClassTimes. intros E. apply map_eq_nil in E.
  revert E. apply split_nonempty. discriminate.
Qed.

Lemma parse_empty_text : parseClassTimes "" = [blank_slot].
Proof. reflexivity. Qed.

(** What the decoder makes of the class times a candidate was encoded
    from. *)
Lemma decoded_class_times (cts : list ClassTime) :
  (cts <> [] -> forallb entry_ok cts = true ->
   parseClassTimes (formatClassTimes cts) = cts) /\
  (cts = [] -> parseClassTimes (formatClassTimes cts) = [blank_slot]).
Proof.
  split.
  - intros Hne Hok. unfold parseClassTimes, formatClassTimes.
    rewrite split_join_fragments by assumption.
    rewrite map_map. clear Hne.
    induction cts as [|ct rest IH]; [reflexivity|].
    cbn [forallb] in Hok. apply andb_true_iff in Hok as [Hct Hrest].
    cbn [map]. now rewrite parse_format_one, IH.
  - intros ->. reflexivity.
Qed.

Section CourseMore.

Context {W : Type} (db : Backend W) (st : CourseStore W).

Ltac unfold_create :=
  unfold createCourse, try_catch, bind, call, throw, ret.

Ltac unfold_crud :=
  unfold fetchCourses, updateCourse, deleteCourse, fetchStudyMaterials,
    createStudyMaterial, updateStudyMaterial, deleteStudyMaterial,
    try_catch, bind, invoke, throw, ret.

(** X10: when the store answers the insert of [createCourse] with a row
    that holds the class-time text it was sent, the course returned has
    the candidate's class times, provided the list is not empty and its
    slots are ones the codec can carry; for an empty list the course
    returned has one blank slot. *)
Theorem createCourse_returns_class_times (course : NewCourse) (e0 : Env W)
    (w1 w2 : W) (user : option User) (row : CourseRow) :
  auth_getUser db (world e0) = (Returned user, w1) ->
  role_denied (role_of user) = false ->
  section_missing (role_of user) course = false ->
  courses_insert db (createCourse_insert course) w1
    = (Returned (Data row), w2) ->
  db_class_time row = formatClassTimes (classTimes course) ->
  exists c,
    fst (createCourse db course e0) = Val c /\
    (classTimes course <> [] ->
     forallb entry_ok (classTimes course) = true ->
     course_classTimes c = classTimes course) /\
    (classTimes course = [] -> course_classTimes c = [blank_slot]).
Proof.
  intros Hget Hrole Hsec Hins Hecho. unfold section_missing in Hsec.
  unfold_create. rewrite Hget, Hrole, Hsec. cbn. rewrite Hins. cbn.
  eexists. split; [reflexivity|]. cbn [course_classTimes mapCourseFromDB].
  rewrite Hecho. apply decoded_class_times.
Qed.

(** X11: [createCourse] makes at most one insert call.  It returns a
    course only when the session passed the gate and the store returned
    the inserted row, and the course is that row mapped; a store error of
    the insert comes back as an error whose message is the store's behind
    "Failed to create course: ", and a rejected call comes back as it
    is. *)
Theorem createCourse_outcomes (course : NewCourse) (e0 : Env W) :
  exists evs,
    trace (snd (createCourse db course e0)) = (trace e0 ++ evs)%list /\
    List.length (filter insert_call evs) <= 1 /\
    (forall c,
       fst (createCourse db course e0) = Val c ->
       exists user row,
         evs = [EvGetUser (Returned user);
                EvCoursesInsert (createCourse_insert course)
                  (Returned (Data row))] /\
         role_denied (role_of user) = false /\
         section_missing (role_of user) course = false /\
         c = mapCourseFromDB row) /\
    (forall row error,
       In (EvCoursesInsert row (Returned (Failure error))) evs ->
       fst (createCourse db course e0)
       = Exn (mkError ("Failed to create course: " ++ err_message error))) /\
    (forall e,
       (In (EvGetUser (Rejected e)) evs \/
        exists row, In (EvCoursesInsert row (Rejected e)) evs) ->
       fst (createCourse db course e0) = Exn e).
Proof.
  unfold section_missing. unfold_create.
  destruct (auth_getUser db (world e0)) as [[user|e] w1]; cbn.
  - destruct (role_denied (role_of user)) eqn:Hrole; cbn.
    + eexists. split; [suffix|]. cbn. split; [lia|].
      split; [discriminate|].
      split; [intros ? ? H; decide_events|].
      intros ? [H|[? H]]; decide_events.
    + destruct (role_is (role_of user) "section_admin"
                && negb (JsString.truthy (section course))) eqn:Hsec; cbn.
      * eexists. split; [suffix|]. cbn. split; [lia|].
        split; [discriminate|].
        split; [intros ? ? H; decide_events|].
        intros ? [H|[? H]]; decide_events.
      * destruct (courses_insert db (createCourse_insert course) w1)
          as [[[row|error]|error] w2]; cbn;
          (eexists; split; [suffix|]); cbn; (split; [lia|]);
          (split; [intros c Hc; inversion Hc; subst;
                   try (exists user, row; repeat split; assumption)|]);
          (split; [intros ? ? H; decide_events; reflexivity|]);
          intros ? [H|[? H]]; decide_events; reflexivity.
  - eexists. split; [suffix|]. cbn. split; [lia|].
    split; [discriminate|].
    split; [intros ? ? H; decide_events|].
    intros ? [H|[? H]]; decide_events; reflexivity.
Qed.

(** X12: the role check guards creation only.  For a session whose role
    [createCourse] refuses, [createCourse] throws before any insert,
    while [updateCourse] and [deleteCourse] look at no session: each
    sends its one call to the store, and its result is the store's. *)
Theorem role_gate_guards_creation_only (course : NewCourse) (id : string)
    (updates : CourseUpdates) (w w1 : W) (user : option User) :
  auth_getUser db w = (Returned user, w1) ->
  role_denied (role_of user) = true ->
  (exists e,
     fst (createCourse db course (mkEnv w [])) = Exn e /\
     filter insert_call (trace (snd (createCourse db course (mkEnv w []))))
     = []) /\
  snd (updateCourse st id updates (w, []))
  = (snd (courses_update st id (course_patch updates) w),
     [EvCoursesUpdate id (course_patch updates)
        (fst (courses_update st id (course_patch updates) w))]) /\
  (forall row,
     fst (courses_update st id (course_patch updates) w)
       = Returned (Data row) ->
     fst (updateCourse st id updates (w, [])) = Val (mapCourseFromDB row)) /\
  snd (deleteCourse st id (w, []))
  = (snd (courses_delete st id w),
     [EvCoursesDelete id (fst (courses_delete st id w))]) /\
  (forall u,
     fst (courses_delete st id w) = Returned (Data u) ->
     fst (deleteCourse st id (w, [])) = Val tt).
Proof.
  intros Hget Hrole. split; [|split; [|split; [|split]]].
  - unfold_create. cbn. rewrite Hget, Hrole. cbn.
    eexists. split; reflexivity.
  - unfold_crud. cbn.
    destruct (courses_update st id (course_patch updates) w)
      as [[[row|error]|error] w2]; reflexivity.
  - intros row. unfold_crud. cbn.
    destruct (courses_update st id (course_patch updates) w)
      as [[[row'|error]|error] w2]; cbn; intros H; inversion H; reflexivity.
  - unfold_crud. cbn.
    destruct (courses_delete st id w) as [[[u|error]|error] w2]; reflexivity.
  - intros u. unfold_crud. cbn.
    destruct (courses_delete st id w) as [[[u'|error]|error] w2];
      cbn; intros H; inversion H; reflexivity.
Qed.

(** X13: [updateCourse] sends a class-time text only when the updates
    carry class times.  When the store answers with a row that holds the
    text it was sent, the course returned has the updated class times,
    provided the list is not empty and its slots are ones the codec can
    carry; updating to an empty list returns a course with one blank
    slot. *)
Theorem updateCourse_returns_class_times (id : string)
    (updates : CourseUpdates) (s : W * list StoreEvent) (w1 : W)
    (row : CourseRow) :
  courses_update st id (course_patch updates) (fst s)
    = (Returned (Data row), w1) ->
  (upd_classTimes updates = None ->
   set_class_time (course_patch updates) = None) /\
  (forall cts,
     upd_classTimes updates = Some cts ->
     set_class_time (course_patch updates) = Some (db_class_time row) ->
     exists c,
       fst (updateCourse st id updates s) = Val c /\
       (cts <> [] -> forallb entry_ok cts = true ->
        course_classTimes c = cts) /\
       (cts = [] -> course_classTimes c = [blank_slot])).
Proof.
  intros Hupd. split.
  - intros H. unfold course_patch. cbn. now rewrite H.
  - intros cts Hcts Hecho. unfold_crud. rewrite Hupd. cbn.
    eexists. split; [reflexivity|].
    cbn [course_classTimes mapCourseFromDB].
    unfold course_patch in Hecho. cbn in Hecho. rewrite Hcts in Hecho.
    inversion Hecho as [E]. apply decoded_class_times.
Qed.

(** X14: [fetchCourses] returns the store's courses in the store's order,
    each mapped and with the number of its study materials (0 without the
    relation); every course returned has at least one class-time slot;
    without data it returns the empty list, and a store error is thrown
    as it is. *)
Theorem fetchCourses_in_order (s : W * list StoreEvent) (w1 : W)
    (res : Response (option (list FetchedCourse))) :
  courses_select_all st (fst s) = (Returned res, w1) ->
  match res with
  | Data (Some rows) =>
      exists cs,
        fst (fetchCourses st s) = Val cs /\
        map fst cs = map (fun r => mapCourseFromDB (fetched_row r)) rows /\
        map snd cs = map materialCount_of rows /\
        Forall (fun c => course_classTimes (fst c) <> []) cs
  | Data None => fst (fetchCourses st s) = Val []
  | Failure error => fst (fetchCourses st s) = Exn error
  end.
Proof.
  intros Hsel. unfold_crud. rewrite Hsel. cbn.
  destruct res as [[rows|]|error]; cbn; try reflexivity.
  eexists. split; [reflexivity|]. rewrite !map_map. cbn.
  split; [reflexivity|]. split; [reflexivity|].
  apply Forall_forall. intros c Hc. apply in_map_iff in Hc as (r & <- & _).
  apply mapCourseFromDB_has_slot.
Qed.

(** X15: every study material the service returns is a row of the store
    mapped: [fetchStudyMaterials] maps the rows in order, and
    [createStudyMaterial] returns a material only when the store returned
    the inserted row.  The course that comes with a material never has a
    credit or a section, because the join does not select them, and it
    has at least one class-time slot; null file columns become empty
    lists. *)
Theorem study_materials_from_rows :
  (forall data,
     (forall c, sm_course (materialFromDB data) = Some c ->
        course_credit c = None /\ course_section c = None /\
        course_classTimes c <> []) /\
     (m_course data = None <-> sm_course (materialFromDB data) = None) /\
     (m_file_urls data = None -> sm_fileUrls (materialFromDB data) = []) /\
     (m_original_file_names data = None ->
      sm_originalFileNames (materialFromDB data) = [])) /\
  (forall (s s' : W * list StoreEvent) ms,
     fetchStudyMaterials st s = (Val ms, s') ->
     exists rows,
       fst (materials_select_all st (fst s)) = Returned (Data rows) /\
       ms = map materialFromDB rows) /\
  (forall material (s s' : W * list StoreEvent) m,
     createStudyMaterial st material s = (Val m, s') ->
     exists row,
       fst (materials_insert st (material_insert material) (fst s))
       = Returned (Data (Some row)) /\
       m = materialFromDB row) /\
  (forall material (s : W * list StoreEvent) w1,
     materials_insert st (material_insert material) (fst s)
     = (Returned (Data None), w1) ->
     fst (createStudyMaterial st material s)
     = Exn (mkError
         "No data returned from database after creating study material")).
Proof.
  split; [|split; [|split]].
  - intros data. split; [|split; [|split]].
    + intros c. cbn. destruct (m_course data) as [j|]; [|discriminate].
      intros E. inversion E; subst.
      cbn [course_credit course_section mapCourseFromDB joined_data].
      split; [reflexivity|]. split; [reflexivity|].
      apply mapCourseFromDB_has_slot.
    + cbn. destruct (m_course data); split; congruence.
    + cbn. now intros ->.
    + cbn. now intros ->.
  - intros s s' ms. unfold_crud.
    destruct (materials_select_all st (fst s)) as [[[rows|error]|error] w1];
      cbn; intros H; inversion H; subst.
    now exists rows.
  - intros material s s' m. unfold_crud.
    destruct (materials_insert st (material_insert material) (fst s))
      as [[[[row|]|error]|error] w1];
      cbn; intros H; inversion H; subst.
    now exists row.
  - intros material s w1 H. unfold_crud. now rewrite H.
Qed.

End CourseMore.

(** ** The dashboard filters and handlers *)

Lemma strict_eq_some (a : option string) (s : string) :
  strict_eq a (Some s) = true <-> a = Some s.
Proof.
  destruct a as [x|]; cbn; [|split; discriminate].
  rewrite String.eqb_eq. split; [now intros -> | now intros [=]].
Qed.

Lemma includes_empty (s : string) : includes "" s = true.
Proof. destruct s; reflexivity. Qed.

(** X16: a section admin with section [sec] sees every task assigned to
    that section, in the order of the task list and never a task that is
    not in the list; when no user belongs to the section these are the
    only tasks shown; anyone who is no section admin, or has no section,
    sees the whole list. *)
Theorem section_admin_sees_section_tasks (users : list AppUser)
    (tasks : list Task) (sec : string) :
  JsString.truthy (Some sec) = true ->
  (forall t, In t tasks -> task_sectionId t = Some sec ->
             In t (filteredTasks users tasks true (Some sec))) /\
  (exists keep, filteredTasks users tasks true (Some sec) = filter keep tasks) /\
  ((forall u, In u users -> app_sectionId u <> Some sec) ->
   filteredTasks users tasks true (Some sec)
   = filter (fun t => strict_eq (task_sectionId t) (Some sec)) tasks) /\
  (forall sectionId, filteredTasks users tasks false sectionId = tasks) /\
  filteredTasks users tasks true None = tasks /\
  filteredTasks users tasks true (Some "") = tasks.
Proof.
  intros Hsec. unfold filteredTasks. rewrite Hsec. cbn [negb orb].
  split; [|split; [|split; [|split; [|split]]]]; try reflexivity.
  - intros t Hin Ht. apply filter_In. split; [exact Hin|].
    unfold task_relevant. rewrite Ht. cbn. now rewrite String.eqb_refl.
  - now eexists.
  - intros Hnone. apply filter_ext_in. intros t _. unfold task_relevant.
    destruct (strict_eq (task_sectionId t) (Some sec)); [reflexivity|].
    clear - Hnone. induction users as [|u us IH]; [reflexivity|].
    cbn [existsb]. rewrite IH by (intros; apply Hnone; now right).
    destruct (strict_eq (app_sectionId u) (Some sec)) eqn:E;
      [|reflexivity].
    apply strict_eq_some in E. exfalso. apply (Hnone u); [now left|exact E].
Qed.

Lemma section_admin_sees_section_tasks_witness :
  filteredTasks [] [mkTask "1" "Quiz 1" quiz "2025-01-01" "" my_tasks
                      "2024-12-01" false (Some "A");
                    mkTask "2" "Quiz 2" quiz "2025-01-01" "" my_tasks
                      "2024-12-01" true (Some "B")] true (Some "A")
  = filter (fun t => strict_eq (task_sectionId t) (Some "A"))
      [mkTask "1" "Quiz 1" quiz "2025-01-01" "" my_tasks
         "2024-12-01" false (Some "A");
       mkTask "2" "Quiz 2" quiz "2025-01-01" "" my_tasks
         "2024-12-01" true (Some "B")].
Proof.
  apply (proj1 (proj2 (proj2
           (section_admin_sees_section_tasks [] _ "A" eq_refl)))).
  intros u [].
Defined.

(** X17: as soon as one user belongs to the section, the section admin
    also sees every admin task, whatever section the task is assigned to,
    and every task whose name or description holds the name of a user of
    the section; a user of the section with an empty name makes the whole
    list visible. *)
Theorem section_admin_sees_admin_tasks (users : list AppUser)
    (tasks : list Task) (sec : string) (u : AppUser) :
  JsString.truthy (Some sec) = true ->
  In u users -> app_sectionId u = Some sec ->
  (forall t, In t tasks -> task_isAdminTask t = true ->
             In t (filteredTasks users tasks true (Some sec))) /\
  (forall t, In t tasks ->
             JsString.includes (app_name u) (task_name t) = true \/
             JsString.includes (app_name u) (task_description t) = true ->
             In t (filteredTasks users tasks true (Some sec))) /\
  (app_name u = "" -> filteredTasks users tasks true (Some sec) = tasks).
Proof.
  intros Hsec Hu Hus. unfold filteredTasks. rewrite Hsec. cbn [negb orb].
  assert (Keep : forall t,
            task_isAdminTask t
            || JsString.includes (app_name u) (task_description t)
            || JsString.includes (app_name u) (task_name t) = true ->
            task_relevant users (Some sec) t = true).
  { intros t Ht. unfold task_relevant.
    destruct (strict_eq (task_sectionId t) (Some sec)); [reflexivity|].
    apply existsb_exists. exists u. split; [exact Hu|].
    rewrite Hus. cbn [strict_eq]. now rewrite String.eqb_refl, Ht. }
  split; [|split].
  - intros t Hin Ht. apply filter_In. split; [exact Hin|].
    apply Keep. now rewrite Ht.
  - intros t Hin Ht. apply filter_In. split; [exact Hin|].
    apply Keep. destruct Ht as [Ht|Ht]; rewrite Ht;
      rewrite ?orb_true_r; reflexivity.
  - intros Hname. 
    assert (All : forall t, task_relevant users (Some sec) t = true).
    { intros t. apply Keep. rewrite Hname, includes_empty.
      now rewrite orb_true_r. }
    clear - All. induction tasks as [|t ts IH]; [reflexivity|].
    cbn [filter]. now rewrite All, IH.
Qed.

Lemma section_admin_sees_admin_tasks_witness :
  In (mkTask "2" "Exam hall" documents "2025-01-01" "" my_tasks
        "2024-12-01" true (Some "B"))
     (filteredTasks
        [mkAppUser "u1" None "Rahim" "user" None None None None None None
           (Some "A")]
        [mkTask "2" "Exam hall" documents "2025-01-01" "" my_tasks
           "2024-12-01" true (Some "B")] true (Some "A")).
Proof.
  apply (proj1 (section_admin_sees_admin_tasks
                  [mkAppUser "u1" None "Rahim" "user" None None None None
                     None None (Some "A")]
                  [mkTask "2" "Exam hall" documents "2025-01-01" "" my_tasks
                     "2024-12-01" true (Some "B")] "A"
                  (mkAppUser "u1" None "Rahim" "user" None None None None
                     None None (Some "A"))
                  eq_refl (or_introl eq_refl) eq_refl));
    [now left | reflexivity].
Defined.

Section AnnouncementFacts.

Context {Announcement : Type} (ann_title ann_content : Announcement -> string).

(** X18: a section admin sees an announcement exactly when its title or
    content holds the non-empty section name, or the name of any user of
    the list, of whatever section; with no section name and no user no
    announcement is shown, and a user with an empty name makes all of
    them visible. *)
Theorem section_admin_announcements (users : list AppUser)
    (announcements : list Announcement) (sec : string)
    (sectionName : option string) :
  JsString.truthy (Some sec) = true ->
  (forall a,
     In a (filteredAnnouncements ann_title ann_content users announcements
             true (Some sec) sectionName) <->
     In a announcements /\
     ((exists n, sectionName = Some n /\ n <> "" /\
                 (JsString.includes n (ann_title a) = true \/
                  JsString.includes n (ann_content a) = true)) \/
      (exists u, In u users /\
                 (JsString.includes (app_name u) (ann_title a) = true \/
                  JsString.includes (app_name u) (ann_content a) = true)))) /\
  (users = [] -> JsString.truthy sectionName = false ->
   filteredAnnouncements ann_title ann_content users announcements
     true (Some sec) sectionName = []) /\
  ((exists u, In u users /\ app_name u = "") ->
   filteredAnnouncements ann_title ann_content users announcements
     true (Some sec) sectionName = announcements).
Proof.
  intros Hsec. unfold filteredAnnouncements. rewrite Hsec. cbn [negb orb].
  split; [|split].
  - intros a. rewrite filter_In. unfold announcement_relevant.
    rewrite orb_true_iff, andb_true_iff, orb_true_iff, existsb_exists.
    split; intros [Hin H]; (split; [exact Hin|]).
    + destruct H as [[Ht H]|(u & Hu & H)].
      * left. destruct sectionName as [[|c n]|]; try discriminate.
        exists (String c n). cbn [template] in H.
        split; [reflexivity|]. split; [discriminate|exact H].
      * right. exists u. split; [exact Hu|].
        now apply orb_true_iff in H.
    + destruct H as [(n & -> & Hn & H)|(u & Hu & H)].
      * left. destruct n; [congruence|]. split; [reflexivity|exact H].
      * right. exists u. split; [exact Hu|]. now apply orb_true_iff.
  - intros -> Hname. unfold announcement_relevant. rewrite Hname. cbn.
    induction announcements as [|a l IH]; [reflexivity | exact IH].
  - intros (u & Hu & Hname).
    assert (All : forall a,
              announcement_relevant ann_title ann_content users
                sectionName a = true).
    { intros a. unfold announcement_relevant. apply orb_true_iff. right.
      apply existsb_exists. exists u. split; [exact Hu|].
      now rewrite Hname, includes_empty. }
    clear - All. induction announcements as [|a l IH]; [reflexivity|].
    cbn [filter]. now rewrite All, IH.
Qed.

End AnnouncementFacts.

Lemma section_admin_announcements_witness :
  filteredAnnouncements fst snd [] [("Holiday", "No classes on Friday")]
    true (Some "A") None = [].
Proof.
  exact (proj1 (proj2 (section_admin_announcements fst snd []
                         [("Holiday", "No classes on Friday")] "A" None
                         eq_refl)) eq_refl eq_refl).
Defined.

Section HandlerFacts.

Context {W : Type} (props : DashProps W).

(** X19: [deleteTeacher] of the dashboard never fails.  With an empty id
    it shows the toast "Invalid teacher ID" and does not call the teacher
    service; otherwise it calls the service once with the id, and a
    rejected call becomes one error toast that quotes the error's
    message, or "Unknown error" when the message is empty. *)
Theorem deleteTeacher_never_rejects (teacherId : string)
    (s : W * list DashEvent) :
  fst (deleteTeacher props teacherId s) = Val tt /\
  (teacherId = "" ->
   snd (deleteTeacher props teacherId s)
   = (fst s, (snd s ++ [EvErrorToast "Invalid teacher ID"])%list)) /\
  (teacherId <> "" ->
   forall r w1,
     deleteTeacherService props teacherId (fst s) = (r, w1) ->
     snd (deleteTeacher props teacherId s)
     = (w1,
        (snd s ++
         EvDeleteTeacherService teacherId r ::
         match r with
         | Returned _ => []
         | Rejected error =>
             [EvErrorToast
                ("Error deleting teacher: " ++ message_or_unknown error ++
                 ". The UI has been updated but you may need to refresh.")]
         end)%list)).
Proof.
  unfold deleteTeacher, showErrorToast, try_catch, invoke.
  split; [|split].
  - destruct teacherId; cbn; [reflexivity|].
    destruct (deleteTeacherService props _ (fst s)) as [[[]|e] w1];
      reflexivity.
  - intros ->. reflexivity.
  - intros Hne r w1 Hcall. destruct teacherId as [|c t]; [congruence|].
    cbn [truthy negb]. cbv iota. rewrite Hcall.
    destruct r as [[]|e]; cbn; rewrite <- ?app_assoc; reflexivity.
Qed.

(** X20: [handleCreateTask] never fails.  It calls [onCreateTask] once,
    with the section id exactly when the caller is a section admin with a
    section, and it refreshes the task list only when that call returned:
    a failed creation is followed by no refresh. *)
Theorem handleCreateTask_refreshes_after_success (isSectionAdmin : bool)
    (sectionId : option string) (taskData : NewTask)
    (s : W * list DashEvent) :
  let passed :=
    if isSectionAdmin && JsString.truthy sectionId then sectionId else None in
  let created := onCreateTask props taskData passed (fst s) in
  fst (handleCreateTask props isSectionAdmin sectionId taskData s) = Val tt /\
  snd (snd (handleCreateTask props isSectionAdmin sectionId taskData s))
  = (snd s ++
     EvOnCreateTask taskData passed (fst created) ::
     match fst created with
     | Returned _ => [EvRefreshTasks (fst (refreshTasks props (snd created)))]
     | Rejected _ => []
     end)%list.
Proof.
  unfold handleCreateTask, try_catch, bind, invoke, ret.
  destruct (isSectionAdmin && JsString.truthy sectionId); cbn;
    destruct (onCreateTask props taskData _ (fst s)) as [[[]|e] w1]; cbn;
    try destruct (refreshTasks props w1) as [[[]|e'] w2]; cbn;
    rewrite <- ?app_assoc; split; reflexivity.
Qed.

End HandlerFacts.

(** ** The authentication hook *)

Lemma getItem_setItem (k v : string) (l : Storage) :
  getItem k (setItem k v l) = Some v.
Proof. unfold setItem. cbn [getItem]. now rewrite String.eqb_refl. Qed.

Lemma getItem_removeItem (k : string) (l : Storage) :
  getItem k (removeItem k l) = None.
Proof.
  unfold removeItem. induction l as [|[k' v] l IH]; [reflexivity|].
  cbn [filter fst]. destruct (String.eqb k k') eqn:E; cbn [negb];
    [exact IH|].
  cbn [getItem]. now rewrite E.
Qed.

Lemma getItem_removeItem_other (k k' : string) (l : Storage) :
  k <> k' -> getItem k (removeItem k' l) = getItem k l.
Proof.
  intros Hne. unfold removeItem.
  induction l as [|[k0 v] l IH]; [reflexivity|].
  cbn [filter fst]. destruct (String.eqb k' k0) eqn:E; cbn [negb getItem].
  - apply String.eqb_eq in E. subst k0.
    destruct (String.eqb_spec k k'); [congruence | exact IH].
  - now rewrite IH.
Qed.

Lemma getItem_setItem_other (k k' v : string) (l : Storage) :
  k <> k' -> getItem k (setItem k' v l) = getItem k l.
Proof.
  intros Hne. unfold setItem. cbn [getItem].
  destruct (String.eqb_spec k k'); [congruence|].
  now apply getItem_removeItem_other.
Qed.

Lemma or_default_truthy (a : option string) (d : string) :
  d <> "" -> or_default a d <> "".
Proof.
  intros Hd. unfold or_default.
  destruct a as [[|c s]|]; cbn; try assumption. discriminate.
Qed.

Lemma truthy_or_else (a b : option string) :
  JsString.truthy (JsString.or_else a b)
  = JsString.truthy a || JsString.truthy b.
Proof. unfold JsString.or_else. now destruct (JsString.truthy a) eqn:E. Qed.

Lemma starts_in_char (c : ascii) (a t : string) :
  starts_in (String c "") a t = starts_in (String c "") a "".
Proof.
  induction a as [|x a IH]; [reflexivity|].
  cbn [starts_in]. rewrite IH. cbn [append startsWith]. reflexivity.
Qed.

Lemma split_char_first (c : ascii) (a b : string) :
  includes (String c "") a = false ->
  split (String c "") (a ++ String c "" ++ b)
  = a :: split (String c "") b.
Proof.
  intros H. apply split_cut; [discriminate|].
  rewrite starts_in_char, <- includes_starts_in by discriminate. exact H.
Qed.

Lemma storage_after_logout_flag (l : Storage) :
  getItem REMEMBER_ME_KEY (storage_after_logout l)
  = getItem REMEMBER_ME_KEY l.
Proof.
  unfold storage_after_logout.
  rewrite !getItem_removeItem_other by discriminate.
  destruct (strict_eq _ _); cbn [negb]; [reflexivity|].
  now rewrite getItem_removeItem_other by discriminate.
Qed.

Lemma storage_after_logout_saved (l : Storage) :
  getItem SAVED_EMAIL_KEY (storage_after_logout l)
  = if strict_eq (getItem REMEMBER_ME_KEY l) (Some "true")
    then getItem SAVED_EMAIL_KEY l else None.
Proof.
  unfold storage_after_logout.
  rewrite !getItem_removeItem_other by discriminate.
  destruct (strict_eq _ _); cbn [negb]; [reflexivity|].
  apply getItem_removeItem.
Qed.

Lemma remembered_storage (email : string) (rememberMe : bool) (l : Storage) :
  let l' := if rememberMe
            then setItem SAVED_EMAIL_KEY email
                   (setItem REMEMBER_ME_KEY "true" l)
            else removeItem SAVED_EMAIL_KEY (removeItem REMEMBER_ME_KEY l) in
  getItem REMEMBER_ME_KEY l' = (if rememberMe then Some "true" else None) /\
  getItem SAVED_EMAIL_KEY l' = (if rememberMe then Some email else None) /\
  forall k, k <> REMEMBER_ME_KEY -> k <> SAVED_EMAIL_KEY ->
            getItem k l' = getItem k l.
Proof.
  assert (Hne : REMEMBER_ME_KEY <> SAVED_EMAIL_KEY) by discriminate.
  destruct rememberMe; cbn zeta; split; [|split| |split].
  - rewrite getItem_setItem_other by exact Hne. apply getItem_setItem.
  - apply getItem_setItem.
  - intros k H1 H2. now rewrite !getItem_setItem_other by assumption.
  - rewrite getItem_removeItem_other by exact Hne. apply getItem_removeItem.
  - apply getItem_removeItem.
  - intros k H1 H2. now rewrite !getItem_removeItem_other by assumption.
Qed.

Section AuthFacts.

Context {W C : Type} (auth : AuthBackend W C).

Ltac unfold_auth :=
  unfold checkSession, handleAuthChange, updateUserState, login, signup,
    logout, forgotPassword, restoreSavedEmail, try_finally, try_catch, bind,
    request, setUser, setLoading, setError, setSavedEmail, storage, readItem,
    ret, throw.

(** X21: a user set by [updateUserState] always has a role that is not
    empty: the role of the users table when that is not empty, else the
    role of the auth metadata when that is not empty, else "user"; this
    also holds when the query of the users table returns an error, which
    leaves the error state as it was. *)
Theorem updateUserState_sets_role (authUser : AuthUser) (s : Hook W C)
    (res : Response UserRow) (w1 : W) :
  users_select auth (au_id authUser) (h_world s) = (Returned res, w1) ->
  let db_role :=
    match res with Data row => ur_role row | Failure _ => None end in
  let md_role := opt_field (au_user_metadata authUser) amd_role in
  exists u,
    updateUserState auth authUser s
    = (Val tt,
       mkHook w1
         (h_calls s ++ [EvUsersSelect (au_id authUser) (Returned res)])%list
         (Some u) (h_loading s) (h_error s) (h_savedEmail s) (h_storage s)) /\
    app_id u = au_id authUser /\
    app_role u <> "" /\
    app_role u
    = (if JsString.truthy db_role then JsString.template db_role
       else if JsString.truthy md_role then JsString.template md_role
       else "user").
Proof.
  intros Hsel db_role md_role. unfold_auth. rewrite Hsel.
  eexists. split; [reflexivity|]. split; [reflexivity|].
  unfold user_of. cbn [app_role]. split.
  - apply or_default_truthy. discriminate.
  - unfold or_default. rewrite truthy_or_else. unfold JsString.or_else.
    subst db_role md_role.
    destruct res as [row|e]; cbn [opt_field];
      destruct (JsString.truthy _) eqn:E1; cbn; try reflexivity;
      destruct (JsString.truthy (opt_field _ amd_role)) eqn:E2; reflexivity.
Qed.

(** X22: when neither the auth metadata nor the users table has a name,
    the name of the user is the part of the email before its first "@",
    and it is the empty string when there is no email. *)
Theorem user_name_from_email (authUser : AuthUser)
    (userData : option UserRow) :
  JsString.truthy (opt_field (au_user_metadata authUser) amd_name) = false ->
  JsString.truthy (opt_field userData ur_name) = false ->
  (forall local rest,
     au_email authUser = Some (local ++ "@" ++ rest) ->
     includes "@" local = false ->
     app_name (user_of authUser userData) = local) /\
  (forall e, au_email authUser = Some e -> includes "@" e = false ->
             app_name (user_of authUser userData) = e) /\
  (au_email authUser = None -> app_name (user_of authUser userData) = "").
Proof.
  intros Hmd Hud. unfold user_of. cbn [app_name].
  unfold or_default, JsString.or_else. rewrite Hmd, Hud.
  split; [|split].
  - intros local rest He Hl. rewrite He. unfold email_local_part.
    rewrite split_char_first by assumption. cbn [nth_error].
    destruct local; reflexivity.
  - intros e He Hl. rewrite He. unfold email_local_part.
    rewrite split_whole by (discriminate || assumption). cbn [nth_error].
    destruct e; reflexivity.
  - intros ->. reflexivity.
Qed.

Lemma updateUserState_settles (authUser : AuthUser) (s : Hook W C) :
  fst (updateUserState auth authUser s) = Val tt /\
  h_loading (snd (updateUserState auth authUser s)) = h_loading s /\
  h_storage (snd (updateUserState auth authUser s)) = h_storage s /\
  h_savedEmail (snd (updateUserState auth authUser s)) = h_savedEmail s.
Proof.
  unfold_auth.
  destruct (users_select auth (au_id authUser) (h_world s))
    as [[res|e] w1]; cbn; repeat split.
Qed.

(** X23: [checkSession] never fails and always ends with [loading] false.
    When [getSession] is rejected it records "Failed to check
    authentication status"; when there is no session it leaves user and
    error as they were, whereas an auth change without a session, in
    [handleAuthChange], signs the user out; when the query of the users
    table is rejected it records "Failed to update user information" and
    keeps the user. *)
Theorem checkSession_always_settles (s : Hook W C) :
  fst (checkSession auth s) = Val tt /\
  h_loading (snd (checkSession auth s)) = false /\
  h_storage (snd (checkSession auth s)) = h_storage s /\
  (forall e w1,
     getSession auth (h_world s) = (Rejected e, w1) ->
     h_error (snd (checkSession auth s))
       = Some "Failed to check authentication status" /\
     h_user (snd (checkSession auth s)) = h_user s) /\
  (forall w1,
     getSession auth (h_world s) = (Returned None, w1) ->
     h_user (snd (checkSession auth s)) = h_user s /\
     h_error (snd (checkSession auth s)) = h_error s) /\
  (forall u w1 e w2,
     getSession auth (h_world s) = (Returned (Some u), w1) ->
     users_select auth (au_id u) w1 = (Rejected e, w2) ->
     h_error (snd (checkSession auth s))
       = Some "Failed to update user information" /\
     h_user (snd (checkSession auth s)) = h_user s) /\
  (fst (handleAuthChange auth None s) = Val tt /\
   h_user (snd (handleAuthChange auth None s)) = None /\
   h_loading (snd (handleAuthChange auth None s)) = false /\
   h_calls (snd (handleAuthChange auth None s)) = h_calls s).
Proof.
  split; [|split; [|split; [|split; [|split; [|split]]]]].
  - unfold_auth. destruct (getSession auth (h_world s)) as [[[u|]|e] w1];
      cbn; try reflexivity.
    destruct (users_select auth (au_id u) w1) as [[res|e] w2]; reflexivity.
  - unfold_auth. destruct (getSession auth (h_world s)) as [[[u|]|e] w1];
      cbn; try reflexivity.
    destruct (users_select auth (au_id u) w1) as [[res|e] w2]; reflexivity.
  - unfold_auth. destruct (getSession auth (h_world s)) as [[[u|]|e] w1];
      cbn; try reflexivity.
    destruct (users_select auth (au_id u) w1) as [[res|e] w2]; reflexivity.
  - intros e w1 H. unfold_auth. rewrite H. now split.
  - intros w1 H. unfold_auth. rewrite H. now split.
  - intros u w1 e w2 H1 H2. unfold_auth. rewrite H1. cbn. rewrite H2.
    now split.
  - unfold_auth. cbn. repeat split.
Qed.

(** The local storage [login] leaves, whatever comes of the login. *)
Lemma login_storage (credentials : LoginCredentials) (rememberMe : bool)
    (s : Hook W C) :
  h_storage (snd (login auth credentials rememberMe s))
  = if rememberMe
    then setItem SAVED_EMAIL_KEY (cred_email credentials)
           (setItem REMEMBER_ME_KEY "true" (h_storage s))
    else removeItem SAVED_EMAIL_KEY
           (removeItem REMEMBER_ME_KEY (h_storage s)).
Proof.
  unfold_auth. destruct rememberMe; cbn;
    destruct (loginUser auth credentials (h_world s)) as [[u|e] w1];
    cbn; try reflexivity;
    destruct (users_select auth (app_id u) w1) as [[res|e] w2];
    reflexivity.
Qed.

(** X24: [login] writes the "remember me" choice to the local storage
    before it authenticates, so the choice holds whatever comes of the
    login: with the option set the flag is "true" and the saved email is
    the email typed, otherwise both keys are absent; no other key is
    touched, and the first call made is the one that authenticates. *)
Theorem login_remembers_first (credentials : LoginCredentials)
    (rememberMe : bool) (s : Hook W C) :
  getItem REMEMBER_ME_KEY (h_storage (snd (login auth credentials rememberMe s)))
  = (if rememberMe then Some "true" else None) /\
  getItem SAVED_EMAIL_KEY (h_storage (snd (login auth credentials rememberMe s)))
  = (if rememberMe then Some (cred_email credentials) else None) /\
  (forall k, k <> REMEMBER_ME_KEY -> k <> SAVED_EMAIL_KEY ->
     getItem k (h_storage (snd (login auth credentials rememberMe s)))
     = getItem k (h_storage s)) /\
  exists more,
    h_calls (snd (login auth credentials rememberMe s))
    = (h_calls s ++
       EvLoginUser credentials
         (fst (loginUser auth credentials (h_world s))) :: more)%list.
Proof.
  pose proof (login_storage credentials rememberMe s) as St.
  destruct (remembered_storage (cred_email credentials) rememberMe
              (h_storage s)) as (Hflag & Hmail & Hother).
  cbn zeta in Hflag, Hmail, Hother. rewrite <- St in Hflag, Hmail, Hother.
  split; [exact Hflag|]. split; [exact Hmail|]. split; [exact Hother|].
  unfold_auth. destruct rememberMe; cbn;
    destruct (loginUser auth credentials (h_world s)) as [[u|e] w1];
    cbn; try (eexists; reflexivity);
    destruct (users_select auth (app_id u) w1) as [[res|e] w2];
    cbn; rewrite <- ?app_assoc; eexists; reflexivity.
Qed.

(** X25: a failed [login] fails for the caller and records the message of
    the error, and it leaves the user of the hook as it was; this is so
    when the authentication is rejected, and also when the
    authentication succeeds and the query of the users table that
    follows is rejected. *)
Theorem login_failure_keeps_user (credentials : LoginCredentials)
    (rememberMe : bool) (s : Hook W C) :
  (forall e w1,
     loginUser auth credentials (h_world s) = (Rejected e, w1) ->
     fst (login auth credentials rememberMe s) = Exn e /\
     h_error (snd (login auth credentials rememberMe s))
       = Some (err_message e) /\
     h_user (snd (login auth credentials rememberMe s)) = h_user s) /\
  (forall u w1 e w2,
     loginUser auth credentials (h_world s) = (Returned u, w1) ->
     users_select auth (app_id u) w1 = (Rejected e, w2) ->
     fst (login auth credentials rememberMe s) = Exn e /\
     h_error (snd (login auth credentials rememberMe s))
       = Some (err_message e) /\
     h_user (snd (login auth credentials rememberMe s)) = h_user s).
Proof.
  split.
  - intros e w1 H. unfold_auth. destruct rememberMe; cbn; rewrite H;
      repeat split.
  - intros u w1 e w2 H1 H2. unfold_auth. destruct rememberMe; cbn;
      rewrite H1; cbn; rewrite H2; repeat split.
Qed.

(** X26: a [login] that succeeds clears the error and sets the user the
    auth service returned, completed from the users table: the row never
    changes id, email, name or creation date; each of the columns role,
    department_id, batch_id, section_id, phone, student_id and avatar
    replaces its field when it is not empty and leaves the field as the
    auth service gave it when it is empty, so an empty column never erases
    a field the auth service had filled; when the query returns an error
    the user is set as the auth service returned it. *)
Theorem login_merges_row (credentials : LoginCredentials) (rememberMe : bool)
    (s : Hook W C) (u : AppUser) (w1 w2 : W) (res : Response UserRow) :
  loginUser auth credentials (h_world s) = (Returned u, w1) ->
  users_select auth (app_id u) w1 = (Returned res, w2) ->
  exists u',
    fst (login auth credentials rememberMe s) = Val tt /\
    h_error (snd (login auth credentials rememberMe s)) = None /\
    h_user (snd (login auth credentials rememberMe s)) = Some u' /\
    app_id u' = app_id u /\ app_email u' = app_email u /\
    app_name u' = app_name u /\ app_createdAt u' = app_createdAt u /\
    (forall e, res = Failure e -> u' = u) /\
    (forall row, res = Data row ->
       (JsString.truthy (ur_role row) = true ->
        Some (app_role u') = ur_role row) /\
       (JsString.truthy (ur_role row) = false -> app_role u' = app_role u) /\
       app_departmentId u'
       = (if JsString.truthy (ur_department_id row)
          then ur_department_id row else app_departmentId u) /\
       app_batchId u'
       = (if JsString.truthy (ur_batch_id row)
          then ur_batch_id row else app_batchId u) /\
       app_sectionId u'
       = (if JsString.truthy (ur_section_id row)
          then ur_section_id row else app_sectionId u) /\
       app_phone u'
       = (if JsString.truthy (ur_phone row)
          then ur_phone row else app_phone u) /\
       app_studentId u'
       = (if JsString.truthy (ur_student_id row)
          then ur_student_id row else app_studentId u) /\
       app_avatar u'
       = (if JsString.truthy (ur_avatar row)
          then ur_avatar row else app_avatar u) /\
       (JsString.truthy (app_sectionId u) = true ->
        JsString.truthy (app_sectionId u') = true) /\
       (JsString.truthy (app_departmentId u) = true ->
        JsString.truthy (app_departmentId u') = true) /\
       (JsString.truthy (app_batchId u) = true ->
        JsString.truthy (app_batchId u') = true) /\
       (JsString.truthy (app_phone u) = true ->
        JsString.truthy (app_phone u') = true) /\
       (JsString.truthy (app_studentId u) = true ->
        JsString.truthy (app_studentId u') = true) /\
       (JsString.truthy (app_avatar u) = true ->
        JsString.truthy (app_avatar u') = true)).
Proof.
  intros H1 H2.
  assert (Keep : forall a b, JsString.truthy b = true ->
                             JsString.truthy (overwrite a b) = true).
  { intros a b Hb. unfold overwrite.
    destruct (JsString.truthy a) eqn:E; assumption. }
  exists (match res with
          | Failure _ => u
          | Data userData => merge_row u userData
          end).
  split; [|split; [|split]].
  - unfold_auth. destruct rememberMe; cbn; rewrite H1; cbn; now rewrite H2.
  - unfold_auth. destruct rememberMe; cbn; rewrite H1; cbn; now rewrite H2.
  - unfold_auth. destruct rememberMe; cbn; rewrite H1; cbn; now rewrite H2.
  - destruct res as [row|e];
      cbn [merge_row app_id app_email app_name app_createdAt];
      (split; [reflexivity|]); (split; [reflexivity|]);
      (split; [reflexivity|]); (split; [reflexivity|]);
      (split; [intros ? [=]; try reflexivity|]);
      intros r [=]; subst.
    cbn [merge_row app_role app_sectionId app_departmentId app_batchId
           app_phone app_studentId app_avatar].
    split.
    { intros Ht. rewrite Ht.
      destruct (ur_role r) as [x|]; [reflexivity | discriminate]. }
    split; [now intros ->|].
    repeat (split; [reflexivity|]).
    repeat split; apply Keep.
Qed.

(** The loop over the cookie pieces only writes cookies. *)
Lemma expireCookies_run (pieces : list string) (s : Hook W C) :
  exists w' writes,
    expireCookies auth pieces s
    = (Val tt,
       mkHook w' (h_calls s ++ map EvCookieWrite writes)%list (h_user s)
         (h_loading s) (h_error s) (h_savedEmail s) (h_storage s)) /\
    List.length writes = List.length pieces.
Proof.
  revert s. induction pieces as [|c rest IH]; intros s.
  - exists (h_world s), []. cbn. rewrite app_nil_r. now destruct s.
  - cbn [expireCookies]. unfold bind at 1. unfold writeCookie at 1.
    destruct (IH (mkHook (cookie_set auth
                            (expired_cookie (now_utc auth (h_world s)) c)
                            (h_world s))
                    (h_calls s ++
                     [EvCookieWrite
                        (expired_cookie (now_utc auth (h_world s)) c)])%list
                    (h_user s) (h_loading s) (h_error s) (h_savedEmail s)
                    (h_storage s)))
      as (w' & writes & E & L).
    rewrite E. cbn.
    exists w', (expired_cookie (now_utc auth (h_world s)) c :: writes).
    cbn. rewrite <- app_assoc. split; [reflexivity | now rewrite L].
Qed.

Lemma logout_run (s : Hook W C) :
  match logoutUser auth (h_world s) with
  | (Rejected e, w1) =>
      logout auth s
      = (Exn e,
         mkHook w1 (h_calls s ++ [EvLogoutUser (Rejected e)])%list None
           (h_loading s) (Some (err_message e)) (h_savedEmail s)
           (h_storage s))
  | (Returned u, w1) =>
      exists w' writes,
        logout auth s
        = (Val true,
           mkHook w'
             (h_calls s ++ EvLogoutUser (Returned u) ::
              map EvCookieWrite writes)%list None (h_loading s) None
             (h_savedEmail s) (storage_after_logout (h_storage s))) /\
        List.length writes
        = List.length (JsString.split ";" (cookie_get auth w1))
  end.
Proof.
  unfold_auth. cbn.
  destruct (logoutUser auth (h_world s)) as [[u|e] w1]; cbn; [|reflexivity].
  unfold storage_after_logout.
  destruct (negb (strict_eq (getItem REMEMBER_ME_KEY (h_storage s))
                    (Some "true"))); cbn;
    match goal with
    | |- context [expireCookies auth ?p ?s0] =>
        destruct (expireCookies_run p s0) as (w' & writes & E & L);
        rewrite E; cbn; exists w', writes;
        rewrite <- app_assoc; split; [reflexivity | exact L]
    end.
Qed.

(** X27: [logout] signs the user out in the hook before it calls the auth
    service, so the user is gone even when that call is rejected; a
    rejected call fails for the caller, records the message and leaves
    the local storage as it was.  A logout that succeeds removes the
    stored session keys, keeps the "remember me" flag, keeps the saved
    email only when the flag is "true", and writes one cookie for each
    piece of the cookie text. *)
Theorem logout_signs_out_first (s : Hook W C) :
  h_user (snd (logout auth s)) = None /\
  (forall e w1,
     logoutUser auth (h_world s) = (Rejected e, w1) ->
     fst (logout auth s) = Exn e /\
     h_error (snd (logout auth s)) = Some (err_message e) /\
     h_storage (snd (logout auth s)) = h_storage s /\
     h_calls (snd (logout auth s))
     = (h_calls s ++ [EvLogoutUser (Rejected e)])%list) /\
  (forall u w1,
     logoutUser auth (h_world s) = (Returned u, w1) ->
     fst (logout auth s) = Val true /\
     h_error (snd (logout auth s)) = None /\
     getItem "supabase.auth.token" (h_storage (snd (logout auth s))) = None /\
     getItem "nesttask_user" (h_storage (snd (logout auth s))) = None /\
     getItem REMEMBER_ME_KEY (h_storage (snd (logout auth s)))
     = getItem REMEMBER_ME_KEY (h_storage s) /\
     getItem SAVED_EMAIL_KEY (h_storage (snd (logout auth s)))
     = (if strict_eq (getItem REMEMBER_ME_KEY (h_storage s)) (Some "true")
        then getItem SAVED_EMAIL_KEY (h_storage s) else None) /\
     exists writes,
       h_calls (snd (logout auth s))
       = (h_calls s ++ EvLogoutUser (Returned u) ::
          map EvCookieWrite writes)%list /\
       List.length writes
       = List.length (JsString.split ";" (cookie_get auth w1))).
Proof.
  pose proof (logout_run s) as R.
  split; [|split].
  - destruct (logoutUser auth (h_world s)) as [[u|e] w1].
    + destruct R as (w' & writes & -> & _). reflexivity.
    + now rewrite R.
  - intros e w1 H. rewrite H in R. rewrite R. repeat split.
  - intros u w1 H. rewrite H in R. destruct R as (w' & writes & -> & L).
    cbn [fst snd h_error h_storage h_calls].
    split; [reflexivity|]. split; [reflexivity|].
    split; [|split; [|split; [|split]]].
    + unfold storage_after_logout.
      rewrite getItem_removeItem_other by discriminate.
      apply getItem_removeItem.
    + unfold storage_after_logout. apply getItem_removeItem.
    + apply storage_after_logout_flag.
    + apply storage_after_logout_saved.
    + now exists writes.
Qed.

(** X29: what [login] stores, [logout] respects: after a login with
    "remember me" (whether it succeeded or not) and a logout that
    succeeds, the email typed is still stored and the next start of the
    hook shows it as saved email; after a login without "remember me"
    and such a logout no saved email is stored. *)
Theorem remember_me_survives_logout (credentials : LoginCredentials)
    (rememberMe : bool) (s : Hook W C) :
  let s1 := snd (login auth credentials rememberMe s) in
  let s2 := snd (logout auth s1) in
  let s3 := snd (restoreSavedEmail s2) in
  fst (logout auth s1) = Val true ->
  (rememberMe = true ->
   getItem SAVED_EMAIL_KEY (h_storage s3) = Some (cred_email credentials) /\
   (cred_email credentials <> "" ->
    h_savedEmail s3 = Some (cred_email credentials))) /\
  (rememberMe = false ->
   getItem SAVED_EMAIL_KEY (h_storage s3) = None /\
   getItem REMEMBER_ME_KEY (h_storage s3) = None /\
   h_savedEmail s3 = h_savedEmail s1).
Proof.
  intros s1 s2 s3 Hout.
  pose proof (login_storage credentials rememberMe s) as St.
  fold s1 in St.
  destruct (remembered_storage (cred_email credentials) rememberMe
              (h_storage s)) as (Hflag & Hmail & _).
  cbn zeta in Hflag, Hmail. rewrite <- St in Hflag, Hmail.
  pose proof (logout_run s1) as R.
  destruct (logoutUser auth (h_world s1)) as [[u|e] w1].
  2:{ rewrite R in Hout. discriminate. }
  destruct R as (w' & writes & R & _). fold s2 in R.
  assert (E2 : h_storage s2 = storage_after_logout (h_storage s1))
    by (subst s2; now rewrite R).
  assert (Hsaved2 : h_savedEmail s2 = h_savedEmail s1)
    by (subst s2; now rewrite R).
  assert (Hflag2 : getItem REMEMBER_ME_KEY (h_storage s2)
                   = if rememberMe then Some "true" else None)
    by now rewrite E2, storage_after_logout_flag.
  assert (Hmail2 : getItem SAVED_EMAIL_KEY (h_storage s2)
                   = if rememberMe then Some (cred_email credentials)
                     else None).
  { rewrite E2, storage_after_logout_saved, Hflag, Hmail.
    now destruct rememberMe. }
  assert (Hs3 : h_storage s3 = h_storage s2) by
    (subst s3; unfold_auth; destruct (JsString.truthy _); reflexivity).
  split; intros ->; rewrite Hs3.
  - split; [exact Hmail2|]. intros Hnonempty. subst s3. unfold_auth.
    rewrite Hmail2. destruct (cred_email credentials) eqn:E;
      [congruence | reflexivity].
  - split; [exact Hmail2|]. split; [exact Hflag2|].
    subst s3. unfold_auth. rewrite Hmail2. cbn. exact Hsaved2.
Qed.

(** X30: [signup] and [forgotPassword] start by clearing the error.  A
    rejected call fails for the caller with the same error and records
    its message; a signup that succeeds sets the user the auth service
    returned and returns it, and a failed one leaves the user as it
    was. *)
Theorem hook_operations_record_errors (s : Hook W C) :
  (forall credentials,
     match signupUser auth credentials (h_world s) with
     | (Returned u, _) =>
         fst (signup auth credentials s) = Val u /\
         h_user (snd (signup auth credentials s)) = Some u /\
         h_error (snd (signup auth credentials s)) = None
     | (Rejected e, _) =>
         fst (signup auth credentials s) = Exn e /\
         h_user (snd (signup auth credentials s)) = h_user s /\
         h_error (snd (signup auth credentials s)) = Some (err_message e)
     end) /\
  (forall email,
     h_user (snd (forgotPassword auth email s)) = h_user s /\
     match resetPassword auth email (h_world s) with
     | (Returned _, _) =>
         fst (forgotPassword auth email s) = Val tt /\
         h_error (snd (forgotPassword auth email s)) = None
     | (Rejected e, _) =>
         fst (forgotPassword auth email s) = Exn e /\
         h_error (snd (forgotPassword auth email s)) = Some (err_message e)
     end).
Proof.
  split.
  - intros credentials. unfold_auth. cbn.
    destruct (signupUser auth credentials (h_world s)) as [[u|e] w1];
      repeat split.
  - intros email. unfold_auth. cbn.
    destruct (resetPassword auth email (h_world s)) as [[[]|e] w1];
      repeat split.
Qed.

End AuthFacts.

(** A text that holds none of the words of a list does not begin with
    one, and neither does its tail hold one. *)
Lemma none_included (l : list string) (c : ascii) (s : string) :
  forallb (fun t => negb (includes t (String c s))) l = true ->
  existsb (fun t => startsWith t (String c s)) l = false /\
  forallb (fun t => negb (includes t s)) l = true.
Proof.
  induction l as [|t l IH]; [now split|].
  cbn [forallb existsb]. intros H.
  apply andb_true_iff in H as [Ht Hl].
  apply negb_true_iff in Ht.
  change (includes t (String c s))
    with (startsWith t (String c s) || includes t s) in Ht.
  apply orb_false_iff in Ht as [Hs Hi].
  destruct (IH Hl) as [E F]. rewrite Hs, Hi, E, F. now split.
Qed.

(** A text that holds no line terminator has nothing after its line. *)
Lemma from_line_end_none (s : string) :
  forallb (fun t => negb (includes t s)) line_terminators = true ->
  from_line_end s = "".
Proof.
  induction s as [|c s IH]; [reflexivity|].
  intros H. cbn [from_line_end].
  destruct (none_included line_terminators c s H) as [Here Hs].
  unfold line_terminator. rewrite Here. exact (IH Hs).
Qed.

(** What follows the line is the end of the text; it is empty or begins
    with a line terminator, and no line terminator begins before it. *)
Lemma from_line_end_suffix (s : string) :
  exists dropped,
    s = dropped ++ from_line_end s /\
    forallb (fun t => negb (starts_in t dropped (from_line_end s)))
      line_terminators = true /\
    (from_line_end s = "" \/ line_terminator (from_line_end s) = true).
Proof.
  induction s as [|c s (d & Hd & Hn & Hk)].
  - exists "". repeat split. now left.
  - cbn [from_line_end]. destruct (line_terminator (String c s)) eqn:E.
    + exists "". repeat split. now right.
    + exists (String c d). split; [cbn [append]; now rewrite <- Hd|].
      split; [|exact Hk].
      cbn [starts_in append]. rewrite <- Hd.
      unfold line_terminator in E. revert E Hn.
      induction line_terminators as [|t l IHl]; [reflexivity|].
      cbn [existsb forallb]. intros E Hn.
      apply orb_false_iff in E as [E1 E2].
      apply andb_true_iff in Hn as [N1 N2].
      rewrite E1, (IHl E2 N2). cbn [orb]. now rewrite N1.
Qed.

(** X28: the text written for a cookie piece keeps the name of the cookie
    and drops its value: leading spaces are removed, and the first "="
    with what follows it on its line is replaced by the expiry in the
    past.  What comes after the line, from the first line terminator (LF,
    CR, U+2028 or U+2029) of the value on, is kept behind the expiry; a
    value without a line terminator is dropped whole.  A piece without "=" is written
    back with its leading spaces removed. *)
Theorem expired_cookie_keeps_name (now c : string) :
  (forall cname cvalue,
     strip_spaces c = cname ++ "=" ++ cvalue ->
     includes "=" cname = false ->
     expired_cookie now c
     = cname ++ "=;expires=" ++ now ++ ";path=/" ++ from_line_end cvalue /\
     (exists dropped,
        cvalue = dropped ++ from_line_end cvalue /\
        forallb (fun t => negb (starts_in t dropped (from_line_end cvalue)))
          line_terminators = true /\
        (from_line_end cvalue = "" \/
         line_terminator (from_line_end cvalue) = true)) /\
     (forallb (fun t => negb (includes t cvalue)) line_terminators = true ->
      expired_cookie now c = cname ++ "=;expires=" ++ now ++ ";path=/")) /\
  (includes "=" (strip_spaces c) = false ->
   expired_cookie now c = strip_spaces c).
Proof.
  unfold expired_cookie.
  assert (Step : forall x t,
            includes "=" (String x t) = false ->
            Ascii.eqb x "="%char = false /\ includes "=" t = false).
  { intros x t H. cbn [includes startsWith] in H.
    apply orb_false_iff in H as [H1 H2]. rewrite andb_true_r in H1.
    rewrite Ascii.eqb_sym in H1. now split. }
  assert (Main : forall cname cvalue,
            includes "=" cname = false ->
            replace_from_equals ("=;expires=" ++ now ++ ";path=/")
              (cname ++ "=" ++ cvalue)
            = cname ++ "=;expires=" ++ now ++ ";path=/"
              ++ from_line_end cvalue).
  { intros cname cvalue Hname. induction cname as [|x n IH].
    - cbn [append replace_from_equals]. cbn. now rewrite !append_assoc.
    - destruct (Step x n Hname) as [Hx Hn].
      cbn [append replace_from_equals]. rewrite Hx.
      change (String x (n ++ "=" ++ cvalue)) with
        (String x (n ++ String "=" cvalue)).
      cbn [append] in IH. now rewrite (IH Hn). }
  split.
  - intros cname cvalue -> Hname.
    split; [exact (Main cname cvalue Hname)|].
    split; [exact (from_line_end_suffix cvalue)|].
    intros Hvalue. rewrite (Main cname cvalue Hname).
    rewrite (from_line_end_none cvalue Hvalue).
    now rewrite !append_nil_r.
  - intros H. induction (strip_spaces c) as [|x t IH]; [reflexivity|].
    destruct (Step x t H) as [Hx Ht].
    cbn [replace_from_equals]. now rewrite Hx, (IH Ht).
Qed.

(** A cookie whose value runs over a line separator, U+2028: the value is
    dropped up to the separator only. *)
Lemma expired_cookie_keeps_name_witness :
  expired_cookie "Thu, 01 Jan 2026 00:00:00 GMT" " theme=dark"
  = "theme=;expires=Thu, 01 Jan 2026 00:00:00 GMT;path=/" /\
  expired_cookie "NOW" ("a=b" ++ LINE_SEPARATOR ++ "c=d")
  = "a=;expires=NOW;path=/" ++ LINE_SEPARATOR ++ "c=d".
Proof.
  split.
  - exact (proj2 (proj2 (proj1 (expired_cookie_keeps_name
                    "Thu, 01 Jan 2026 00:00:00 GMT" " theme=dark")
             "theme" "dark" eq_refl eq_refl)) eq_refl).
  - exact (proj1 (proj1 (expired_cookie_keeps_name "NOW"
                    ("a=b" ++ LINE_SEPARATOR ++ "c=d"))
             "a" ("b" ++ LINE_SEPARATOR ++ "c=d") eq_refl eq_refl)).
Defined.

(** ** The further properties at work *)

Lemma every_candidate_accounted_witness :
  exists report s',
    bulkImportCourses Memory.backend
      [Memory.candidate "CSE101" None None;
       Memory.candidate "CSE102" (Some "Dr. X") None;
       Memory.candidate "CSE101" None None]
      (start (Memory.store "admin" None [])) = (Val report, s') /\
    success report + List.length (filter hard (errors report))
      + List.length
          (filter (section_missing (role_of (Memory.signed_in "admin" None)))
             [Memory.candidate "CSE101" None None;
              Memory.candidate "CSE102" (Some "Dr. X") None;
              Memory.candidate "CSE101" None None])
    = 3 /\
    List.length (errors report) <= 2 * 3.
Proof.
  exact (every_candidate_accounted Memory.backend
           [Memory.candidate "CSE101" None None;
            Memory.candidate "CSE102" (Some "Dr. X") None;
            Memory.candidate "CSE101" None None]
           (Memory.store "admin" None []) (Memory.store "admin" None [])
           (Memory.signed_in "admin" None) eq_refl eq_refl
           (fun id => eq_refl)).
Defined.

Lemma no_teacher_step_no_teacher_call_witness :
  exists evs,
    trace (env (snd (import_row Memory.backend (Some "admin")
                       (Memory.signed_in "admin" None) 0
                       (Memory.candidate "CSE101" None None)
                       (start (Memory.store "admin" None [])))))
      = ([] ++ evs)%list /\
    filter teacher_call evs = [] /\
    forall row reply,
      In (EvCoursesInsert row reply) evs ->
      ins_teacher_id row = None.
Proof.
  exact (no_teacher_step_no_teacher_call Memory.backend (Some "admin")
           (Memory.signed_in "admin" None) 0
           (Memory.candidate "CSE101" None None)
           (start (Memory.store "admin" None [])) eq_refl).
Defined.

Lemma existing_teacher_lookup_witness :
  exists s',
    import_row Memory.backend (Some "admin") (Memory.signed_in "admin" None)
      0 (Memory.candidate "CSE101" (Some "dr. x") None)
      (start (Memory.mkStore (Memory.signed_in "admin" None) []
                [mkTeacherRow "t9" "Dr. X"] [] None))
    = (Val tt, s') /\
    errs s' = [] /\ successCount s' = 1 /\
    filter insert_call (trace (env s'))
    = [EvCoursesInsert
         (bulk_insert (Memory.signed_in "admin" None)
            (Memory.candidate "CSE101" (Some "dr. x") None) (Some "t9"))
         (Returned (Data (Memory.stored_row 1
            (bulk_insert (Memory.signed_in "admin" None)
               (Memory.candidate "CSE101" (Some "dr. x") None)
               (Some "t9")))))].
Proof.
  eexists. split.
  - refine (existing_teacher_lookup Memory.backend (Some "admin")
              (Memory.signed_in "admin" None) 0
              (Memory.candidate "CSE101" (Some "dr. x") None)
              (start (Memory.mkStore (Memory.signed_in "admin" None) []
                        [mkTeacherRow "t9" "Dr. X"] [] None))
              _ _ _ _ (Returned (Data (Some (mkTeacherRow "t9" "Dr. X")))) _
              eq_refl eq_refl eq_refl eq_refl eq_refl eq_refl).
  - repeat split; reflexivity.
Defined.

Lemma createCourse_returns_class_times_witness :
  exists c,
    fst (createCourse Memory.backend (Memory.candidate "CSE101" None None)
           (mkEnv (Memory.store "admin" None []) [])) = Val c /\
    course_classTimes c
    = [mkClassTime (Some "Mon") (Some "10:00") (Some "R1")].
Proof.
  destruct (createCourse_returns_class_times Memory.backend
              (Memory.candidate "CSE101" None None)
              (mkEnv (Memory.store "admin" None []) [])
              (Memory.store "admin" None [])
              (Memory.mkStore (Memory.signed_in "admin" None) ["CSE101"] []
                 [] None)
              (Memory.signed_in "admin" None)
              (Memory.stored_row 1
                 (createCourse_insert (Memory.candidate "CSE101" None None)))
              eq_refl eq_refl eq_refl eq_refl eq_refl)
    as (c & Hc & Hround & _).
  exists c. split; [exact Hc|]. apply Hround; [discriminate | reflexivity].
Defined.

Lemma role_gate_guards_creation_only_witness :
  (exists e,
     fst (createCourse Memory.backend (Memory.candidate "CSE101" None None)
            (mkEnv (Memory.store "user" None []) [])) = Exn e) /\
  fst (updateCourse Shelf.store "c1"
         (mkCourseUpdates (Some "Algorithms II") None None None None None
            None None None) (Shelf.shelf, []))
  = Val (mapCourseFromDB
           (Shelf.patched
              (course_patch
                 (mkCourseUpdates (Some "Algorithms II") None None None None
                    None None None None)) Shelf.algorithms)).
Proof.
  destruct (role_gate_guards_creation_only (W := Shelf.Shelf)
              (mkBackend Shelf.Shelf
                 (fun w => (Returned (Memory.signed_in "user" None), w))
                 (fun _ w => (Returned (Data None), w))
                 (fun _ w => (Returned (Data None), w))
                 (fun _ w => (Returned false, w))
                 (fun _ w => (Returned (Failure Shelf.no_rows), w))
                 (fun _ w => (Returned (Data None), w))
                 (fun _ w => (Returned (Failure Shelf.no_rows), w)))
              Shelf.store (Memory.candidate "CSE101" None None) "c1"
              (mkCourseUpdates (Some "Algorithms II") None None None None
                 None None None None)
              Shelf.shelf Shelf.shelf (Memory.signed_in "user" None)
              eq_refl eq_refl)
    as (_ & _ & Hupd & _).
  split; [eexists; reflexivity|].
  exact (Hupd _ eq_refl).
Defined.

Lemma updateCourse_returns_class_times_witness :
  exists c,
    fst (updateCourse Shelf.store "c1"
           (mkCourseUpdates None None None
              (Some [mkClassTime (Some "Tue") (Some "2:30 PM") None])
              None None None None None) (Shelf.shelf, [])) = Val c /\
    course_classTimes c = [mkClassTime (Some "Tue") (Some "2:30 PM") None].
Proof.
  destruct (proj2 (updateCourse_returns_class_times Shelf.store "c1"
              (mkCourseUpdates None None None
                 (Some [mkClassTime (Some "Tue") (Some "2:30 PM") None])
                 None None None None None) (Shelf.shelf, []) _ _ eq_refl)
              _ eq_refl eq_refl)
    as (c & Hc & Hround & _).
  exists c. split; [exact Hc|]. apply Hround; [discriminate | reflexivity].
Defined.

Lemma fetchCourses_in_order_witness :
  exists cs,
    fst (fetchCourses Shelf.store (Shelf.shelf, [])) = Val cs /\
    map fst cs = [mapCourseFromDB Shelf.algorithms] /\
    map snd cs = [1] /\
    Forall (fun c => course_classTimes (fst c) <> []) cs.
Proof.
  exact (fetchCourses_in_order Shelf.store (Shelf.shelf, []) Shelf.shelf
           (Data (Some (Shelf.sh_courses Shelf.shelf))) eq_refl).
Defined.

Lemma study_materials_from_rows_witness :
  exists rows,
    fst (materials_select_all Shelf.store Shelf.shelf)
      = Returned (Data rows) /\
    map materialFromDB [Shelf.notes] = map materialFromDB rows.
Proof.
  exact (proj1 (proj2 (study_materials_from_rows Shelf.store))
           (Shelf.shelf, [])
           (Shelf.shelf, [EvMaterialsSelectAll
                            (Returned (Data [Shelf.notes]))])
           (map materialFromDB [Shelf.notes]) eq_refl).
Defined.

Lemma session_failure_aborts_witness :
  bulkImportCourses Desk.offline_users
    [Memory.candidate "CSE101" None None] (start tt)
  = (Val {| success := 0;
            errors := [batch_error (mkError "fetch failed")] |},
     {| env :=
          {| world := tt;
             trace :=
               [EvGetUser (Returned (Memory.signed_in "admin" None));
                EvUsersSelectRole "u1"
                  (Rejected (mkError "fetch failed"))] |};
        errs := [batch_error (mkError "fetch failed")];
        successCount := 0 |}).
Proof.
  exact (proj2 (session_failure_aborts Desk.offline_users
                  [Memory.candidate "CSE101" None None] tt)
           (mkUser "u1" (Some "admin@nesttask.com")
              (Some (mkMetadata (Some "admin") None)))
           tt (mkError "fetch failed") tt eq_refl eq_refl eq_refl).
Defined.

Lemma updateUserState_sets_role_witness :
  exists u,
    h_user (snd (updateUserState
                   (Desk.backend None (Returned (Data Desk.student_row))
                      (Returned Desk.account) (Returned tt) "")
                   Desk.student Desk.fresh)) = Some u /\
    app_role u = "section_admin".
Proof.
  destruct (updateUserState_sets_role
              (Desk.backend None (Returned (Data Desk.student_row))
                 (Returned Desk.account) (Returned tt) "")
              Desk.student Desk.fresh (Data Desk.student_row) tt eq_refl)
    as (u & Hrun & _ & _ & Hrole).
  exists u. rewrite Hrun. split; [reflexivity | exact Hrole].
Defined.

Lemma user_name_from_email_witness :
  app_name (user_of Desk.student (Some Desk.student_row)) = "rahim".
Proof.
  exact (proj1 (user_name_from_email Desk.student (Some Desk.student_row)
                  eq_refl eq_refl) "rahim" "diu.edu.bd" eq_refl eq_refl).
Defined.

Lemma login_merges_row_witness :
  exists u',
    h_user (snd (login
                   (Desk.backend None (Returned (Data Desk.student_row))
                      (Returned Desk.account) (Returned tt) "")
                   (mkLoginCredentials "rahim@diu.edu.bd" "secret") false
                   Desk.fresh)) = Some u' /\
    app_role u' = "section_admin" /\ app_sectionId u' = Some "B" /\
    app_phone u' = Some "0170".
Proof.
  destruct (login_merges_row
              (Desk.backend None (Returned (Data Desk.student_row))
                 (Returned Desk.account) (Returned tt) "")
              (mkLoginCredentials "rahim@diu.edu.bd" "secret") false
              Desk.fresh Desk.account tt tt (Data Desk.student_row)
              eq_refl eq_refl)
    as (u' & _ & _ & Hu & _ & _ & _ & _ & _ & Hrow).
  destruct (Hrow Desk.student_row eq_refl)
    as (Hrole & _ & _ & _ & Hsection & Hphone & _).
  exists u'. split; [exact Hu|].
  split; [|split].
  - specialize (Hrole eq_refl). now inversion Hrole.
  - exact Hsection.
  - exact Hphone.
Defined.

Lemma remember_me_survives_logout_witness :
  h_savedEmail
    (snd (restoreSavedEmail
            (snd (logout
                    (Desk.backend None (Returned (Data Desk.student_row))
                       (Rejected (mkError "Invalid login credentials"))
                       (Returned tt) "theme=dark; lang=en")
                    (snd (login
                            (Desk.backend None
                               (Returned (Data Desk.student_row))
                               (Rejected
                                  (mkError "Invalid login credentials"))
                               (Returned tt) "theme=dark; lang=en")
                            (mkLoginCredentials "rahim@diu.edu.bd" "wrong")
                            true Desk.fresh))))))
  = Some "rahim@diu.edu.bd".
Proof.
  refine (proj2 (proj1 (remember_me_survives_logout
                    (Desk.backend None (Returned (Data Desk.student_row))
                       (Rejected (mkError "Invalid login credentials"))
                       (Returned tt) "theme=dark; lang=en")
                    (mkLoginCredentials "rahim@diu.edu.bd" "wrong") true
                    Desk.fresh eq_refl) eq_refl) _).
  discriminate.
Defined.
